(** * Atlas building chatbot: routing and SQL-safety core

    A shallow embedding of the routing pipeline ([src/router.py]), the two
    SQL safety gates ([src/router.py], [src/db.py]), the two tool
    dispatchers and their entry points ([src/agent.py], [src/chatbot.py]),
    the helpers of the database client ([src/db.py]), the planner
    ([src/planner.py]), the data profile ([src/data_profile.py]) and the
    quick indicators ([src/insights.py]), with the properties the
    specification states about them and further properties of the code.

    Python values are modelled as follows.
    - [str] is a list of Unicode code points ([pystr]).
    - [int] is [Z]; [float] is a binary64 float ([PrimFloat.float]).
    - [dict] is an association list in insertion order.
    - an exception is an explicit outcome ([Raise]) of the [result] type.
    - what lies outside the repository (the Unicode tables beyond ASCII,
      [sqlglot], [json], the rendering of floats and containers, the text of
      built-in exceptions) is a field of the environment record [py_env];
      the ASCII part of every table is written out, so that the definitions
      compute on ASCII input whatever the environment.
    - the database is reached through recorded requests ([Backend]): the
      operations of the database client, the coffee planner and every
      statement handed to the connection for execution; what the code
      reads off a table with pandas is a field of the record [columns]. *)

From Stdlib Require Import ZArith NArith List String Ascii Bool Lia Floats DecimalPos.
Import ListNotations.

Set Warnings "-inexact-float,-register-all".

(** ** Strings *)

Definition pystr := list N.

Module Utf8.
(** Source literals are written as Rocq strings, which hold UTF-8 bytes;
    [decode] turns them into code points. *)

Definition cont (b : N) : N := N.land b 63.

Fixpoint decode_fuel (fuel : nat) (bs : list N) : pystr :=
  match fuel with
  | O => []
  | S fuel' =>
    match bs with
    | [] => []
    | b0 :: r0 =>
      if (b0 <? 128)%N then b0 :: decode_fuel fuel' r0
      else if (b0 <? 224)%N then
        match r0 with
        | b1 :: r1 =>
            (N.land b0 31 * 64 + cont b1)%N :: decode_fuel fuel' r1
        | _ => [b0]
        end
      else if (b0 <? 240)%N then
        match r0 with
        | b1 :: b2 :: r2 =>
            (N.land b0 15 * 4096 + cont b1 * 64 + cont b2)%N
              :: decode_fuel fuel' r2
        | _ => b0 :: r0
        end
      else
        match r0 with
        | b1 :: b2 :: b3 :: r3 =>
            (N.land b0 7 * 262144 + cont b1 * 4096 + cont b2 * 64 + cont b3)%N
              :: decode_fuel fuel' r3
        | _ => b0 :: r0
        end
    end
  end.

Definition decode (s : string) : pystr :=
  let bs := map Byte.to_N (list_byte_of_string s) in
  decode_fuel (List.length bs) bs.
End Utf8.

(** [u "text"] is the Python literal ["text"]. *)
Definition u (s : string) : pystr := Utf8.decode s.
Arguments u s%_string.

Definition cp_eqb (a b : N) : bool := N.eqb a b.

Fixpoint str_eqb (a b : pystr) : bool :=
  match a, b with
  | [], [] => true
  | x :: a', y :: b' => cp_eqb x y && str_eqb a' b'
  | _, _ => false
  end.

(** [s.startswith(p)] *)
Fixpoint startswith (p s : pystr) : bool :=
  match p, s with
  | [], _ => true
  | x :: p', y :: s' => cp_eqb x y && startswith p' s'
  | _ :: _, [] => false
  end.

(** [w in s] for strings: [w] occurs as a contiguous run of [s]. *)
Fixpoint contains (w s : pystr) : bool :=
  startswith w s ||
  match s with
  | [] => false
  | _ :: s' => contains w s'
  end.

(** [x in c] for a character. *)
Definition mem_cp (x : N) (cs : pystr) : bool := existsb (cp_eqb x) cs.

(** ** Integers as text *)

Fixpoint uint_cps (d : Decimal.uint) : pystr :=
  match d with
  | Decimal.Nil => []
  | Decimal.D0 d' => 48%N :: uint_cps d'
  | Decimal.D1 d' => 49%N :: uint_cps d'
  | Decimal.D2 d' => 50%N :: uint_cps d'
  | Decimal.D3 d' => 51%N :: uint_cps d'
  | Decimal.D4 d' => 52%N :: uint_cps d'
  | Decimal.D5 d' => 53%N :: uint_cps d'
  | Decimal.D6 d' => 54%N :: uint_cps d'
  | Decimal.D7 d' => 55%N :: uint_cps d'
  | Decimal.D8 d' => 56%N :: uint_cps d'
  | Decimal.D9 d' => 57%N :: uint_cps d'
  end.

(** [str(n)] for an [int]. *)
Definition str_of_int (n : Z) : pystr :=
  match Z.to_int n with
  | Decimal.Pos d => uint_cps d
  | Decimal.Neg d => 45%N :: uint_cps d
  end.

(** ** Values, exceptions, results *)

Inductive pyval :=
| VNone
| VBool (b : bool)
| VInt (n : Z)
| VFloat (f : float)
| VStr (s : pystr)
| VList (l : list pyval)
| VDict (d : list (pystr * pyval))
| VObj (attrs : list (pystr * pyval)).   (* an object with attributes *)

Definition pydict := list (pystr * pyval).

Inductive exn_kind :=
| ValueError | TypeError | KeyError | AttributeError | OverflowError
| ParseError            (* sqlglot.errors.ParseError *)
| OtherError.           (* raised by an external collaborator *)

(** [Raised k msg] is raised with a message the raising code fixes;
    [Builtin k ctx] comes from a built-in operation on the operand [ctx], and
    its message is the interpreter's. *)
Inductive exn :=
| Raised (k : exn_kind) (msg : pystr)
| Builtin (k : exn_kind) (ctx : pystr).

Definition exn_kind_of (e : exn) : exn_kind :=
  match e with Raised k _ => k | Builtin k _ => k end.

Inductive result (A : Type) :=
| Ok (a : A)
| Raise (e : exn).
Arguments Ok {A} a.
Arguments Raise {A} e.

Definition bind {A B} (m : result A) (f : A -> result B) : result B :=
  match m with
  | Ok a => f a
  | Raise e => Raise e
  end.

Notation "x <- m ;; k" := (bind m (fun x => k))
  (at level 61, m at next level, right associativity).

Definition is_ok {A} (m : result A) : bool :=
  match m with Ok _ => true | Raise _ => false end.

(** ** The environment: what the repository takes from outside *)

Record py_env := {
  (* Unicode character database, code points 128 and above *)
  u_lower      : N -> pystr;         (* str.lower() of one code point *)
  u_decomp     : N -> pystr;         (* its NFKD decomposition *)
  u_combining  : N -> bool;          (* unicodedata.combining(c) != 0 *)
  u_isspace    : N -> bool;          (* str.isspace(), regex \s *)
  u_decimal    : N -> option Z;      (* value of a decimal digit, regex \d *)
  u_isalnum    : N -> bool;          (* str.isalnum(), regex \w *)
  u_ci_eq      : N -> N -> bool;     (* re.IGNORECASE: pattern char, text char *)
  (* sqlglot.parse_one(sql, read="duckdb"): Ok, or the exception raised *)
  sqlglot_parse : pystr -> result unit;
  (* json.loads on a str, json.dumps on a value *)
  json_loads   : pystr -> result pyval;
  json_dumps   : pyval -> result pystr;
  (* float(s) for a str *)
  float_of_str : pystr -> result float;
  (* str(v) for floats, containers and objects *)
  str_other    : pyval -> pystr;
  (* str(e) for an exception raised by a built-in operation *)
  str_builtin_exn : exn_kind -> pystr -> pystr
}.

(** An environment with nothing beyond ASCII, a parser that accepts every
    statement and no JSON: the smallest instance, used to close examples. *)
Definition ascii_env : py_env := {|
  u_lower := fun c => [c];
  u_decomp := fun c => [c];
  u_combining := fun _ => false;
  u_isspace := fun _ => false;
  u_decimal := fun _ => None;
  u_isalnum := fun _ => false;
  u_ci_eq := fun p c => cp_eqb p c;
  sqlglot_parse := fun _ => Ok tt;
  json_loads := fun _ => Raise (Builtin ValueError []);
  json_dumps := fun _ => Ok [];
  float_of_str := fun _ => Raise (Builtin ValueError []);
  str_other := fun _ => [];
  str_builtin_exn := fun _ a => a
|}.

Section Unicode.
Variable E : py_env.

Definition is_ascii (c : N) : bool := (c <? 128)%N.

Definition ascii_lower (c : N) : N :=
  if ((65 <=? c) && (c <=? 90))%N then (c + 32)%N else c.

(** [\s] and [str.isspace]: tab, LF, VT, FF, CR, FS, GS, RS, US, space. *)
Definition is_space (c : N) : bool :=
  if is_ascii c
  then ((9 <=? c) && (c <=? 13) || (28 <=? c) && (c <=? 32))%N
  else u_isspace E c.

(** Value of a decimal digit. *)
Definition decimal_value (c : N) : option Z :=
  if is_ascii c
  then if ((48 <=? c) && (c <=? 57))%N then Some (Z.of_N c - 48)%Z else None
  else u_decimal E c.

(** [\d] *)
Definition is_digit (c : N) : bool :=
  match decimal_value c with Some _ => true | None => false end.

(** [\w]: alphanumeric or underscore. *)
Definition is_word (c : N) : bool :=
  if is_ascii c
  then ((48 <=? c) && (c <=? 57) || (65 <=? c) && (c <=? 90)
        || (97 <=? c) && (c <=? 122) || (c =? 95))%N
  else u_isalnum E c.

Definition lower_cp (c : N) : pystr :=
  if is_ascii c then [ascii_lower c] else u_lower E c.

(** [s.lower()], code point by code point.  (Python's one contextual rule,
    the final form of the Greek capital sigma, concerns non-ASCII text
    only and is left to [u_lower].) *)
Definition lower (s : pystr) : pystr := flat_map lower_cp s.

Fixpoint lstrip (s : pystr) : pystr :=
  match s with
  | [] => []
  | c :: s' => if is_space c then lstrip s' else s
  end.

Definition rstrip (s : pystr) : pystr := rev (lstrip (rev s)).

(** [s.strip()] *)
Definition strip (s : pystr) : pystr := rstrip (lstrip s).

(** [unicodedata.normalize("NFKD", s)] followed by the removal of every
    combining mark.  Canonical reordering only permutes combining marks,
    all of which are then dropped, so it does not show in the result. *)
Definition decomp_cp (c : N) : pystr :=
  if is_ascii c then [c] else u_decomp E c.

Definition is_combining (c : N) : bool :=
  if is_ascii c then false else u_combining E c.

Definition strip_accents (s : pystr) : pystr :=
  filter (fun c => negb (is_combining c)) (flat_map decomp_cp s).

(** Case-insensitive comparison of a pattern character with a text
    character, as [re.IGNORECASE] does it. *)
Definition ci_eq (p c : N) : bool :=
  if is_ascii c && is_ascii p
  then cp_eqb (ascii_lower p) (ascii_lower c)
  else u_ci_eq E p c.
End Unicode.

(** ** Regular expressions

    The patterns of the repository are evaluated by a backtracking matcher
    that follows Python's [re]: alternatives are tried from left to right,
    a greedy repetition tries the longest run first and a lazy one the
    shortest, [search] returns the leftmost match.  Every repeated
    sub-pattern of the repository consumes at least one character per
    iteration, which is what bounds the iteration count. *)

Inductive cls :=
| CDigit                 (* \d *)
| CSpace                 (* \s *)
| CSet (cs : pystr).     (* [...] *)

Inductive regex :=
| RLit (s : pystr)                                  (* literal text *)
| RAny                                              (* . *)
| RCls (c : cls)
| RSeq (r1 r2 : regex)
| RAlt (r1 r2 : regex)                              (* r1|r2 *)
| RRep (lo : nat) (hi : option nat) (greedy : bool) (r : regex)
| RGroup (n : nat) (r : regex)                      (* capturing group n *)
| RWordB                                            (* \b *)
| REnd.                                             (* $ *)

Fixpoint RSeqs (rs : list regex) : regex :=
  match rs with
  | [] => RLit []
  | [r] => r
  | r :: rs' => RSeq r (RSeqs rs')
  end.

Fixpoint RAlts (rs : list regex) : regex :=
  match rs with
  | [] => RLit []
  | [r] => r
  | r :: rs' => RAlt r (RAlts rs')
  end.

Definition RLits (ws : list pystr) : regex := RAlts (map RLit ws).
Definition ROpt (r : regex) : regex := RRep 0 (Some 1%nat) true r.    (* r? *)
Definition RStar (r : regex) : regex := RRep 0 None true r.           (* r* *)
Definition RPlus (r : regex) : regex := RRep 1 None true r.           (* r+ *)
Definition RPlusLazy (r : regex) : regex := RRep 1 None false r.      (* r+? *)

Record re_flags := { IGNORECASE : bool; DOTALL : bool }.
Definition no_flags : re_flags := {| IGNORECASE := false; DOTALL := false |}.
Definition flag_I : re_flags := {| IGNORECASE := true; DOTALL := false |}.
Definition flag_SI : re_flags := {| IGNORECASE := true; DOTALL := true |}.

(** Matcher state: the character before the cursor, the text after it, and
    the groups captured so far. *)
Record mstate := {
  m_prev : option N;
  m_rest : pystr;
  m_groups : list (nat * pystr)
}.

Definition advance (st : mstate) : option (N * mstate) :=
  match m_rest st with
  | [] => None
  | c :: rest =>
      Some (c, {| m_prev := Some c; m_rest := rest; m_groups := m_groups st |})
  end.

Definition set_group (n : nat) (from to : mstate) : mstate :=
  let len := (List.length (m_rest from) - List.length (m_rest to))%nat in
  {| m_prev := m_prev to; m_rest := m_rest to;
     m_groups := (n, firstn len (m_rest from)) :: m_groups to |}.

Fixpoint group (n : nat) (gs : list (nat * pystr)) : option pystr :=
  match gs with
  | [] => None
  | (k, s) :: gs' => if Nat.eqb k n then Some s else group n gs'
  end.

Section Regex.
Variable E : py_env.
Variable fl : re_flags.

Definition lit_eq (p c : N) : bool :=
  if IGNORECASE fl then ci_eq E p c else cp_eqb p c.

Definition cls_match (k : cls) (c : N) : bool :=
  match k with
  | CDigit => is_digit E c
  | CSpace => is_space E c
  | CSet cs => existsb (fun p => lit_eq p c) cs
  end.

Fixpoint eat_lit (s : pystr) (st : mstate) : option mstate :=
  match s with
  | [] => Some st
  | p :: s' =>
      match advance st with
      | Some (c, st') => if lit_eq p c then eat_lit s' st' else None
      | None => None
      end
  end.

Definition word_before (st : mstate) : bool :=
  match m_prev st with Some c => is_word E c | None => false end.

Definition word_after (st : mstate) : bool :=
  match m_rest st with c :: _ => is_word E c | [] => false end.

Definition shorter (a b : mstate) : bool :=
  (List.length (m_rest a) <? List.length (m_rest b))%nat.

Fixpoint rmatch (r : regex) (st : mstate)
         (k : mstate -> option mstate) {struct r} : option mstate :=
  match r with
  | RLit s =>
      match eat_lit s st with Some st' => k st' | None => None end
  | RAny =>
      match advance st with
      | Some (c, st') =>
          if DOTALL fl || negb (cp_eqb c 10) then k st' else None
      | None => None
      end
  | RCls c =>
      match advance st with
      | Some (x, st') => if cls_match c x then k st' else None
      | None => None
      end
  | RSeq r1 r2 => rmatch r1 st (fun st' => rmatch r2 st' k)
  | RAlt r1 r2 =>
      match rmatch r1 st k with
      | Some x => Some x
      | None => rmatch r2 st k
      end
  | RRep lo hi greedy r' =>
      (fix loop (fuel : nat) (i : nat) (st : mstate) {struct fuel}
         : option mstate :=
         match fuel with
         | O => if (lo <=? i)%nat then k st else None
         | S fuel' =>
             if greedy then
               match rmatch r' st
                       (fun st' => if shorter st' st
                                   then loop fuel' (S i) st' else None) with
               | Some x => Some x
               | None => if (lo <=? i)%nat then k st else None
               end
             else
               match (if (lo <=? i)%nat then k st else None) with
               | Some x => Some x
               | None =>
                   rmatch r' st
                     (fun st' => if shorter st' st
                                 then loop fuel' (S i) st' else None)
               end
         end)
        (match hi with
         | Some h => h
         | None => List.length (m_rest st)
         end) O st
  | RGroup n r' => rmatch r' st (fun st' => k (set_group n st st'))
  | RWordB => if xorb (word_before st) (word_after st) then k st else None
  | REnd =>
      match m_rest st with
      | [] => k st
      | [c] => if cp_eqb c 10 then k st else None
      | _ => None
      end
  end.

(** [re.search]: the first position, from the left, where the pattern
    matches; the result is the list of captured groups. *)
Fixpoint search_from (r : regex) (prev : option N) (s : pystr)
  : option (list (nat * pystr)) :=
  match rmatch r {| m_prev := prev; m_rest := s; m_groups := [] |}
          (fun st => Some st) with
  | Some st => Some (m_groups st)
  | None =>
      match s with
      | [] => None
      | c :: s' => search_from r (Some c) s'
      end
  end.

Definition re_search (r : regex) (s : pystr) : option (list (nat * pystr)) :=
  search_from r None s.

Definition re_found (r : regex) (s : pystr) : bool :=
  match re_search r s with Some _ => true | None => false end.
End Regex.

(** [m.group(n)] of a match of a pattern in which group [n] always takes
    part. *)
Definition grp (n : nat) (m : list (nat * pystr)) : pystr :=
  match group n m with Some s => s | None => [] end.


(** [re.sub(r, repl, s)]: every match, from left to right, replaced by
    [repl]; after an empty match the next character is copied. *)
Fixpoint re_sub_from (E : py_env) (fl : re_flags) (r : regex) (repl : pystr)
         (fuel : nat) (prev : option N) (s : pystr) : pystr :=
  match fuel with
  | O => s
  | S fuel' =>
      let here := {| m_prev := prev; m_rest := s; m_groups := [] |} in
      match rmatch E fl r here (fun st => Some st) with
      | Some st =>
          if shorter st here
          then repl ++ re_sub_from E fl r repl fuel' (m_prev st) (m_rest st)
          else match s with
               | [] => repl
               | c :: s' =>
                   repl ++ c :: re_sub_from E fl r repl fuel' (Some c) s'
               end
      | None =>
          match s with
          | [] => []
          | c :: s' => c :: re_sub_from E fl r repl fuel' (Some c) s'
          end
      end
  end.

Definition re_sub (E : py_env) (fl : re_flags) (r : regex) (repl s : pystr)
  : pystr :=
  re_sub_from E fl r repl (S (List.length s)) None s.

(** ** Built-in operations on values *)

Fixpoint dict_get (k : pystr) (d : pydict) : option pyval :=
  match d with
  | [] => None
  | (k', v) :: d' => if str_eqb k k' then Some v else dict_get k d'
  end.

(** [d[k] = v]: an existing key keeps its place, a new one goes last. *)
Fixpoint dict_set (k : pystr) (v : pyval) (d : pydict) : pydict :=
  match d with
  | [] => [(k, v)]
  | (k', v') :: d' =>
      if str_eqb k k' then (k', v) :: d' else (k', v') :: dict_set k v d'
  end.

(** [d.pop(k, None)], the dictionary that remains.  (A dictionary holds a
    key at most once; every entry under [k] goes.) *)
Fixpoint dict_pop (k : pystr) (d : pydict) : pydict :=
  match d with
  | [] => []
  | (k', v') :: d' =>
      if str_eqb k k' then dict_pop k d' else (k', v') :: dict_pop k d'
  end.

Definition dict_has (k : pystr) (d : pydict) : bool :=
  match dict_get k d with Some _ => true | None => false end.

(** Truth value of a Python object. *)
Definition truthy (v : pyval) : bool :=
  match v with
  | VNone => false
  | VBool b => b
  | VInt n => negb (Z.eqb n 0)
  | VFloat f => negb (PrimFloat.eqb f 0%float)
  | VStr s => match s with [] => false | _ => true end
  | VList l => match l with [] => false | _ => true end
  | VDict d => match d with [] => false | _ => true end
  | VObj _ => true
  end.

(** [a or b] *)
Definition py_or (a b : pyval) : pyval := if truthy a then a else b.

(** [a == "lit"] for a string literal. *)
Definition eq_str (v : pyval) (s : pystr) : bool :=
  match v with
  | VStr t => str_eqb t s
  | _ => false
  end.

Definition builtin_exn (k : exn_kind) (ctx : pystr) : exn := Builtin k ctx.

(** [getattr(v, name, None)] for the attribute names the router reads
    ([tool_calls], [function], [name], [arguments]); none of them exists on
    a built-in value. *)
Definition getattr_or_none (v : pyval) (name : pystr) : pyval :=
  match v with
  | VObj attrs => match dict_get name attrs with Some x => x | None => VNone end
  | _ => VNone
  end.

(** [v.name] *)
Definition getattr (v : pyval) (name : pystr) : result pyval :=
  match v with
  | VObj attrs =>
      match dict_get name attrs with
      | Some x => Ok x
      | None => Raise (builtin_exn AttributeError name)
      end
  | _ => Raise (builtin_exn AttributeError name)
  end.

(** [v.get(k)] and [v.get(k, default)]: only a [dict] has the method. *)
Definition get_default (v : pyval) (k : pystr) (default : pyval)
  : result pyval :=
  match v with
  | VDict d => Ok (match dict_get k d with Some x => x | None => default end)
  | _ => Raise (builtin_exn AttributeError (u "get"))
  end.

Definition get (v : pyval) (k : pystr) : result pyval := get_default v k VNone.

(** [v[k]] for a string key. *)
Definition getitem (v : pyval) (k : pystr) : result pyval :=
  match v with
  | VDict d =>
      match dict_get k d with
      | Some x => Ok x
      | None => Raise (builtin_exn KeyError k)
      end
  | _ => Raise (builtin_exn TypeError k)
  end.

(** [v[0]] *)
Definition getitem0 (v : pyval) : result pyval :=
  match v with
  | VList (x :: _) => Ok x
  | VStr (c :: _) => Ok (VStr [c])
  | VDict _ => Raise (builtin_exn KeyError (u "0"))
  | _ => Raise (builtin_exn TypeError (u "0"))
  end.

(** ["lit" in v] *)
Definition contains_str (s : pystr) (v : pyval) : result bool :=
  match v with
  | VStr t => Ok (contains s t)
  | VList l => Ok (existsb (fun x => eq_str x s) l)
  | VDict d => Ok (dict_has s d)
  | _ => Raise (builtin_exn TypeError (u "in"))
  end.

Definition is_dict (v : pyval) : bool :=
  match v with VDict _ => true | _ => false end.

Definition is_str (v : pyval) : bool :=
  match v with VStr _ => true | _ => false end.

(** [float(n)] for an [int]: nearest binary64, ties to even;
    [OverflowError] when that is not finite. *)
Definition float_of_int (n : Z) : result float :=
  let f := SF2Prim (SpecFloat.binary_normalize prec emax n 0 false) in
  if PrimFloat.is_infinity f
  then Raise (Raised OverflowError (u "int too large to convert to float"))
  else Ok f.

(** [int(f)] for a [float]: truncation towards zero. *)
Definition int_of_float (f : float) : result Z :=
  match Prim2SF f with
  | SpecFloat.S754_zero _ => Ok 0%Z
  | SpecFloat.S754_finite s m e =>
      let a := match e with
               | Z0 => Zpos m
               | Zpos p => (Zpos m * 2 ^ Zpos p)%Z
               | Zneg p => (Zpos m / 2 ^ Zpos p)%Z
               end in
      Ok (if s then (- a)%Z else a)
  | SpecFloat.S754_infinity _ => Raise (builtin_exn OverflowError [])
  | SpecFloat.S754_nan => Raise (builtin_exn ValueError [])
  end.

Section Builtins.
Variable E : py_env.

(** Digits of [int(s)]: decimal digits, single underscores between them. *)
Fixpoint digits_value (acc : Z) (after_digit : bool) (s : pystr) : option Z :=
  match s with
  | [] => if after_digit then Some acc else None
  | c :: s' =>
      match decimal_value E c with
      | Some d => digits_value (acc * 10 + d)%Z true s'
      | None =>
          if cp_eqb c 95 && after_digit then digits_value acc false s'
          else None
      end
  end.

(** [int(s)] for a [str] (the interpreter's optional cap on the number of
    digits is not modelled). *)
Definition int_of_str (s : pystr) : result Z :=
  let t := strip E s in
  let r := match t with
           | 43%N :: t' => digits_value 0 false t'
           | 45%N :: t' => option_map Z.opp (digits_value 0 false t')
           | _ => digits_value 0 false t
           end in
  match r with
  | Some n => Ok n
  | None => Raise (builtin_exn ValueError s)
  end.

(** [int(v)] *)
Definition py_int (v : pyval) : result Z :=
  match v with
  | VInt n => Ok n
  | VBool b => Ok (Z.b2z b)
  | VFloat f => int_of_float f
  | VStr s => int_of_str s
  | _ => Raise (builtin_exn TypeError (u "int"))
  end.

(** [float(v)] *)
Definition py_float (v : pyval) : result float :=
  match v with
  | VInt n => float_of_int n
  | VBool b => Ok (if b then 1%float else 0%float)
  | VFloat f => Ok f
  | VStr s => float_of_str E s
  | _ => Raise (builtin_exn TypeError (u "float"))
  end.

(** [str(v)], as an f-string renders it. *)
Definition py_str (v : pyval) : pystr :=
  match v with
  | VNone => u "None"
  | VBool true => u "True"
  | VBool false => u "False"
  | VInt n => str_of_int n
  | VStr s => s
  | _ => str_other E v
  end.

(** [str(e)] *)
Definition str_exn (e : exn) : pystr :=
  match e with
  | Raised _ msg => msg
  | Builtin k ctx => str_builtin_exn E k ctx
  end.
End Builtins.


(** * The router ([src/router.py]) *)

Module Router.

(** Environment feature flags, read once when the module is loaded. *)
Record flags := {
  FAST_INTENTS : bool;     (* Stage 1 *)
  FAST_SQL : bool;         (* Stage 2 *)
  LLM_ROUTING : bool;      (* Stage 4 *)
  STRICT_MODE : bool;      (* refuse when ungrounded *)
  MAX_ROWS : Z
}.

(** The values the flags take when the environment sets none of them. *)
Definition default_flags : flags := {|
  FAST_INTENTS := true; FAST_SQL := true; LLM_ROUTING := true;
  STRICT_MODE := true; MAX_ROWS := 500
|}.

Definition _BANNED : list pystr :=
  [u "insert"; u "update"; u "delete"; u "alter"; u "drop"; u "create";
   u "attach"; u "copy"; u "pragma"].

(** Decision container. *)
Inductive mode_t := tool | sql_mode | agent | rag | text_mode.

Record Decision := mkDecision {
  mode : mode_t;
  name : pyval;              (* Optional[str] *)
  args : pyval;              (* Optional[Dict[str, Any]] *)
  sql : option pystr;
  text : option pystr;
  trace : pystr
}.

(** Lexicons *)
Definition _LIST_VERBS : list pystr :=
  [u "list"; u "show"; u "which"; u "what"; u "what are"; u "give me";
   u "display"; u "enumerate"; u "all"; u "toon"; u "laat zien"; u "welke";
   u "wat zijn"; u "geef me"; u "alle"; u "اعرض"; u "ما هي"; u "ماهي";
   u "ايش"; u "كم"; u "عرض"; u "عدد"; u "الكل"].

Definition _FLOOR_WORDS : list pystr :=
  [u "floor"; u "floors"; u "level"; u "levels"; u "storey"; u "storeys";
   u "story"; u "stories"; u "verdieping"; u "verdiepingen"; u "etage";
   u "etages"; u "niveau"; u "niveaus"; u "طابق"; u "طوابق"; u "دور";
   u "ادوار"; u "أدوار"; u "دوران"].

Definition _ROOM_WORDS : list pystr :=
  [u "room"; u "rooms"; u "ruimte"; u "ruimtes"; u "kamer"; u "kamers";
   u "غرفة"; u "غرف"].

(** [or] on an optional integer, an optional float and an optional string. *)
Definition or_int (o : option Z) (d : Z) : Z :=
  match o with
  | Some n => if Z.eqb n 0 then d else n
  | None => d
  end.

Definition or_float (o : option float) (d : float) : float :=
  match o with
  | Some f => if PrimFloat.eqb f 0%float then d else f
  | None => d
  end.

Definition nonempty (o : option pystr) : option pystr :=
  match o with
  | Some (c :: s) => Some (c :: s)
  | _ => None
  end.

Definition opt_val {A} (f : A -> pyval) (o : option A) : pyval :=
  match o with Some a => f a | None => VNone end.

(** The patterns, in the order in which the source has them. *)
Definition sign_digits (signs : pystr) : regex :=
  RSeq (ROpt (RCls (CSet signs))) (RPlus (RCls CDigit)).

(* (-?\d+) *)
Definition re_int : regex :=
  RGroup 1 (RSeq (ROpt (RLit (u "-"))) (RPlus (RCls CDigit))).

(* (?:floor|level|storey|verdiep(?:ing)?)\s*([+-]?\d+) *)
Definition re_floor : regex :=
  RSeqs [RAlts [RLit (u "floor"); RLit (u "level"); RLit (u "storey");
                RSeq (RLit (u "verdiep")) (ROpt (RLit (u "ing")))];
         RStar (RCls CSpace);
         RGroup 1 (sign_digits (u "+-"))].

(* \b([+-]?\d{1,2})\b *)
Definition re_small_int : regex :=
  RSeqs [RWordB;
         RGroup 1 (RSeq (ROpt (RCls (CSet (u "+-"))))
                        (RRep 1 (Some 2%nat) true (RCls CDigit)));
         RWordB].

(* \b(now|right now|currently|this moment)\b *)
Definition re_now : regex :=
  RSeqs [RWordB;
         RGroup 1 (RLits [u "now"; u "right now"; u "currently";
                          u "this moment"]);
         RWordB].

(* (last|past)\s+(\d+)\s*(day|days|week|weeks|month|months) *)
Definition re_last_n : regex :=
  RSeqs [RGroup 1 (RLits [u "last"; u "past"]);
         RPlus (RCls CSpace);
         RGroup 2 (RPlus (RCls CDigit));
         RStar (RCls CSpace);
         RGroup 3 (RLits [u "day"; u "days"; u "week"; u "weeks";
                          u "month"; u "months"])].

(* (?:<|below|under)\s*(\d+)\s*%? *)
Definition re_threshold : regex :=
  RSeqs [RLits [u "<"; u "below"; u "under"];
         RStar (RCls CSpace);
         RGroup 1 (RPlus (RCls CDigit));
         RStar (RCls CSpace);
         ROpt (RLit (u "%"))].

(* compare\s+floors *)
Definition re_compare_floors : regex :=
  RSeqs [RLit (u "compare"); RPlus (RCls CSpace); RLit (u "floors")].

(* \s+ *)
Definition re_spaces : regex := RPlus (RCls CSpace).

(* (?:floor|level|storey|verdiep(?:ing)?|etage|الدور|طابق|دور)\s*([+-]?\d+) *)
Definition re_rooms_floor : regex :=
  RSeqs [RAlts [RLit (u "floor"); RLit (u "level"); RLit (u "storey");
                RSeq (RLit (u "verdiep")) (ROpt (RLit (u "ing")));
                RLit (u "etage"); RLit (u "الدور"); RLit (u "طابق");
                RLit (u "دور")];
         RStar (RCls CSpace);
         RGroup 1 (sign_digits (u "+-"))].

(* \b(\d)\.(?:\d{2,3})\b *)
Definition re_room_code : regex :=
  RSeqs [RWordB; RGroup 1 (RCls CDigit); RLit (u ".");
         RRep 2 (Some 3%nat) true (RCls CDigit); RWordB].

(* \b(utilization|bezetting|benutting)\b.*\b(floor|level|storey|verdiep|etage)\b *)
Definition re_utilization_floor : regex :=
  RSeqs [RWordB;
         RGroup 1 (RLits [u "utilization"; u "bezetting"; u "benutting"]);
         RWordB; RStar RAny; RWordB;
         RGroup 2 (RLits [u "floor"; u "level"; u "storey"; u "verdiep";
                          u "etage"]);
         RWordB].

(* compare\s+floors?\s+([+-]?\d+)\s+(?:and|&)\s+([+-]?\d+) *)
Definition re_compare : regex :=
  RSeqs [RLit (u "compare"); RPlus (RCls CSpace);
         RLit (u "floor"); ROpt (RLit (u "s")); RPlus (RCls CSpace);
         RGroup 1 (sign_digits (u "+-"));
         RPlus (RCls CSpace); RLits [u "and"; u "&"]; RPlus (RCls CSpace);
         RGroup 2 (sign_digits (u "+-"))].

(* ```sql\s*(.+?)``` *)
Definition re_sql_fence : regex :=
  RSeqs [RLit (u "```sql"); RStar (RCls CSpace);
         RGroup 1 (RPlusLazy RAny); RLit (u "```")].

(* (select\s.+)$ *)
Definition re_select_tail : regex :=
  RSeqs [RGroup 1 (RSeqs [RLit (u "select"); RCls CSpace; RPlus RAny]);
         REnd].

(** The text of the "compare floors" query, around its three holes. *)
Definition compare_sql_0 : pystr := u "
            WITH max_ts AS (SELECT MAX(event_timestamp) AS ts FROM events_all),
            windowed AS (
                SELECT s.floor_n AS floor,
                       to_timestamp(e.event_timestamp/1000) AS ts,
                       e.occupancy
                FROM events_all e
                JOIN spaces s ON e.space_id = s.uuid
                WHERE to_timestamp(e.event_timestamp/1000) >=
                     (SELECT to_timestamp(ts/1000) FROM max_ts) - INTERVAL '".
Definition compare_sql_1 : pystr := u "' DAY
            ),
            hourly AS (
                SELECT floor,
                       date_trunc('hour', ts) AS hour,
                       MAX(CASE WHEN LOWER(occupancy)='occupied' THEN 1 ELSE 0 END) AS occ
                FROM windowed
                GROUP BY floor, hour
            )
            SELECT floor, ROUND(AVG(occ)*100,1) AS occ_rate_percent
            FROM hourly
            WHERE floor IN (".
Definition compare_sql_2 : pystr := u ", ".
Definition compare_sql_3 : pystr := u ")
            GROUP BY floor
            ORDER BY floor
        ".

Section WithEnv.
Variable E : py_env.
Variable cfg : flags.

(** Helpers and safety guards *)

Definition _ensure_safe_select (sql : pystr) : result pystr :=
  let low := strip E (lower E sql) in
  if contains (u ";") sql then
    Raise (Raised ValueError (u "Multiple statements not allowed."))
  else if negb (startswith (u "select") low || startswith (u "with") low) then
    Raise (Raised ValueError (u "Only SELECT (or WITH ... SELECT) allowed."))
  else if existsb (fun kw => contains (u " " ++ kw ++ u " ")
                                      (u " " ++ low ++ u " ")) _BANNED then
    Raise (Raised ValueError (u "Unsafe keyword detected."))
  else
    match sqlglot_parse E sql with
    | Raise (Raised ParseError e) =>
        Raise (Raised ValueError (u "SQL parse error: " ++ e))
    | Raise (Builtin ParseError e) =>
        Raise (Raised ValueError
                 (u "SQL parse error: " ++ str_builtin_exn E ParseError e))
    | Raise e => Raise e
    | Ok _ =>
        if negb (contains (u " limit ") (u " " ++ low ++ u " "))
        then Ok (u "SELECT * FROM (" ++ sql ++ u ") AS _t LIMIT "
                   ++ str_of_int (MAX_ROWS cfg))
        else Ok sql
    end.

Definition _parse_int (text : pystr) : result (option Z) :=
  match re_search E no_flags re_int text with
  | Some m => n <- int_of_str E (grp 1 m) ;; Ok (Some n)
  | None => Ok None
  end.

Definition _parse_floor (text : pystr) : option pystr :=
  match re_search E flag_I re_floor text with
  | Some m => Some (grp 1 m)
  | None =>
      match re_search E no_flags re_small_int text with
      | Some m2 => Some (grp 1 m2)
      | None => None
      end
  end.

Definition _parse_days_hours (q : pystr)
  : result (option Z * option Z) :=
  let ql := lower E q in
  if re_found E no_flags re_now ql then Ok (None, Some 1%Z)
  else
    match re_search E no_flags re_last_n ql with
    | Some m =>
        n <- int_of_str E (grp 2 m) ;;
        let unit := grp 3 m in
        if startswith (u "week") unit then Ok (Some (n * 7)%Z, None)
        else if startswith (u "month") unit then Ok (Some (n * 30)%Z, None)
        else Ok (Some n, None)
    | None =>
        if contains (u "last week") ql || contains (u "past week") ql
        then Ok (Some 7%Z, None)
        else if contains (u "last month") ql || contains (u "past month") ql
        then Ok (Some 30%Z, None)
        else Ok (None, None)
    end.

Definition _parse_threshold_percent (q : pystr) : result (option float) :=
  match re_search E no_flags re_threshold q with
  | Some m =>
      n <- int_of_str E (grp 1 m) ;;
      f <- float_of_int n ;;
      Ok (Some (PrimFloat.div f 100%float))
  | None => Ok None
  end.

Definition _needs_agent (q : pystr) : bool :=
  let ql := lower E q in
  if existsb (fun w => contains w ql)
       [u "why"; u "how"; u "explain"; u "recommend"; u "suggest";
        u "tradeoff"] then true
  else if existsb (fun w => contains w ql)
       [u "which rooms are"; u "what kind of"; u "describe"; u "policy";
        u "rules"; u "definition"; u "meaning"] then true
  else if contains (u " and ") ql
          && negb (re_found E no_flags re_compare_floors ql) then true
  else if (180 <? List.length ql)%nat then true
  else false.

(** Normalization helpers *)
Definition _normalize_text (q : pystr) : pystr :=
  let ql := lower E q in
  let ql := strip_accents E ql in
  strip E (re_sub E no_flags re_spaces (u " ") ql).

Definition _contains_any (haystack : pystr) (keywords : list pystr) : bool :=
  existsb (fun kw => contains kw haystack) keywords.

Definition _intent_list_floors (q : pystr) : bool :=
  let qn := _normalize_text q in
  if existsb (str_eqb qn)
       [u "floors"; u "list floors"; u "levels"; u "show floors";
        u "welke verdiepingen"; u "toon verdiepingen"; u "كم طابق";
        u "عدد الطوابق"] then true
  else
    let has_list_verb := _contains_any qn _LIST_VERBS in
    let has_floor_word := _contains_any qn _FLOOR_WORDS in
    has_list_verb && has_floor_word.

Definition _intent_rooms_on_floor (q : pystr) : result (option Z) :=
  let qn := _normalize_text q in
  match (match re_search E no_flags re_rooms_floor qn with
         | Some m => if _contains_any qn _ROOM_WORDS then Some m else None
         | None => None
         end) with
  | Some m => n <- int_of_str E (grp 1 m) ;; Ok (Some n)
  | None =>
      match re_search E no_flags re_room_code qn with
      | Some m2 =>
          if _contains_any qn _ROOM_WORDS
          then n <- int_of_str E (grp 1 m2) ;; Ok (Some n)
          else Ok None
      | None => Ok None
      end
  end.

(** Stage 1: fast intents.  Each block of the source is one definition; a
    block that does not return hands over to the next one. *)

Definition tool_decision (nm : pystr) (a : pydict) (tr : pystr) : Decision :=
  mkDecision tool (VStr nm) (VDict a) None None tr.

Definition free_meeting_rooms_block (qn : pystr) : option Decision :=
  if (contains (u "free") qn || contains (u "vrij") qn
      || contains (u "متاح") qn)
     && _contains_any qn [u "meeting room"; u "meeting rooms";
                          u "vergaderruimte"; u "vergaderruimtes";
                          u "غرفة اجتماع"; u "غرف اجتماع"]
     && _contains_any qn [u "now"; u "currently"; u "nu"; u "الان";
                          u "حالياً"]
  then
    match nonempty (_parse_floor qn) with
    | Some fl =>
        Some (tool_decision (u "free_meeting_rooms_now")
                [(u "floor", VStr fl)]
                (u "fast_intent: free_meeting_rooms_now floor=" ++ fl))
    | None => None
    end
  else None.

Definition utilization_by_floor_block (qn : pystr)
  : result (option Decision) :=
  if contains (u "utilization") qn
     && (contains (u "by floor") qn || contains (u "per floor") qn
         || contains (u "per verdieping") qn)
  then
    dh <- _parse_days_hours qn ;;
    let d := or_int (fst dh) 7 in
    Ok (Some (tool_decision (u "utilization_by_floor")
                [(u "days", VInt d)]
                (u "fast_intent: utilization_by_floor days="
                   ++ str_of_int d)))
  else Ok None.

Definition utilization_floor_block (qn : pystr) : result (option Decision) :=
  if re_found E no_flags re_utilization_floor qn then
    match nonempty (_parse_floor qn) with
    | Some fl =>
        dh <- _parse_days_hours qn ;;
        let d := or_int (fst dh) 7 in
        Ok (Some (tool_decision (u "utilization_floor")
                    [(u "floor", VStr fl); (u "days", VInt d)]
                    (u "fast_intent: utilization_floor floor=" ++ fl
                       ++ u " days=" ++ str_of_int d)))
    | None => Ok None
    end
  else Ok None.

Definition with_floor (a : pydict) (fl : option pystr) : pydict :=
  match nonempty fl with
  | Some f => dict_set (u "floor") (VStr f) a
  | None => a
  end.

Definition busiest_rooms_block (qn : pystr) : result (option Decision) :=
  if contains (u "busiest") qn || contains (u "top rooms") qn
     || contains (u "drukste") qn || contains (u "الاكثر ازدحاما") qn
  then
    let fl := _parse_floor qn in
    dh <- _parse_days_hours qn ;;
    let a := [(u "days", VInt (or_int (fst dh) 7)); (u "limit", VInt 5)] in
    let a := with_floor a fl in
    Ok (Some (tool_decision (u "busiest_rooms") a
                (u "fast_intent: busiest_rooms " ++ py_str E (VDict a))))
  else Ok None.

Definition underused_rooms_block (qn : pystr) : result (option Decision) :=
  if contains (u "underused") qn
     || (contains (u "least") qn && contains (u "used") qn)
     || contains (u "onderbenut") qn || contains (u "اقل استخداما") qn
  then
    let fl := _parse_floor qn in
    dh <- _parse_days_hours qn ;;
    t <- _parse_threshold_percent qn ;;
    let thr := or_float t 0.10%float in
    let a := [(u "days", VInt (or_int (fst dh) 30));
              (u "threshold", VFloat thr)] in
    let a := with_floor a fl in
    Ok (Some (tool_decision (u "underused_rooms") a
                (u "fast_intent: underused_rooms " ++ py_str E (VDict a))))
  else Ok None.

Definition plan_coffee_machines_block (qn : pystr)
  : result (option Decision) :=
  if _contains_any qn [u "coffee"; u "pantry"; u "kitchen"; u "koffie";
                       u "keuken"; u "مطبخ"; u "قهوة"]
     && _contains_any qn [u "machine"; u "machines"; u "placement";
                          u "spots"; u "apparaat"; u "plaatsen"; u "مكان";
                          u "اماكن"]
  then
    let fl := _parse_floor qn in
    dh <- _parse_days_hours qn ;;
    n <- _parse_int qn ;;
    let k := or_int n 2 in
    let avoid_quiet :=
      negb (contains (u "ignore quiet") qn
            || contains (u "dont avoid quiet") qn
            || contains (u "don’t avoid quiet") qn
            || contains (u "negeer rustig") qn) in
    let a := [(u "floor", opt_val VStr (nonempty fl));
              (u "k", VInt k);
              (u "hours", opt_val VInt (snd dh));
              (u "days", VInt (or_int (fst dh) 14));
              (u "avoid_quiet", VBool avoid_quiet);
              (u "quiet_weight", VFloat 0.6%float);
              (u "downweight_refreshment", VFloat 0.5%float)] in
    Ok (Some (tool_decision (u "plan_coffee_machines") a
                (u "fast_intent: plan_coffee_machines "
                   ++ py_str E (VDict a))))
  else Ok None.

(** [m otherwise k]: the decision of [m] when it returns one, else [k]. *)
Definition or_else (m : result (option Decision))
           (k : unit -> result (option Decision)) : result (option Decision) :=
  match m with
  | Raise e => Raise e
  | Ok (Some d) => Ok (Some d)
  | Ok None => k tt
  end.

Notation "m 'otherwise' k" := (or_else m (fun _ => k))
  (at level 62, right associativity).

Definition _fast_intent (q : pystr) : result (option Decision) :=
  let q_raw := q in
  let qn := _normalize_text q_raw in
  if _intent_list_floors q_raw then
    Ok (Some (tool_decision (u "list_floors") []
                (u "fast_intent: list_floors → tool")))
  else
    fl <- _intent_rooms_on_floor q_raw ;;
    match fl with
    | Some fl =>
        Ok (Some (tool_decision (u "rooms_on_floor")
                    [(u "floor", VStr (str_of_int fl))]
                    (u "fast_intent: rooms_on_floor floor=" ++ str_of_int fl
                       ++ u " → tool")))
    | None =>
        Ok (free_meeting_rooms_block qn) otherwise
        utilization_by_floor_block qn otherwise
        utilization_floor_block qn otherwise
        busiest_rooms_block qn otherwise
        underused_rooms_block qn otherwise
        plan_coffee_machines_block qn otherwise
        Ok None
    end.

(** Stage 2: template SQL *)
Definition _fast_sql (q : pystr) : result (option Decision) :=
  let ql := lower E q in
  match re_search E no_flags re_compare ql with
  | Some m =>
      let f1 := grp 1 m in
      let f2 := grp 2 m in
      dh <- _parse_days_hours ql ;;
      let d := or_int (fst dh) 7 in
      let sql := compare_sql_0 ++ str_of_int d ++ compare_sql_1 ++ f1
                   ++ compare_sql_2 ++ f2 ++ compare_sql_3 in
      safe <- _ensure_safe_select sql ;;
      Ok (Some (mkDecision sql_mode VNone VNone (Some safe) None
                  (u "fast_sql: compare floors " ++ f1 ++ u " vs " ++ f2
                     ++ u " days=" ++ str_of_int d)))
  | None => Ok None
  end.

(** Stage 4: the language model.  [SYSTEM_PROMPT] and the result of
    [_dynamic_context(self.db)] are texts built outside the router;
    [chat_create system user] is the message
    [client.chat.completions.create(...).choices[0].message], or the
    exception the call raises. *)
Variable SYSTEM_PROMPT : pystr.
Variable dynamic_context : pystr.
Variable chat_create : pystr -> pystr -> result pyval.

Definition text_decision (t tr : pystr) : Decision :=
  mkDecision text_mode VNone VNone None (Some t) tr.

(** The body of the [try] block of [infer]. *)
Definition llm_stage (q : pystr) : result Decision :=
  let system := SYSTEM_PROMPT ++ [10; 10]%N ++ dynamic_context in
  msg <- chat_create system q ;;
  let tool_calls := getattr_or_none msg (u "tool_calls") in
  if truthy tool_calls then
    call <- getitem0 tool_calls ;;
    fn <- (let f := getattr_or_none call (u "function") in
           if truthy f then Ok f else get call (u "function")) ;;
    nm <- (let n := getattr_or_none fn (u "name") in
           if truthy n then Ok n
           else if is_dict fn then get fn (u "name") else Ok VNone) ;;
    args_str <- (let a := getattr_or_none fn (u "arguments") in
                 if truthy a then Ok a
                 else if is_dict fn then get fn (u "arguments")
                 else Ok (VStr (u "{}"))) ;;
    let a :=
      match args_str with
      | VStr s =>
          match strip E s with
          | [] => VDict []
          | _ => match json_loads E s with
                 | Ok v => v
                 | Raise _ => VDict []
                 end
          end
      | _ => VDict []
      end in
    Ok (mkDecision tool nm a None None (u "llm: tool_choice"))
  else
    c <- getattr msg (u "content") ;;
    match py_or c (VStr []) with
    | VStr content =>
        let m :=
          match re_search E flag_SI re_sql_fence content with
          | Some m => Some m
          | None => re_search E flag_SI re_select_tail content
          end in
        match m with
        | Some m =>
            s <- _ensure_safe_select (strip E (grp 1 m)) ;;
            Ok (mkDecision sql_mode VNone VNone (Some s) None
                  (u "llm: sql_fallback"))
        | None =>
            if STRICT_MODE cfg then
              Ok (text_decision
                    (u "I can’t answer that from your provided data. Try specifying a floor/room/time window or ask for a metric.")
                    (u "llm: no tool/SQL; strict refusal"))
            else
              Ok (text_decision
                    (match content with
                     | [] => u "I’m not sure."
                     | _ => content
                     end)
                    (u "llm: plain text"))
        end
    | _ => Raise (Builtin TypeError (u "expected string or bytes-like object"))
    end.

Definition infer (user_text : pystr) : result Decision :=
  let q := strip E user_text in
  (* Stage 1: deterministic tool/SQL routing *)
  d1 <- (if FAST_INTENTS cfg then _fast_intent q else Ok None) ;;
  match d1 with
  | Some d => Ok d
  | None =>
    (* Stage 2: template SQL *)
    d2 <- (if FAST_SQL cfg then _fast_sql q else Ok None) ;;
    match d2 with
    | Some d => Ok d
    | None =>
      (* Stage 3: agent-needed heuristic *)
      if _needs_agent q then
        Ok (mkDecision agent VNone VNone None None
              (u "heuristic: needs_agent"))
      (* Stage 4: LLM picks tool or writes safe SQL *)
      else if negb (LLM_ROUTING cfg) then
        Ok (text_decision
              (u "I can’t answer that from your provided data and tools.")
              (u "llm_routing disabled"))
      else
        match llm_stage q with
        | Ok d => Ok d
        | Raise e =>
            Ok (text_decision (u "Router error: " ++ str_exn E e)
                  (u "exception"))
        end
    end
  end.

End WithEnv.
End Router.

(** * The database client's gate ([src/db.py]) *)

Module Db.

Definition MAX_ROWS : Z := 500.

Definition _BANNED : list pystr :=
  [u " insert "; u " update "; u " delete "; u " drop "; u " alter ";
   u " create table "; u " attach "; u " copy "; u " pragma "; u " call ";
   u " replace into "].

Section WithEnv.
Variable E : py_env.
(** Whether [sqlglot] could be imported when the module was loaded. *)
Variable HAS_SQLGLOT : bool.

Definition ensure_safe_select (sql : pystr) : result pystr :=
  let low := u " " ++ strip E (lower E sql) ++ u " " in
  if contains (u ";") sql then
    Raise (Raised ValueError (u "Multiple statements not allowed."))
  else if negb (startswith (u "select") (strip E low)
                || startswith (u "with") (strip E low)) then
    Raise (Raised ValueError (u "Only SELECT/WITH allowed."))
  else if existsb (fun kw => contains kw low) _BANNED then
    Raise (Raised ValueError (u "Unsafe keyword detected."))
  else
    match (if HAS_SQLGLOT then sqlglot_parse E sql else Ok tt) with
    | Raise (Raised ParseError e) =>
        Raise (Raised ValueError (u "SQL parse error: " ++ e))
    | Raise (Builtin ParseError e) =>
        Raise (Raised ValueError
                 (u "SQL parse error: " ++ str_builtin_exn E ParseError e))
    | Raise e => Raise e
    | Ok _ =>
        if negb (contains (u " limit ") low)
        then Ok (u "SELECT * FROM (" ++ sql ++ u ") AS _safe LIMIT "
                   ++ str_of_int MAX_ROWS)
        else Ok sql
    end.

End WithEnv.
End Db.

(** * The data backend

    The storage layer's analytic operations, the coffee-machine planner and
    the execution of SQL are external collaborators.  A dispatcher reaches
    them through [perform]; every request is recorded, in order, so that
    what a dispatcher asked of the backend, and how often, can be stated. *)

Module Backend.

(** [planner.PlanOptions] *)
Record PlanOptions := {
  floor : pyval;
  k : pyval;
  hours : pyval;
  days : pyval;
  avoid_quiet : pyval;
  quiet_weight : pyval;
  downweight_refreshment : pyval
}.

Inductive call :=
| list_floors
| rooms_on_floor (floor : pyval)
| status_floor_now (floor : pyval)
| free_meeting_rooms_now (floor : pyval)
| busiest_rooms (floor days limit : pyval)
| underused_rooms (floor days threshold : pyval)
| utilization_floor (floor days : pyval)
| utilization_by_floor (days : pyval)
| plan_coffee_machines (opts : PlanOptions)
| execute_sql (sql : pystr).

Section Effects.
(** [DataFrame] is the type of tables, [W] the state of the world outside. *)
Variables DataFrame W : Type.
Variable db_call : call -> W -> result DataFrame * W.

Record sys := { world : W; calls : list call }.

(** A computation that may talk to the backend and may raise. *)
Definition M (A : Type) : Type := sys -> result A * sys.

Definition ret {A} (a : A) : M A := fun s => (Ok a, s).

Definition raise {A} (e : exn) : M A := fun s => (Raise e, s).

Definition bindM {A B} (m : M A) (f : A -> M B) : M B :=
  fun s =>
    match m s with
    | (Ok a, s') => f a s'
    | (Raise e, s') => (Raise e, s')
    end.

Definition lift {A} (r : result A) : M A := fun s => (r, s).

Definition perform (c : call) : M DataFrame :=
  fun s =>
    let (r, w') := db_call c (world s) in
    (r, {| world := w'; calls := calls s ++ [c] |}).

(** An outside operation that is not a backend request: it sees and may
    change the world, and is not recorded. *)
Definition outside {A} (f : W -> result A * W) : M A :=
  fun s =>
    let (r, w') := f (world s) in
    (r, {| world := w'; calls := calls s |}).

(** [try: a = m ... except Exception: a = default] *)
Definition attempt {A} (m : M A) (default : A) : M A :=
  fun s =>
    match m s with
    | (Ok a, s') => (Ok a, s')
    | (Raise _, s') => (Ok default, s')
    end.

End Effects.

Arguments ret {W A} a.
Arguments raise {W A} e.
Arguments bindM {W A B} m f.
Arguments lift {W A} r.
Arguments perform {DataFrame W} db_call c.
Arguments outside {W A} f.
Arguments attempt {W A} m default.
Arguments world {W} s.
Arguments calls {W} s.

End Backend.

Notation "x <~ m ;; k" := (Backend.bindM m (fun x => k))
  (at level 61, m at next level, right associativity).

(** What the code reads off a table with pandas.  A reading may raise (a
    missing column, an empty table, a value that is no number). *)
Record columns (DataFrame : Type) := {
  (* df["floor"].dropna().astype(int).tolist() *)
  floors_as_int : DataFrame -> result (list Z);
  (* [int(x) for x in df["floor"].dropna().tolist()] *)
  floors_int_each : DataFrame -> result (list Z);
  (* df["t"].tolist(), of a statement whose column t is text *)
  column_t : DataFrame -> result (list pystr);
  (* df["n"][0], of a statement whose column n is COUNT( * ) *)
  count_n : DataFrame -> result Z;
  (* (pd.to_datetime(x) if pd.notnull(x) else None) for x = t.loc[0, "ts_min"]
     and x = t.loc[0, "ts_max"]; a timestamp is kept as its text *)
  time_span : DataFrame -> result (option pystr * option pystr);
  (* df.iloc[0].to_dict() *)
  first_row : DataFrame -> result pydict;
  (* df.head(30).to_dict(orient="records") *)
  head_records : DataFrame -> pyval
}.
Arguments floors_as_int {DataFrame} c d.
Arguments floors_int_each {DataFrame} c d.
Arguments column_t {DataFrame} c d.
Arguments count_n {DataFrame} c d.
Arguments time_span {DataFrame} c d.
Arguments first_row {DataFrame} c d.
Arguments head_records {DataFrame} c d.

(** [sep.join(l)] *)
Fixpoint join (sep : pystr) (l : list pystr) : pystr :=
  match l with
  | [] => []
  | [x] => x
  | x :: rest => x ++ sep ++ join sep rest
  end.

(** * The router on the database ([src/router.py])

    [Router.infer] above is [infer] for a given dynamic context.  Here the
    context is fetched from the database, as [infer] does when it reaches
    its fourth stage, and only then. *)

Module NLRouter.
Import Backend.

Definition space_types_sql : pystr :=
  u "SELECT DISTINCT TRIM(COALESCE(spaceType,'')) AS t FROM spaces "
  ++ u "WHERE TRIM(COALESCE(spaceType,'')) <> '' ORDER BY t".

Section WithBackend.
Variable E : py_env.
Variable cfg : Router.flags.
Variables DataFrame W : Type.
Variable db_call : call -> W -> result DataFrame * W.
Variable pd : columns DataFrame.
Variable SYSTEM_PROMPT : pystr.
Variable chat_create : W -> pystr -> pystr -> result pyval.

Abbreviation M := (Backend.M W).
Abbreviation run_db := (perform db_call).

(** Dynamic context for LLM *)
Definition _dynamic_context : M pystr :=
  floors <~ attempt (d <~ run_db list_floors ;; lift (floors_as_int pd d))
              [] ;;
  t <~ attempt (d <~ run_db (execute_sql space_types_sql) ;;
                lift (column_t pd d)) [] ;;
  let ctx :=
    (match floors with
     | [] => []
     | _ => [u "Floors: " ++ join (u ", ") (map str_of_int floors)]
     end)
    ++ (match t with
        | [] => []
        | _ => [u "Space types: " ++ join (u ", ") (firstn 50 t)]
        end) in
  ret (join [10%N] ctx).

Definition infer (user_text : pystr) : M Router.Decision :=
  let q := strip E user_text in
  (* Stage 1: deterministic tool/SQL routing *)
  d1 <~ lift (if Router.FAST_INTENTS cfg then Router._fast_intent E q
              else Ok None) ;;
  match d1 with
  | Some d => ret d
  | None =>
    (* Stage 2: template SQL *)
    d2 <~ lift (if Router.FAST_SQL cfg then Router._fast_sql E cfg q
                else Ok None) ;;
    match d2 with
    | Some d => ret d
    | None =>
      (* Stage 3: agent-needed heuristic *)
      if Router._needs_agent E q then
        ret (Router.mkDecision Router.agent VNone VNone None None
               (u "heuristic: needs_agent"))
      (* Stage 4: LLM picks tool or writes safe SQL *)
      else if negb (Router.LLM_ROUTING cfg) then
        ret (Router.text_decision
               (u "I can’t answer that from your provided data and tools.")
               (u "llm_routing disabled"))
      else
        ctx <~ _dynamic_context ;;
        fun s =>
          (match Router.llm_stage E cfg SYSTEM_PROMPT ctx
                   (chat_create (world s)) q with
           | Ok d => Ok d
           | Raise e =>
               Ok (Router.text_decision (u "Router error: " ++ str_exn E e)
                     (u "exception"))
           end, s)
    end
  end.

End WithBackend.

Arguments _dynamic_context {DataFrame W} db_call pd _.
Arguments infer E cfg {DataFrame W} db_call pd SYSTEM_PROMPT chat_create
  user_text _.

End NLRouter.

(** * Quick indicators ([src/insights.py]) *)

Module Insights.
Import Backend.

Definition kpis_sql_0 : pystr := u "
    WITH max_ts AS (SELECT MAX(ts) AS ts FROM events_enriched),
    win AS (
      SELECT e.ts,
             e.occupancy,
             s.uuid,
             EXTRACT(HOUR FROM e.ts) AS hour_of_day
      FROM events_enriched e
      JOIN spaces s ON e.space_id = s.uuid
      WHERE e.ts > (SELECT ts FROM max_ts) - INTERVAL '".
Definition kpis_sql_1 : pystr := u "' HOUR
    )
    SELECT
      COUNT(DISTINCT uuid)                                      AS rooms_covered,
      AVG(CASE WHEN LOWER(occupancy)='occupied' THEN 1 ELSE 0 END)::DOUBLE AS avg_occ,
      AVG(CASE WHEN hour_of_day BETWEEN 9  AND 12
               THEN CASE WHEN LOWER(occupancy)='occupied' THEN 1 ELSE 0 END END)::DOUBLE AS am_peak,
      AVG(CASE WHEN hour_of_day BETWEEN 13 AND 16
               THEN CASE WHEN LOWER(occupancy)='occupied' THEN 1 ELSE 0 END END)::DOUBLE AS pm_peak
    FROM win;
    ".

Definition kpis_sql (window_hours : Z) : pystr :=
  kpis_sql_0 ++ str_of_int window_hours ++ kpis_sql_1.

Section WithBackend.
Variable E : py_env.
Variables DataFrame W : Type.
Variable db_call : call -> W -> result DataFrame * W.
Variable pd : columns DataFrame.

(** [float(row.get(k) or 0.0) if row.get(k) is not None else None] *)
Definition peak (row : pydict) (k : pystr) : result pyval :=
  v <- get (VDict row) k ;;
  match v with
  | VNone => Ok VNone
  | _ => f <- py_float E (py_or v (VFloat 0.0%float)) ;; Ok (VFloat f)
  end.

Definition kpis (window_hours : Z) : Backend.M W pyval :=
  d <~ perform db_call (execute_sql (kpis_sql window_hours)) ;;
  row <~ lift (first_row pd d) ;;
  lift (rc <- get (VDict row) (u "rooms_covered") ;;
        rooms_covered <- py_int E (py_or rc (VInt 0)) ;;
        ao <- get (VDict row) (u "avg_occ") ;;
        avg_occ <- py_float E (py_or ao (VFloat 0.0%float)) ;;
        am_peak <- peak row (u "am_peak") ;;
        pm_peak <- peak row (u "pm_peak") ;;
        Ok (VDict [(u "rooms_covered", VInt rooms_covered);
                   (u "avg_occ", VFloat avg_occ);
                   (u "am_peak", am_peak);
                   (u "pm_peak", pm_peak);
                   (u "window_hours", VInt window_hours)])).

End WithBackend.

Arguments kpis E {DataFrame W} db_call pd window_hours _.

End Insights.

(** * The data profile ([src/data_profile.py]) *)

Module DataProfile.
Import Backend.

Record DataProfile := {
  rows_office : Z;
  rows_meeting : Z;
  rooms : Z;
  ts_min : option pystr;
  ts_max : option pystr;
  floors : list Z;
  space_types : list pystr
}.

(** Digits in groups of three, read from the right: the [,] of a format
    specification. *)
Fixpoint group3 (rev_digits : pystr) : pystr :=
  match rev_digits with
  | a :: b :: c :: ((_ :: _) as rest) => a :: b :: c :: 44%N :: group3 rest
  | _ => rev_digits
  end.

(** [f"{n:,}"] *)
Definition with_commas (n : Z) : pystr :=
  (if (n <? 0)%Z then u "-" else [])
  ++ rev (group3 (rev (str_of_int (Z.abs n)))).

Definition as_markdown (p : DataProfile) : pystr :=
  let span := match ts_min p, ts_max p with
              | Some a, Some b => a ++ u " → " ++ b
              | _, _ => u "unknown"
              end in
  let floors_txt := join (u ", ") (map str_of_int (firstn 50 (floors p))) in
  let types_txt := join (u ", ") (firstn 50 (space_types p)) in
  u "Data window: " ++ span ++ [10%N]
  ++ u "Events: offices=" ++ with_commas (rows_office p)
  ++ u ", meetings=" ++ with_commas (rows_meeting p) ++ [10%N]
  ++ u "Rooms in scope: " ++ with_commas (rooms p) ++ [10%N]
  ++ u "Floors: " ++ floors_txt ++ [10%N]
  ++ u "Space types: " ++ types_txt ++ [10%N].

Definition count_office_sql : pystr :=
  u "SELECT COUNT(*) AS n FROM events_office".
Definition count_meeting_sql : pystr :=
  u "SELECT COUNT(*) AS n FROM events_meeting".
Definition count_spaces_sql : pystr := u "SELECT COUNT(*) AS n FROM spaces".
Definition time_span_sql : pystr := u "
        SELECT MIN(to_timestamp(event_timestamp/1000)) AS ts_min,
               MAX(to_timestamp(event_timestamp/1000)) AS ts_max
        FROM events_all
    ".
Definition space_types_sql : pystr := u "
        SELECT DISTINCT TRIM(COALESCE(spaceType, '')) AS t
        FROM spaces
        WHERE TRIM(COALESCE(spaceType, '')) <> ''
        ORDER BY t
    ".

Section WithBackend.
Variables DataFrame W : Type.
Variable db_call : call -> W -> result DataFrame * W.
Variable pd : columns DataFrame.

Definition build_profile : Backend.M W DataProfile :=
  (* counts *)
  d <~ perform db_call (execute_sql count_office_sql) ;;
  rows_office <~ lift (count_n pd d) ;;
  d <~ perform db_call (execute_sql count_meeting_sql) ;;
  rows_meeting <~ lift (count_n pd d) ;;
  d <~ perform db_call (execute_sql count_spaces_sql) ;;
  rooms <~ lift (count_n pd d) ;;
  (* time span *)
  t <~ perform db_call (execute_sql time_span_sql) ;;
  ts <~ lift (time_span pd t) ;;
  (* floors & space types *)
  floors_df <~ perform db_call list_floors ;;
  floors <~ lift (floors_int_each pd floors_df) ;;
  types_df <~ perform db_call (execute_sql space_types_sql) ;;
  types <~ lift (column_t pd types_df) ;;
  ret {| rows_office := rows_office; rows_meeting := rows_meeting;
         rooms := rooms; ts_min := fst ts; ts_max := snd ts;
         floors := floors; space_types := types |}.

End WithBackend.

Arguments build_profile {DataFrame W} db_call pd _.

End DataProfile.

(** * The orchestrator's dispatcher ([src/agent.py]) *)

Module Agent.
Import Backend.

(* \b(suggest|improve|optimi[sz]e|advise|advice|what should|ideas)\b *)
Definition re_suggest : regex :=
  RSeqs [RWordB;
         RGroup 1 (RAlts [RLit (u "suggest"); RLit (u "improve");
                          RSeqs [RLit (u "optimi"); RCls (CSet (u "sz"));
                                 RLit (u "e")];
                          RLit (u "advise"); RLit (u "advice");
                          RLit (u "what should"); RLit (u "ideas")]);
         RWordB].

Definition auto_repaired : pystr :=
  u " (auto-repaired: widened window, relaxed quiet)".

Definition ADVISOR_SYS : pystr := u "You are Atlas Advisor. Write short, actionable suggestions based ONLY on provided metrics/tables.
- Reference numbers inline like (avg_occ=0.22, window=7d).
- Prefer 3–6 bullets, concrete actions (who/what/when).
- If evidence is weak or ambiguous, say so and propose the next diagnostic (which tool to run).
- Do not invent values; only use what is in INPUT.
".

Section WithBackend.
Variable E : py_env.
Variable cfg : Router.flags.
Variable HAS_SQLGLOT : bool.
Variables DataFrame W : Type.
Variable db_call : call -> W -> result DataFrame * W.
(** [df.empty] *)
Variable df_empty : DataFrame -> bool.
Variable pd : columns DataFrame.
(** [planner.plan(user_goal, grounding_path)], which reads the grounding
    pack and asks the language model; it does not use the database. *)
Variable planner_plan : pystr -> W -> result pyval * W.
(** [json.dumps(v, ensure_ascii=False)] *)
Variable json_dumps_unicode : pyval -> result pystr.
(** [llm_client.chat([system, user], temperature=0.2)]: the content of the
    language model's reply, or the exception the request raises. *)
Variable advisor_chat : W -> pystr -> pystr -> result pystr.
(** What the router's fourth stage reads from outside. *)
Variable SYSTEM_PROMPT : pystr.
Variable chat_create : W -> pystr -> pystr -> result pyval.

Abbreviation M := (Backend.M W).
Abbreviation run_db := (perform db_call).

(** The result dictionary of a tool: [{"title": .., "df": .., "text": ..}]. *)
Record ToolResult := { title : pystr; df : DataFrame; text : pystr }.

(** The dictionary [run] returns. *)
Record RunResult := {
  r_title : pystr;
  r_text : pyval;
  r_df : option DataFrame
}.

Definition arg_int (args : pyval) (key : pystr) (default : Z) : M pyval :=
  v <~ lift (get_default args key (VInt default)) ;;
  n <~ lift (py_int E v) ;;
  ret (VInt n).

Definition arg_float (args : pyval) (key : pystr) (default : float)
  : M pyval :=
  v <~ lift (get_default args key (VFloat default)) ;;
  f <~ lift (py_float E v) ;;
  ret (VFloat f).

(** [(f" on floor {args['floor']}" if args.get("floor") else "")] *)
Definition on_floor (args : pyval) : M pystr :=
  fl <~ lift (get args (u "floor")) ;;
  if truthy fl then
    f <~ lift (getitem args (u "floor")) ;;
    ret (u " on floor " ++ py_str E f)
  else ret [].

(** The branch of the coffee-machine planner. *)
Definition coffee_tool (args : pyval) : M ToolResult :=
  (* 'now' -> hours=1 if caller forgot *)
  h0 <~ lift (get args (u "hours")) ;;
  h <~ (match h0 with
        | VNone =>
            j <~ lift (json_dumps E args) ;;
            ret (if contains (u "now") (lower E j) then VInt 1 else VNone)
        | _ => ret h0
        end) ;;
  fl <~ lift (get args (u "floor")) ;;
  kn <~ arg_int args (u "k") 2 ;;
  dn <~ arg_int args (u "days") 14 ;;
  aq <~ lift (get_default args (u "avoid_quiet") (VBool true)) ;;
  qw <~ arg_float args (u "quiet_weight") 0.6%float ;;
  dr <~ arg_float args (u "downweight_refreshment") 0.5%float ;;
  d <~ run_db (plan_coffee_machines
                 {| floor := fl; k := kn; hours := h; days := dn;
                    avoid_quiet := VBool (truthy aq); quiet_weight := qw;
                    downweight_refreshment := dr |}) ;;
  w <~ on_floor args ;;
  ret {| title := u "Coffee machine plan"; df := d;
         text := u "Optimized coffee-machine placement" ++ w |}.

(** tool runner *)
Definition _run_tool (name args : pyval) : M ToolResult :=
  if eq_str name (u "list_floors") then
    d <~ run_db list_floors ;;
    ret {| title := u "Floors"; df := d; text := u "Floors" |}
  else if eq_str name (u "rooms_on_floor") then
    f <~ lift (getitem args (u "floor")) ;;
    d <~ run_db (rooms_on_floor f) ;;
    ret {| title := u "Rooms " ++ py_str E f; df := d; text := u "Rooms" |}
  else if eq_str name (u "status_floor_now") then
    f <~ lift (getitem args (u "floor")) ;;
    d <~ run_db (status_floor_now f) ;;
    ret {| title := u "Status " ++ py_str E f; df := d; text := u "Status" |}
  else if eq_str name (u "free_meeting_rooms_now") then
    f <~ lift (getitem args (u "floor")) ;;
    d <~ run_db (free_meeting_rooms_now f) ;;
    ret {| title := u "Free rooms " ++ py_str E f; df := d;
           text := u "Free" |}
  else if eq_str name (u "busiest_rooms") then
    fl <~ lift (get args (u "floor")) ;;
    dn <~ arg_int args (u "days") 7 ;;
    ln <~ arg_int args (u "limit") 5 ;;
    d <~ run_db (busiest_rooms fl dn ln) ;;
    ret {| title := u "Busiest"; df := d; text := u "Busiest" |}
  else if eq_str name (u "underused_rooms") then
    fl <~ lift (get args (u "floor")) ;;
    dn <~ arg_int args (u "days") 30 ;;
    th <~ arg_float args (u "threshold") 0.10%float ;;
    d <~ run_db (underused_rooms fl dn th) ;;
    ret {| title := u "Underused"; df := d; text := u "Underused" |}
  else if eq_str name (u "utilization_floor") then
    f <~ lift (getitem args (u "floor")) ;;
    dn <~ arg_int args (u "days") 7 ;;
    d <~ run_db (utilization_floor f dn) ;;
    ret {| title := u "Util " ++ py_str E f; df := d; text := u "Util" |}
  else if eq_str name (u "utilization_by_floor") then
    dn <~ arg_int args (u "days") 7 ;;
    d <~ run_db (utilization_by_floor dn) ;;
    ret {| title := u "Util by floor"; df := d; text := u "Util-by-floor" |}
  else if eq_str name (u "plan_coffee_machines") then coffee_tool args
  else
    raise (Raised ValueError (u "Unknown tool " ++ py_str E name)).

(** [args = args.copy(); args.pop("hours", None);
     args["days"] = max(int(args.get("days",14)), 14);
     args["avoid_quiet"] = False] *)
Definition relaxed (args : pyval) : result pyval :=
  match args with
  | VDict d =>
      let d := dict_pop (u "hours") d in
      v <- get_default (VDict d) (u "days") (VInt 14) ;;
      n <- py_int E v ;;
      let d := dict_set (u "days") (VInt (Z.max n 14)) d in
      Ok (VDict (dict_set (u "avoid_quiet") (VBool false) d))
  | _ => Raise (Builtin AttributeError (u "copy"))
  end.

(** Run a tool, with the auto-repair that [run] applies to the coffee
    planner.  The source has this block twice, on the planner's tool path
    and on the router's. *)
Definition run_tool_with_repair (name args : pyval) : M ToolResult :=
  res <~ _run_tool name args ;;
  if df_empty (df res) && eq_str name (u "plan_coffee_machines") then
    args' <~ lift (relaxed args) ;;
    res <~ _run_tool (VStr (u "plan_coffee_machines")) args' ;;
    ret {| title := title res; df := df res;
           text := text res ++ auto_repaired |}
  else ret res.

Definition as_run (res : ToolResult) : RunResult :=
  {| r_title := title res; r_text := VStr (text res);
     r_df := Some (df res) |}.

(** [sql_safe = self.db.ensure_safe_select(sql);
     df = self.db.con.execute(sql_safe).df()] *)
Definition run_sql (sql : pyval) : M RunResult :=
  match sql with
  | VStr s =>
      sql_safe <~ lift (Db.ensure_safe_select E HAS_SQLGLOT s) ;;
      d <~ run_db (execute_sql sql_safe) ;;
      ret {| r_title := u "Query result";
             r_text := VStr (u "Answer derived from SQL.");
             r_df := Some d |}
  | _ => raise (Builtin AttributeError (u "lower"))
  end.

(** optional: suggestion summarizer.  [run] hands it the table of a tool
    result, which is a [DataFrame]. *)
Definition _summarize_suggestions (user_goal : pystr) (df : DataFrame)
           (tool_name : pyval) : M pystr :=
  let blocks :=
    if negb (df_empty df)
    then [VDict [(u "name", tool_name); (u "data", head_records pd df)]]
    else [] in
  (* add KPIs for context (last 24h) *)
  blocks <~ attempt
              (k <~ Insights.kpis E db_call pd 24 ;;
               ret (blocks ++ [VDict [(u "name", VStr (u "kpis"));
                                      (u "data", k)]]))
              blocks ;;
  j <~ lift (json_dumps_unicode (VList blocks)) ;;
  fun s =>
    (advisor_chat (world s) ADVISOR_SYS
       (u "INPUT METRICS:" ++ [10%N] ++ j ++ [10; 10]%N ++ u "USER: "
          ++ user_goal ++ [10%N] ++ u "Write suggestions now."), s).

(** main entry *)
Definition run (user_goal : pystr) : M RunResult :=
  (* 1) Try LLM planner *)
  decision <~ (fun s =>
                 match outside (planner_plan user_goal) s with
                 | (Ok d, s') => (Ok d, s')
                 | (Raise _, s') => (Ok (VDict [(u "final", VNone)]), s')
                 end) ;;
  (* 1a) If planner provided a final text *)
  final <~ lift (get decision (u "final")) ;;
  if truthy final then
    ret {| r_title := u "Response"; r_text := final; r_df := None |}
  else
  (* 1b) Tool path from planner *)
  if match decision with VDict d => dict_has (u "tool") d | _ => false end
  then
    name <~ lift (getitem decision (u "tool")) ;;
    a0 <~ lift (get_default decision (u "args") (VDict [])) ;;
    let args := py_or a0 (VDict []) in
    res <~ run_tool_with_repair name args ;;
    (* suggestions mode if user explicitly asks *)
    if re_found E flag_I re_suggest user_goal then
      summary <~ _summarize_suggestions user_goal (df res) name ;;
      ret {| r_title := u "Suggestions"; r_text := VStr summary;
             r_df := Some (df res) |}
    else ret (as_run res)
  else
  (* 1c) SQL path from planner *)
  md <~ lift (get decision (u "mode")) ;;
  sq <~ lift (get decision (u "sql")) ;;
  if eq_str md (u "sql") && truthy sq then
    run_sql sq
  else
  (* 2) Fallback: existing deterministic NL router *)
  d <~ NLRouter.infer E cfg db_call pd SYSTEM_PROMPT chat_create user_goal ;;
  match Router.mode d with
  | Router.tool =>
      res <~ run_tool_with_repair (Router.name d) (Router.args d) ;;
      ret (as_run res)
  | Router.sql_mode =>
      run_sql (match Router.sql d with Some s => VStr s | None => VNone end)
  | _ =>
      ret {| r_title := u "Response";
             r_text := match Router.text d with
                       | Some t => VStr t
                       | None => VNone
                       end;
             r_df := None |}
  end.

End WithBackend.

Arguments title {DataFrame} t.
Arguments df {DataFrame} t.
Arguments text {DataFrame} t.
Arguments r_title {DataFrame} r.
Arguments r_text {DataFrame} r.
Arguments r_df {DataFrame} r.
Arguments arg_int E {W} args key default _.
Arguments arg_float E {W} args key default _.
Arguments on_floor E {W} args _.
Arguments coffee_tool E {DataFrame W} db_call args _.
Arguments _run_tool E {DataFrame W} db_call name args _.
Arguments run_tool_with_repair E {DataFrame W} db_call df_empty name args _.
Arguments run_sql E HAS_SQLGLOT {DataFrame W} db_call sql _.
Arguments _summarize_suggestions E {DataFrame W} db_call df_empty pd
  json_dumps_unicode advisor_chat user_goal df tool_name _.
Arguments run E cfg HAS_SQLGLOT {DataFrame W} db_call df_empty pd
  planner_plan json_dumps_unicode advisor_chat SYSTEM_PROMPT chat_create
  user_goal _.

End Agent.

(** * The chatbot's dispatcher ([src/chatbot.py]) *)

Module Chat.
Import Backend.

Section WithBackend.
Variable E : py_env.
Variable cfg : Router.flags.
Variables DataFrame W : Type.
Variable db_call : call -> W -> result DataFrame * W.

(** What [LCAgent.run] returns. *)
Record AgentOut := { o_title : pyval; o_text : pyval; o_df : option DataFrame }.

(** [df.empty], [len(df)], [df.head(5).to_dict(orient="records")] *)
Variable df_empty : DataFrame -> bool.
Variable df_len : DataFrame -> Z.
Variable df_sample : DataFrame -> pyval.
(** [util7.merge(util30, on="floor", how="outer", ...)], [None] when it
    raises. *)
Variable df_merge : DataFrame -> DataFrame -> option DataFrame.
Variable pd : columns DataFrame.
(** The reasoning agent: [self._ensure_agent(); self._agent.run(question)]
    and [self._agent.rag_search(question)].  [LCAgent.run] returns the
    dictionary [{"title": .., "text": .., "df": ..}], whose [df] is a
    [DataFrame] or [None].  The agent is a loop of the language model over
    tools of its own; what it asks of the database is not part of this
    model, and no statement below about requests covers the agent path. *)
Variable agent_run : pystr -> W -> result AgentOut * W.
Variable rag_search : pystr -> W -> result pyval * W.
(** What the router's fourth stage reads from outside. *)
Variable SYSTEM_PROMPT : pystr.
Variable chat_create : W -> pystr -> pystr -> result pyval.

Abbreviation M := (Backend.M W).
Abbreviation run_db := (perform db_call).

Record ChatResponse := {
  text : pystr;
  df : option DataFrame;
  title : option pystr;
  evidence : pydict
}.

Definition tool_evidence (name : pyval) : pydict := [(u "tool", name)].

Definition call_evidence (name args : pyval) : pydict :=
  [(u "tool", name); (u "args", args)].

(** [where = f" on floor {args['floor']}" if args.get("floor") else ""] *)
Definition where_floor (args : pyval) : M pystr :=
  fl <~ lift (get args (u "floor")) ;;
  if truthy fl then
    f <~ lift (getitem args (u "floor")) ;;
    ret (u " on floor " ++ py_str E f)
  else ret [].

(** The branch of the coffee-machine planner. *)
Definition coffee_tool (name args : pyval) : M ChatResponse :=
  fl <~ lift (get args (u "floor")) ;;
  kv <~ lift (get_default args (u "k") (VInt 2)) ;;
  h <~ lift (get args (u "hours")) ;;
  dn <~ lift (get_default args (u "days") (VInt 14)) ;;
  aq <~ lift (get_default args (u "avoid_quiet") (VBool true)) ;;
  qw <~ lift (get_default args (u "quiet_weight") (VFloat 0.6%float)) ;;
  dr <~ lift (get_default args (u "downweight_refreshment")
                (VFloat 0.5%float)) ;;
  d <~ run_db (plan_coffee_machines
                 {| floor := fl; k := kv; hours := h; days := dn;
                    avoid_quiet := aq; quiet_weight := qw;
                    downweight_refreshment := dr |}) ;;
  w <~ where_floor args ;;
  ret {| text := u "Optimized coffee-machine placement" ++ w
                   ++ u ". Higher score = more demand, fewer conflicts.";
         df := Some d; title := Some (u "Coffee machine plan" ++ w);
         evidence := call_evidence name args |}.

Definition _run_tool (name args : pyval) : M ChatResponse :=
  if eq_str name (u "list_floors") then
    d <~ run_db list_floors ;;
    ret {| text := u "Floors detected."; df := Some d;
           title := Some (u "Floors"); evidence := tool_evidence name |}
  else if eq_str name (u "rooms_on_floor") then
    f <~ lift (getitem args (u "floor")) ;;
    d <~ run_db (rooms_on_floor f) ;;
    ret {| text := str_of_int (df_len d) ++ u " rooms on " ++ py_str E f
                     ++ u ".";
           df := Some d; title := Some (u "Rooms on " ++ py_str E f);
           evidence := call_evidence name args |}
  else if eq_str name (u "status_floor_now") then
    f <~ lift (getitem args (u "floor")) ;;
    d <~ run_db (status_floor_now f) ;;
    ret {| text := str_of_int (df_len d) ++ u " rooms shown for "
                     ++ py_str E f ++ u ".";
           df := Some d; title := Some (u "Status — " ++ py_str E f);
           evidence := call_evidence name args |}
  else if eq_str name (u "free_meeting_rooms_now") then
    f <~ lift (getitem args (u "floor")) ;;
    d <~ run_db (free_meeting_rooms_now f) ;;
    ret {| text := u "Free meeting rooms now on " ++ py_str E f ++ u ".";
           df := Some d; title := Some (u "Free rooms — " ++ py_str E f);
           evidence := call_evidence name args |}
  else if eq_str name (u "busiest_rooms") then
    fl <~ lift (get args (u "floor")) ;;
    dn <~ lift (get_default args (u "days") (VInt 7)) ;;
    ln <~ lift (get_default args (u "limit") (VInt 5)) ;;
    d <~ run_db (busiest_rooms fl dn ln) ;;
    w <~ where_floor args ;;
    ret {| text := u "Top busiest rooms" ++ w ++ u " (last " ++ py_str E dn
                     ++ u " days).";
           df := Some d; title := Some (u "Busiest rooms" ++ w);
           evidence := call_evidence name args |}
  else if eq_str name (u "underused_rooms") then
    fl <~ lift (get args (u "floor")) ;;
    dn <~ lift (get_default args (u "days") (VInt 30)) ;;
    th <~ lift (get_default args (u "threshold") (VFloat 0.10%float)) ;;
    d <~ run_db (underused_rooms fl dn th) ;;
    w <~ where_floor args ;;
    ret {| text := u "Underused rooms" ++ w ++ u " (last " ++ py_str E dn
                     ++ u " days).";
           df := Some d; title := Some (u "Underused rooms" ++ w);
           evidence := call_evidence name args |}
  else if eq_str name (u "utilization_floor") then
    f <~ lift (getitem args (u "floor")) ;;
    dn <~ lift (get_default args (u "days") (VInt 7)) ;;
    d <~ run_db (utilization_floor f dn) ;;
    ret {| text := u "Average utilization of floor " ++ py_str E f
                     ++ u " (last " ++ py_str E dn ++ u " days).";
           df := Some d;
           title := Some (u "Utilization — Floor " ++ py_str E f);
           evidence := call_evidence name args |}
  else if eq_str name (u "utilization_by_floor") then
    dn <~ lift (get_default args (u "days") (VInt 7)) ;;
    d <~ run_db (utilization_by_floor dn) ;;
    ret {| text := u "Average utilization by floor (last " ++ py_str E dn
                     ++ u " days).";
           df := Some d; title := Some (u "Utilization by floor");
           evidence := call_evidence name args |}
  else if eq_str name (u "plan_coffee_machines") then coffee_tool name args
  else if eq_str name (u "data_profile_summary") then
    prof <~ DataProfile.build_profile db_call pd ;;
    let md := u "### Data profile" ++ [10%N] ++ DataProfile.as_markdown prof in
    d <~ run_db list_floors ;;
    ret {| text := md; df := Some d;
           title := Some (u "Building data profile");
           evidence := tool_evidence name |}
  else if eq_str name (u "data_overview") then
    util7 <~ run_db (utilization_by_floor (VInt 7)) ;;
    util30 <~ run_db (utilization_by_floor (VInt 30)) ;;
    let d := match df_merge util7 util30 with
             | Some m => m
             | None => util30
             end in
    ret {| text := u "Overview of building usage — average utilization per floor (7d & 30d).";
           df := Some d; title := Some (u "Usage overview");
           evidence := tool_evidence name |}
  else
    ret {| text := u "Unknown tool: " ++ py_str E name; df := None;
           title := None; evidence := [] |}.

(** The dictionary [ask] returns. *)
Inductive table :=
| NoTable                      (* None *)
| Table (d : DataFrame).

Record Answer := {
  a_text : pyval;
  a_df : table;
  a_title : pyval;
  a_evidence : option pydict;
  a_route : option (Router.mode_t * pystr)
}.

Definition no_rows (route : option (Router.mode_t * pystr)) : Answer :=
  {| a_text := VStr (u "No rows for that query in your data.");
     a_df := NoTable; a_title := VNone; a_evidence := None;
     a_route := route |}.

Definition as_table (d : option DataFrame) : table :=
  match d with Some d => Table d | None => NoTable end.

Definition ask (question : pystr) (strict show_route : bool) : M Answer :=
  decision <~ NLRouter.infer E cfg db_call pd SYSTEM_PROMPT chat_create
                question ;;
  let route := if show_route
               then Some (Router.mode decision, Router.trace decision)
               else None in
  match Router.mode decision with
  | Router.agent =>
      out <~ outside (agent_run question) ;;
      ret {| a_text := o_text out; a_df := as_table (o_df out);
             a_title := o_title out; a_evidence := None; a_route := route |}
  | Router.tool =>
      r <~ _run_tool (Router.name decision) (Router.args decision) ;;
      if strict && match df r with Some d => df_empty d | None => false end
      then ret (no_rows route)
      else
        ret {| a_text := VStr (text r);
               a_df := as_table (df r);
               a_title := Router.opt_val VStr (title r);
               a_evidence := Some (evidence r); a_route := route |}
  | Router.sql_mode =>
      let q := match Router.sql decision with Some s => s | None => [] end in
      fun s =>
        match run_db (execute_sql q) s with
        | (Raise e, s') =>
            (Ok {| a_text := VStr (u "SQL error: " ++ str_exn E e);
                   a_df := NoTable; a_title := VNone; a_evidence := None;
                   a_route := route |}, s')
        | (Ok d, s') =>
            if strict && df_empty d then (Ok (no_rows route), s')
            else
              let ev := [(u "sql", VStr q); (u "rows", VInt (df_len d))] in
              let ev := if df_empty d then ev
                        else dict_set (u "sample") (df_sample d) ev in
              (Ok {| a_text := VStr (u "Derived from SQL."); a_df := Table d;
                     a_title := VStr (u "Query result");
                     a_evidence := Some ev; a_route := route |}, s')
        end
  | Router.rag =>
      out <~ outside (rag_search question) ;;
      t <~ (if truthy out then lift (get out (u "text")) else ret VNone) ;;
      let txt := py_or t (VStr []) in
      found <~ lift (contains_str (u "Citations:") txt) ;;
      if strict && negb found then
        ret {| a_text := VStr (u "Not found in indexed docs.");
               a_df := NoTable; a_title := VNone; a_evidence := None;
               a_route := route |}
      else
        ret {| a_text := txt; a_df := NoTable;
               a_title := VStr (u "RAG answer"); a_evidence := None;
               a_route := route |}
  | Router.text_mode =>
      ret {| a_text := match Router.text decision with
                       | Some t => VStr t
                       | None => VNone
                       end;
             a_df := NoTable; a_title := VNone; a_evidence := None;
             a_route := route |}
  end.

End WithBackend.

Arguments text {DataFrame} c.
Arguments df {DataFrame} c.
Arguments title {DataFrame} c.
Arguments evidence {DataFrame} c.
Arguments a_text {DataFrame} a.
Arguments a_df {DataFrame} a.
Arguments a_title {DataFrame} a.
Arguments a_evidence {DataFrame} a.
Arguments a_route {DataFrame} a.
Arguments NoTable {DataFrame}.
Arguments where_floor E {W} args _.
Arguments coffee_tool E {DataFrame W} db_call name args _.
Arguments o_title {DataFrame} a.
Arguments o_text {DataFrame} a.
Arguments o_df {DataFrame} a.
Arguments Build_AgentOut {DataFrame} o_title o_text o_df.
Arguments _run_tool E {DataFrame W} db_call df_len df_merge pd name args _.
Arguments ask E cfg {DataFrame W} db_call df_empty df_len df_sample df_merge
  pd agent_run rag_search SYSTEM_PROMPT chat_create question strict
  show_route _.

End Chat.

(** * The database client's helpers ([src/db.py]) *)

(** [re.fullmatch]: a match from the first character that ends at the end
    of the text. *)
Definition re_fullmatch (E : py_env) (fl : re_flags) (r : regex) (s : pystr)
  : option (list (nat * pystr)) :=
  match rmatch E fl r {| m_prev := None; m_rest := s; m_groups := [] |}
          (fun st => match m_rest st with [] => Some st | _ :: _ => None end)
  with
  | Some st => Some (m_groups st)
  | None => None
  end.

Module DuckDBClient.

(* \s*([+-]?\d+)\s* *)
Definition re_floor_token : regex :=
  RSeqs [RStar (RCls CSpace); RGroup 1 (Router.sign_digits (u "+-"));
         RStar (RCls CSpace)].

Definition numeric_floor : pystr :=
  u "COALESCE(TRY_CAST(s.storey_floorId AS INTEGER), s.floor_n) = ?".

Definition named_floor : pystr := u "LOWER(s.storey_name) = LOWER(?)".

(** Letters and digits of ASCII: the characters outside [[^A-Za-z0-9]]. *)
Definition ascii_alnum (c : N) : bool :=
  ((48 <=? c) && (c <=? 57) || (65 <=? c) && (c <=? 90)
   || (97 <=? c) && (c <=? 122))%N.

Definition ascii_upper (c : N) : N :=
  if ((97 <=? c) && (c <=? 122))%N then (c - 32)%N else c.

Section WithEnv.
Variable E : py_env.
(** Unicode character database, code points 128 and above:
    [str.isdigit()] and [str.upper()] of one code point. *)
Variable u_isdigit : N -> bool.
Variable u_upper : N -> pystr.

(** [ch.isdigit()] *)
Definition isdigit (c : N) : bool :=
  if is_ascii c then ((48 <=? c) && (c <=? 57))%N else u_isdigit c.

Definition upper_cp (c : N) : pystr :=
  if is_ascii c then [ascii_upper c] else u_upper c.

(** [s.upper()], code point by code point. *)
Definition upper (s : pystr) : pystr := flat_map upper_cp s.

(** The argument is whatever the caller found under ["floor"]. *)
Definition _parse_floor_token (floor : pyval) : result (option Z) :=
  match py_or floor (VStr []) with
  | VStr s =>
      match re_fullmatch E no_flags re_floor_token s with
      | Some m => n <- int_of_str E (grp 1 m) ;; Ok (Some n)
      | None => Ok None
      end
  | _ => Raise (Builtin TypeError (u "expected string or bytes-like object"))
  end.

(** The condition on the floor and its one parameter. *)
Definition _floor_where (floor : pyval) : result (pystr * list pyval) :=
  n <- _parse_floor_token floor ;;
  match n with
  | Some n => Ok (numeric_floor, [VInt n])
  | None =>
      match floor with
      | VStr s => Ok (named_floor, [VStr (strip E s)])
      | _ => Raise (Builtin AttributeError (u "strip"))
      end
  end.

(** [text or ""] for a text that is a [str] or [None]. *)
Definition or_empty (text : option pystr) : pystr :=
  match text with Some s => s | None => [] end.

Definition _to_room_id (text : option pystr) : pystr :=
  filter isdigit (or_empty text).

(** [re.sub(r'[^A-Za-z0-9]', '', text or '').upper()]: the pattern matches
    one character that is no ASCII letter or digit, and every match is
    replaced by the empty text, so the letters and digits remain, in
    order. *)
Definition _to_room_key (text : option pystr) : pystr :=
  upper (filter ascii_alnum (or_empty text)).

End WithEnv.
End DuckDBClient.

(** * The language-model planner ([src/planner.py]) *)

Module Planner.

Definition unparsed : pystr :=
  u "I couldn't parse a tool/SQL plan. Please rephrase or ask for a specific metric.".

Definition invalid_sql : pystr := u "Planner proposed invalid SQL.".

Definition no_tool : pystr :=
  u "I couldn't choose a tool for that. Try asking for a metric (e.g., 'underused rooms last 30 days').".

(** [s.strip(chars)] *)
Fixpoint lstrip_chars (chars s : pystr) : pystr :=
  match s with
  | [] => []
  | c :: s' => if mem_cp c chars then lstrip_chars chars s' else s
  end.

Definition strip_chars (chars s : pystr) : pystr :=
  rev (lstrip_chars chars (rev (lstrip_chars chars s))).

(** [v[k] = x] for a string key. *)
Definition setitem (v : pyval) (k : pystr) (x : pyval) : result pyval :=
  match v with
  | VDict d => Ok (VDict (dict_set k x d))
  | _ => Raise (Builtin TypeError k)
  end.

Section WithEnv.
Variable E : py_env.
(** [load_grounding(grounding_path)]: the text of the grounding pack, or
    the exception that reading it raises. *)
Variable grounding : result pystr.
(** The two requests to the language model, [chat] under the system prompt
    of the tool planner and under that of the SQL planner, each given the
    grounding pack and the user's message: the reply, or the exception
    raised. *)
Variable chat_tool_planner : pystr -> pystr -> result pystr.
Variable chat_sql_planner : pystr -> pystr -> result pystr.

(** [sql.lower().startswith(("select","with"))] *)
Definition is_query (sql : pystr) : bool :=
  startswith (u "select") (lower E sql) || startswith (u "with") (lower E sql).

Definition final (t : pyval) : pyval := VDict [(u "final", t)].

Definition sql_plan (sql : pystr) : pyval :=
  VDict [(u "mode", VStr (u "sql")); (u "sql", VStr sql)].

Definition plan (user_msg : pystr) : result pyval :=
  g <- grounding ;;
  (* Try tool planner first *)
  out <- chat_tool_planner g user_msg ;;
  match json_loads E (strip E out) with
  | Raise _ =>
      (* Fallback to SQL planner *)
      reply <- chat_sql_planner g user_msg ;;
      let sql := strip_chars (u "`") (strip E reply) in
      if negb (is_query sql) then Ok (final (VStr unparsed))
      else Ok (sql_plan sql)
  | Ok decision =>
      (* Normalize tool path *)
      has_tool <- contains_str (u "tool") decision ;;
      if has_tool then
        name <- get_default decision (u "tool") (VStr []) ;;
        a0 <- get_default decision (u "args") (VDict []) ;;
        let args := py_or a0 (VDict []) in
        (* small convenience: blank floor -> None *)
        has_floor <- contains_str (u "floor") args ;;
        args <- (if has_floor then
                   f <- getitem args (u "floor") ;;
                   match f with
                   | VStr s =>
                       if str_eqb (strip E s) []
                       then setitem args (u "floor") VNone
                       else Ok args
                   | _ => Ok args
                   end
                 else Ok args) ;;
        (* "now" but no hours: hours=1 for the coffee planner *)
        args <- (if eq_str name (u "plan_coffee_machines") then
                   has_hours <- contains_str (u "hours") args ;;
                   if negb has_hours && contains (u "now") (lower E user_msg)
                   then setitem args (u "hours") (VInt 1)
                   else Ok args
                 else Ok args) ;;
        Ok (VDict [(u "tool", name); (u "args", args)])
      else
        (* Or SQL mode selected by the model *)
        md <- get decision (u "mode") ;;
        if eq_str md (u "sql") then
          sq <- get_default decision (u "sql") (VStr []) ;;
          match sq with
          | VStr s =>
              let sql := strip_chars (u "`") (strip E s) in
              if negb (is_query sql) then Ok (final (VStr invalid_sql))
              else Ok (sql_plan sql)
          | _ => Raise (Builtin AttributeError (u "strip"))
          end
        else
          (* Or a final text answer *)
          has_final <- contains_str (u "final") decision ;;
          if has_final then
            f <- getitem decision (u "final") ;;
            Ok (final f)
          else Ok (final (VStr no_tool))
  end.

End WithEnv.
End Planner.

(** * The tools offered to the language model ([src/prompts.py]) *)

Module Prompts.

Definition TOOLS : list pyval :=
  [VDict
     [(u "type", VStr (u "function"));
      (u "function", VDict
        [(u "name", VStr (u "list_floors"));
         (u "description", VStr (u "List available floors."));
         (u "parameters", VDict
           [(u "type", VStr (u "object"));
            (u "properties", VDict [])])])];
   VDict
     [(u "type", VStr (u "function"));
      (u "function", VDict
        [(u "name", VStr (u "rooms_on_floor"));
         (u "description", VStr (u "List rooms on a floor."));
         (u "parameters", VDict
           [(u "type", VStr (u "object"));
            (u "properties", VDict
              [(u "floor", VDict [(u "type", VStr (u "string"))])]);
            (u "required", VList [VStr (u "floor")])])])];
   VDict
     [(u "type", VStr (u "function"));
      (u "function", VDict
        [(u "name", VStr (u "free_meeting_rooms_now"));
         (u "description", VStr (u "Free meeting rooms now on a floor."));
         (u "parameters", VDict
           [(u "type", VStr (u "object"));
            (u "properties", VDict
              [(u "floor", VDict [(u "type", VStr (u "string"))])]);
            (u "required", VList [VStr (u "floor")])])])];
   VDict
     [(u "type", VStr (u "function"));
      (u "function", VDict
        [(u "name", VStr (u "status_floor_now"));
         (u "description", VStr (u "Latest occupancy per room on a floor."));
         (u "parameters", VDict
           [(u "type", VStr (u "object"));
            (u "properties", VDict
              [(u "floor", VDict [(u "type", VStr (u "string"))])]);
            (u "required", VList [VStr (u "floor")])])])];
   VDict
     [(u "type", VStr (u "function"));
      (u "function", VDict
        [(u "name", VStr (u "busiest_rooms"));
         (u "description", VStr (u "Top busy rooms."));
         (u "parameters", VDict
           [(u "type", VStr (u "object"));
            (u "properties", VDict
              [(u "floor", VDict [(u "type", VStr (u "string"))]);
               (u "days", VDict
                 [(u "type", VStr (u "integer"));
                  (u "default", VInt 7)]);
               (u "limit", VDict
                 [(u "type", VStr (u "integer"));
                  (u "default", VInt 5)])])])])];
   VDict
     [(u "type", VStr (u "function"));
      (u "function", VDict
        [(u "name", VStr (u "underused_rooms"));
         (u "description", VStr (u "Least-used rooms."));
         (u "parameters", VDict
           [(u "type", VStr (u "object"));
            (u "properties", VDict
              [(u "floor", VDict [(u "type", VStr (u "string"))]);
               (u "days", VDict
                 [(u "type", VStr (u "integer"));
                  (u "default", VInt 30)]);
               (u "threshold", VDict [(u "type", VStr (u "number"))])])])])];
   VDict
     [(u "type", VStr (u "function"));
      (u "function", VDict
        [(u "name", VStr (u "utilization_floor"));
         (u "description", VStr (u "Avg utilization of a floor."));
         (u "parameters", VDict
           [(u "type", VStr (u "object"));
            (u "properties", VDict
              [(u "floor", VDict [(u "type", VStr (u "string"))]);
               (u "days", VDict
                 [(u "type", VStr (u "integer"));
                  (u "default", VInt 7)])]);
            (u "required", VList [VStr (u "floor")])])])];
   VDict
     [(u "type", VStr (u "function"));
      (u "function", VDict
        [(u "name", VStr (u "utilization_by_floor"));
         (u "description", VStr (u "Avg utilization by floor."));
         (u "parameters", VDict
           [(u "type", VStr (u "object"));
            (u "properties", VDict
              [(u "days", VDict
                 [(u "type", VStr (u "integer"));
                  (u "default", VInt 7)])])])])];
   VDict
     [(u "type", VStr (u "function"));
      (u "function", VDict
        [(u "name", VStr (u "plan_coffee_machines"));
         (u "description", VStr (u "Optimize coffee-machine placement. Decision happens in Python."));
         (u "parameters", VDict
           [(u "type", VStr (u "object"));
            (u "properties", VDict
              [(u "floor", VDict [(u "type", VStr (u "string"))]);
               (u "k", VDict
                 [(u "type", VStr (u "integer"));
                  (u "default", VInt 2)]);
               (u "hours", VDict
                 [(u "type", VStr (u "integer"));
                  (u "description", VStr (u "If user says 'now', set 1."))]);
               (u "days", VDict
                 [(u "type", VStr (u "integer"));
                  (u "default", VInt 14)]);
               (u "avoid_quiet", VDict
                 [(u "type", VStr (u "boolean"));
                  (u "default", VBool true)]);
               (u "quiet_weight", VDict
                 [(u "type", VStr (u "number"));
                  (u "default", VFloat 0.6%float)]);
               (u "downweight_refreshment", VDict
                 [(u "type", VStr (u "number"));
                  (u "default", VFloat 0.5%float)])])])])];
   VDict
     [(u "type", VStr (u "function"));
      (u "function", VDict
        [(u "name", VStr (u "data_profile_summary"));
         (u "description", VStr (u "Return cached data profile (rows, time span, floors, space types)."));
         (u "parameters", VDict
           [(u "type", VStr (u "object"));
            (u "properties", VDict [])])])];
   VDict
     [(u "type", VStr (u "function"));
      (u "function", VDict
        [(u "name", VStr (u "data_overview"));
         (u "description", VStr (u "Compute building utilization overview and narrative for the last N days."));
         (u "parameters", VDict
           [(u "type", VStr (u "object"));
            (u "properties", VDict
              [(u "days", VDict
                 [(u "type", VStr (u "integer"));
                  (u "default", VInt 14)])])])])]].

(** [t["function"]["name"]] *)
Definition tool_name (t : pyval) : result pyval :=
  f <- getitem t (u "function") ;; getitem f (u "name").

End Prompts.

(** * Vocabulary of the statements *)

(** [w] occurs in [s]. *)
Definition occurs (w s : pystr) : Prop := exists a b, s = a ++ w ++ b.

(** The text both gates search: the statement lowered and trimmed, with one
    space added at each end. *)
Definition padded (E : py_env) (sql : pystr) : pystr :=
  u " " ++ strip E (lower E sql) ++ u " ".

(** [kw] stands between two spaces in the padded statement. *)
Definition space_delimited (E : py_env) (kw sql : pystr) : Prop :=
  occurs (u " " ++ kw ++ u " ") (padded E sql).

(** The wrapper a gate puts around a statement without a limit. *)
Definition wrapped (sql alias : pystr) (cap : Z) : pystr :=
  u "SELECT * FROM (" ++ sql ++ u ") AS " ++ alias ++ u " LIMIT "
    ++ str_of_int cap.

Definition is_value_error {A} (r : result A) : Prop :=
  exists msg, r = Raise (Raised ValueError msg).

(** The characters of an integer written in decimal. *)
Definition dm_chars : pystr := u "-0123456789".


(** The parser step of the database client's gate. *)
Definition db_parse (E : py_env) (HAS_SQLGLOT : bool) (sql : pystr)
  : result unit :=
  if HAS_SQLGLOT then sqlglot_parse E sql else Ok tt.


(** Two outcomes of the gates that differ at most in the alias of the
    wrapper: the same statement unchanged, the same statement wrapped with
    the same cap, or an exception of the same kind. *)
Definition agree_up_to_alias (sql : pystr) (cap : Z) (r d : result pystr)
  : Prop :=
  match r, d with
  | Ok a, Ok b =>
      (a = sql /\ b = sql)
      \/ (a = wrapped sql (u "_t") cap /\ b = wrapped sql (u "_safe") cap)
  | Raise e1, Raise e2 => exn_kind_of e1 = exn_kind_of e2
  | _, _ => False
  end.

(** A stand-in for the SQL parser that knows one rule of the language: a
    line comment [--] runs to the end of the line, and what is left must
    have its parentheses balanced. *)
Fixpoint paren_depth (in_comment : bool) (depth : Z) (s : pystr)
  : option Z :=
  match s with
  | [] => Some depth
  | c :: s' =>
      if in_comment then paren_depth (negb (cp_eqb c 10)) depth s'
      else if cp_eqb c 45 && match s' with
                             | d :: _ => cp_eqb d 45
                             | [] => false
                             end
      then paren_depth true depth s'
      else if cp_eqb c 40 then paren_depth false (depth + 1) s'
      else if cp_eqb c 41 then
        if (depth <=? 0)%Z then None else paren_depth false (depth - 1) s'
      else paren_depth false depth s'
  end.

Definition comment_aware_parse (s : pystr) : result unit :=
  match paren_depth false 0 s with
  | Some 0%Z => Ok tt
  | _ => Raise (Raised ParseError (u "Expecting )"))
  end.

(** [ascii_env] with that parser. *)
Definition comment_env : py_env := {|
  u_lower := u_lower ascii_env;
  u_decomp := u_decomp ascii_env;
  u_combining := u_combining ascii_env;
  u_isspace := u_isspace ascii_env;
  u_decimal := u_decimal ascii_env;
  u_isalnum := u_isalnum ascii_env;
  u_ci_eq := u_ci_eq ascii_env;
  sqlglot_parse := comment_aware_parse;
  json_loads := json_loads ascii_env;
  json_dumps := json_dumps ascii_env;
  float_of_str := float_of_str ascii_env;
  str_other := str_other ascii_env;
  str_builtin_exn := str_builtin_exn ascii_env
|}.

(** Whether fields of a decision are populated. *)
Definition nonemptyb (s : pystr) : bool :=
  match s with [] => false | _ :: _ => true end.

Definition populated (o : option pystr) : bool :=
  match o with Some s => nonemptyb s | None => false end.

Definition absent (o : option pystr) : bool :=
  match o with None => true | Some _ => false end.

Definition is_none (v : pyval) : bool :=
  match v with VNone => true | _ => false end.

(** A tool decision names a tool and carries an argument dictionary. *)
Definition names_tool (d : Router.Decision) : bool :=
  match Router.name d, Router.args d with
  | VStr s, VDict _ => nonemptyb s
  | _, _ => false
  end.

(** The shape [infer] keeps: what does not belong to the mode is empty,
    the text of the modes [sql] and [text] is there, and so is the trace. *)
Definition well_formed (d : Router.Decision) : bool :=
  nonemptyb (Router.trace d)
  && match Router.mode d with
     | Router.tool => absent (Router.sql d) && absent (Router.text d)
     | Router.sql_mode =>
         populated (Router.sql d) && is_none (Router.name d)
         && is_none (Router.args d) && absent (Router.text d)
     | Router.text_mode =>
         populated (Router.text d) && is_none (Router.name d)
         && is_none (Router.args d) && absent (Router.sql d)
     | Router.agent =>
         is_none (Router.name d) && is_none (Router.args d)
         && absent (Router.sql d) && absent (Router.text d)
     | Router.rag => false
     end.

(** A message in which the language model calls a tool without naming
    it. *)
Definition nameless_tool_call : pyval :=
  VObj [(u "tool_calls",
         VList [VObj [(u "function",
                       VObj [(u "name", VNone);
                             (u "arguments", VStr (u "{}"))])]]);
        (u "content", VNone)].

(** The text of the questions the specification quotes. *)
Definition q_underused_floor4 : pystr :=
  u "underused rooms on floor 4 below 15%".

Definition q_why_floor2 : pystr := u "why is floor 2 always empty".

(** A threshold of four hundred digits. *)
Definition q_huge_threshold : pystr :=
  u "underused below " ++ repeat 57%N 400 ++ u "%".

(** The shape of a decision of the pattern matcher. *)
Definition shaped (d : Router.Decision) : Prop :=
  names_tool d = true /\ well_formed d = true /\ Router.mode d = Router.tool.

(** The tools each dispatcher knows. *)
Definition agent_tools : list pystr :=
  [u "list_floors"; u "rooms_on_floor"; u "status_floor_now";
   u "free_meeting_rooms_now"; u "busiest_rooms"; u "underused_rooms";
   u "utilization_floor"; u "utilization_by_floor";
   u "plan_coffee_machines"].

Definition chat_tools : list pystr :=
  agent_tools ++ [u "data_profile_summary"; u "data_overview"].

Definition known (tools : list pystr) (name : pyval) : bool :=
  existsb (eq_str name) tools.

(** The outcome of a run of the coffee planner, with the note of the
    auto-repair added to its text. *)
Definition annotated {DataFrame W : Type}
           (p : result (Agent.ToolResult DataFrame) * Backend.sys W)
  : result (Agent.ToolResult DataFrame) * Backend.sys W :=
  match p with
  | (Ok r, s) =>
      (Ok {| Agent.title := Agent.title r; Agent.df := Agent.df r;
             Agent.text := Agent.text r ++ Agent.auto_repaired |}, s)
  | (Raise e, s) => (Raise e, s)
  end.

(** A backend whose every table is empty: a table is its number of rows. *)
Definition empty_backend (c : Backend.call) (w : unit)
  : result nat * unit := (Ok 0%nat, w).

(** Readings of such a table: no floor, no space type, no time span, the
    number of rows as the count, an empty first row. *)
Definition plain_columns : columns nat := {|
  floors_as_int := fun _ => Ok [];
  floors_int_each := fun _ => Ok [];
  column_t := fun _ => Ok [];
  count_n := fun n => Ok (Z.of_nat n);
  time_span := fun _ => Ok (None, None);
  first_row := fun _ => Ok [];
  head_records := fun _ => VList []
|}.

Definition start : Backend.sys unit :=
  {| Backend.world := tt; Backend.calls := [] |}.

(** The options of the coffee planner when the question sets none. *)
Definition default_options : Backend.PlanOptions :=
  {| Backend.floor := VNone; Backend.k := VInt 2; Backend.hours := VNone;
     Backend.days := VInt 14; Backend.avoid_quiet := VBool true;
     Backend.quiet_weight := VFloat 0.6%float;
     Backend.downweight_refreshment := VFloat 0.5%float |}.

(** What [run] makes of the result of a tool on a path without
    suggestions: the same dictionary, or the same exception. *)
Definition returned {DataFrame W : Type}
           (p : result (Agent.ToolResult DataFrame) * Backend.sys W)
  : result (Agent.RunResult DataFrame) * Backend.sys W :=
  match p with
  | (Ok r, s) => (Ok (Agent.as_run DataFrame r), s)
  | (Raise e, s) => (Raise e, s)
  end.

(** The planner's outcome leaves the decision to the router: it raised, or
    its dictionary holds no final text, no tool and no statement. *)
Definition left_to_router (r : result pyval) : bool :=
  match r with
  | Raise _ => true
  | Ok (VDict d) =>
      let val k := match dict_get k d with Some v => v | None => VNone end in
      negb (truthy (val (u "final")))
      && negb (dict_has (u "tool") d)
      && negb (eq_str (val (u "mode")) (u "sql") && truthy (val (u "sql")))
  | Ok _ => false
  end.

Section Reaching.
Variable E : py_env.
Variable cfg : Router.flags.
Variables DataFrame W : Type.
Variable db_call : Backend.call -> W -> result DataFrame * W.
Variable pd : columns DataFrame.
Variable planner_plan : pystr -> W -> result pyval * W.
Variable SYSTEM_PROMPT : pystr.
Variable chat_create : W -> pystr -> pystr -> result pyval.

(** How [AgentPro.run], started in [s] on [user_goal], comes to run a tool:
    on the planner's decision [{"tool": name, "args": a}], with the
    arguments [a or {}]; or, when the planner leaves the decision to the
    router, on the router's tool decision.  [planned] tells which of the
    two, [s0] is the state in which the dispatcher starts. *)
Inductive reaches_dispatcher (user_goal : pystr) (s : Backend.sys W)
  : bool -> pyval -> pyval -> Backend.sys W -> Prop :=
| by_planner (name a : pyval) (w0 : W) :
    planner_plan user_goal (Backend.world s)
    = (Ok (VDict [(u "tool", name); (u "args", a)]), w0) ->
    reaches_dispatcher user_goal s true name (py_or a (VDict []))
      {| Backend.world := w0; Backend.calls := Backend.calls s |}
| by_router (r : result pyval) (w0 : W) (d : Router.Decision)
            (s0 : Backend.sys W) :
    planner_plan user_goal (Backend.world s) = (r, w0) ->
    left_to_router r = true ->
    NLRouter.infer E cfg db_call pd SYSTEM_PROMPT chat_create user_goal
      {| Backend.world := w0; Backend.calls := Backend.calls s |}
    = (Ok d, s0) ->
    Router.mode d = Router.tool ->
    reaches_dispatcher user_goal s false (Router.name d) (Router.args d) s0.

End Reaching.

Arguments reaches_dispatcher E cfg {DataFrame W} db_call pd planner_plan
  SYSTEM_PROMPT chat_create user_goal s _ _ _ _.

(** The request for the quick indicators of the last 24 hours, which the
    summary of suggestions makes. *)
Definition kpi_request (c : Backend.call) : Prop :=
  c = Backend.execute_sql (Insights.kpis_sql 24).

(** A request for a coffee plan over [max(n, 14)] days that does not avoid
    the quiet zones. *)
Definition relaxed_plan (n : Z) (c : Backend.call) : Prop :=
  exists o, c = Backend.plan_coffee_machines o
            /\ Backend.days o = VInt (Z.max n 14)
            /\ Backend.avoid_quiet o = VBool false.

(** A reasoning agent that answers nothing. *)
Definition silent_agent (q : pystr) (w : unit)
  : result (Chat.AgentOut nat) * unit :=
  (Ok {| Chat.o_title := VNone; Chat.o_text := VNone; Chat.o_df := None |},
   w).

(** A planner that always picks the coffee planner, for the last hour of
    the last 7 days. *)
Definition coffee_planner (q : pystr) (w : unit) : result pyval * unit :=
  (Ok (VDict [(u "tool", VStr (u "plan_coffee_machines"));
              (u "args", VDict [(u "hours", VInt 1); (u "days", VInt 7)])]),
   w).

(** A computation that leaves the backend alone. *)
Definition quiet {W A : Type} (m : Backend.M W A) : Prop :=
  forall s r s1, m s = (r, s1) -> s1 = s.

(** One statement, a query, with a limit between two spaces: the form in
    which a gate hands a statement on. *)
Definition single_limited_query (E : py_env) (sql : pystr) : Prop :=
  contains (u ";") sql = false
  /\ startswith (u "select") (strip E (lower E sql))
     || startswith (u "with") (strip E (lower E sql)) = true
  /\ space_delimited E (u "limit") sql.

(** A failure of a gate: a [ValueError] of its own, or what the parser
    raised when that is no [ParseError]. *)
Definition gate_failure (parsed : result unit) (e : exn) : Prop :=
  exn_kind_of e = ValueError
  \/ (parsed = Raise e /\ exn_kind_of e <> ParseError).

(** The name under which the storage layer offers an operation. *)
Definition call_name (c : Backend.call) : pystr :=
  match c with
  | Backend.list_floors => u "list_floors"
  | Backend.rooms_on_floor _ => u "rooms_on_floor"
  | Backend.status_floor_now _ => u "status_floor_now"
  | Backend.free_meeting_rooms_now _ => u "free_meeting_rooms_now"
  | Backend.busiest_rooms _ _ _ => u "busiest_rooms"
  | Backend.underused_rooms _ _ _ => u "underused_rooms"
  | Backend.utilization_floor _ _ => u "utilization_floor"
  | Backend.utilization_by_floor _ => u "utilization_by_floor"
  | Backend.plan_coffee_machines _ => u "plan_coffee_machines"
  | Backend.execute_sql _ => u "execute_sql"
  end.

Definition is_int (v : pyval) : bool :=
  match v with VInt _ => true | _ => false end.

Definition is_float (v : pyval) : bool :=
  match v with VFloat _ => true | _ => false end.

Definition is_bool (v : pyval) : bool :=
  match v with VBool _ => true | _ => false end.

(** A request whose counts are of type [int], whose threshold and weights
    are of type [float] and whose switch is a [bool]. *)
Definition coerced (c : Backend.call) : bool :=
  match c with
  | Backend.busiest_rooms _ d l => is_int d && is_int l
  | Backend.underused_rooms _ d t => is_int d && is_float t
  | Backend.utilization_floor _ d => is_int d
  | Backend.utilization_by_floor d => is_int d
  | Backend.plan_coffee_machines o =>
      is_int (Backend.k o) && is_int (Backend.days o)
      && is_bool (Backend.avoid_quiet o)
      && is_float (Backend.quiet_weight o)
      && is_float (Backend.downweight_refreshment o)
  | _ => true
  end.

(** The numbers that a tool of the orchestrator's dispatcher converts: the
    key of each with its default, whose type tells the conversion. *)
Definition numbers_of (name : pystr) : list (pystr * pyval) :=
  if str_eqb name (u "busiest_rooms") then
    [(u "days", VInt 7); (u "limit", VInt 5)]
  else if str_eqb name (u "underused_rooms") then
    [(u "days", VInt 30); (u "threshold", VFloat 0.10%float)]
  else if str_eqb name (u "utilization_floor") then [(u "days", VInt 7)]
  else if str_eqb name (u "utilization_by_floor") then [(u "days", VInt 7)]
  else if str_eqb name (u "plan_coffee_machines") then
    [(u "k", VInt 2); (u "days", VInt 14);
     (u "quiet_weight", VFloat 0.6%float);
     (u "downweight_refreshment", VFloat 0.5%float)]
  else [].

(** [int(args.get(key, default))] for a default that is an [int],
    [float(args.get(key, default))] for one that is a [float]. *)
Definition converted (E : py_env) (args : pyval) (kd : pystr * pyval)
  : result pyval :=
  v <- get_default args (fst kd) (snd kd) ;;
  match snd kd with
  | VFloat _ => f <- py_float E v ;; Ok (VFloat f)
  | _ => n <- py_int E v ;; Ok (VInt n)
  end.

(** The computation raises, whatever the state, and leaves the state as it
    was: nothing has been asked. *)
Definition raises_unasked {W A : Type} (m : Backend.M W A) : Prop :=
  forall s, exists e, m s = (Raise e, s).

(** Whatever its outcome, the computation adds at most [n] requests to the
    record, each of them satisfying [P]. *)
Definition asks_at_most {W A : Type} (n : nat) (P : Backend.call -> Prop)
           (m : Backend.M W A) : Prop :=
  forall s r s1, m s = (r, s1) ->
    exists l, Backend.calls s1 = Backend.calls s ++ l
              /\ (List.length l <= n)%nat /\ Forall P l.




(** The tools that read their floor with [args["floor"]]. *)
Definition floor_tools : list pystr :=
  [u "rooms_on_floor"; u "status_floor_now"; u "free_meeting_rooms_now";
   u "utilization_floor"].

(** The decision hands the question to the reasoning agent. *)
Definition for_the_agent (r : result Router.Decision) : bool :=
  match r with
  | Ok d =>
      match Router.mode d with
      | Router.agent | Router.rag => true
      | _ => false
      end
  | Raise _ => false
  end.


Definition orchestrator_statements : list pystr :=
  [NLRouter.space_types_sql; Insights.kpis_sql 24].

(** A request to execute SQL carries a statement that satisfies [G]. *)
Definition sql_only_if (G : pystr -> Prop) (c : Backend.call) : Prop :=
  forall x, c = Backend.execute_sql x -> G x.

(** A backend whose every table has three rows. *)
Definition three_rows_backend (c : Backend.call) (w : unit)
  : result nat * unit := (Ok 3%nat, w).

(** A backend that fails on every request. *)
Definition failing_backend (c : Backend.call) (w : unit)
  : result nat * unit := (Raise (Raised OtherError (u "no such table")), w).

(** A message in which the language model answers with a statement. *)
Definition sql_reply : pyval :=
  VObj [(u "tool_calls", VNone); (u "content", VStr (u "select 1 from t"))].

Arguments Chat.Table {DataFrame} d.
Arguments Chat.no_rows {DataFrame} route.

(** The flags of the router with the language model switched off. *)
Definition no_llm_flags : Router.flags :=
  {| Router.FAST_INTENTS := true; Router.FAST_SQL := true;
     Router.LLM_ROUTING := false; Router.STRICT_MODE := true;
     Router.MAX_ROWS := 500 |}.

(** The loop of the matcher on a repetition, as [rmatch] runs it. *)
Definition rep_loop (E : py_env) (fl : re_flags) (r' : regex) (lo : nat)
           (greedy : bool) (k : mstate -> option mstate)
  : nat -> nat -> mstate -> option mstate :=
  fix loop (fuel : nat) (i : nat) (st : mstate) {struct fuel}
    : option mstate :=
    match fuel with
    | O => if (lo <=? i)%nat then k st else None
    | S fuel' =>
        if greedy then
          match rmatch E fl r' st
                  (fun st' => if shorter st' st
                              then loop fuel' (S i) st' else None) with
          | Some x => Some x
          | None => if (lo <=? i)%nat then k st else None
          end
        else
          match (if (lo <=? i)%nat then k st else None) with
          | Some x => Some x
          | None =>
              rmatch E fl r' st
                (fun st' => if shorter st' st
                            then loop fuel' (S i) st' else None)
          end
    end.

(** The character before the cursor once [ws] has been read. *)
Fixpoint last_prev (p : option N) (ws : pystr) : option N :=
  match ws with
  | [] => p
  | c :: ws' => last_prev (Some c) ws'
  end.

(** The state of the matcher once it has read [ws], with [t] left. *)
Definition after (ws : pystr) (st : mstate) (t : pystr) : mstate :=
  {| m_prev := last_prev (m_prev st) ws; m_rest := t;
     m_groups := m_groups st |}.

(** The continuation of [re.fullmatch]. *)
Definition at_end (st : mstate) : option mstate :=
  match m_rest st with [] => Some st | _ :: _ => None end.

(** The decimal digits of ASCII. *)
Definition digit_chars : pystr := u "0123456789".

(** A character that [[+-]] matches. *)
Definition is_sign (c : N) : bool := cp_eqb 43 c || cp_eqb 45 c.

(** A decision that a dispatcher can run: it names a tool that both
    dispatchers know and carries an argument dictionary, which holds a
    non-empty floor when the tool reads its floor with [args["floor"]]. *)
Definition dispatchable (d : Router.Decision) : Prop :=
  exists nm a,
    Router.name d = VStr nm /\ Router.args d = VDict a
    /\ In nm agent_tools
    /\ (In nm floor_tools ->
        exists fl, dict_get (u "floor") a = Some (VStr fl) /\ fl <> []).

(** An upper-case letter or a digit of ASCII. *)
Definition ascii_upper_alnum (c : N) : bool :=
  ((48 <=? c) && (c <=? 57) || (65 <=? c) && (c <=? 90))%N.

(** What [plan] returns: a final text, a tool with its arguments, or a
    statement that begins with select or with. *)
Definition plan_shape (E : py_env) (v : pyval) : Prop :=
  (exists t, v = VDict [(u "final", t)])
  \/ (exists nm a, v = VDict [(u "tool", nm); (u "args", a)]
                   /\ (truthy a = true \/ a = VDict []))
  \/ (exists sql, v = VDict [(u "mode", VStr (u "sql")); (u "sql", VStr sql)]
                  /\ Planner.is_query E sql = true).

(** An environment whose JSON decoder reads every reply as a call of the
    coffee planner with a blank floor. *)
Definition coffee_call : pyval :=
  VDict [(u "tool", VStr (u "plan_coffee_machines"));
         (u "args", VDict [(u "floor", VStr (u "  "))])].

Definition coffee_reply_env : py_env := {|
  u_lower := u_lower ascii_env;
  u_decomp := u_decomp ascii_env;
  u_combining := u_combining ascii_env;
  u_isspace := u_isspace ascii_env;
  u_decimal := u_decimal ascii_env;
  u_isalnum := u_isalnum ascii_env;
  u_ci_eq := u_ci_eq ascii_env;
  sqlglot_parse := sqlglot_parse ascii_env;
  json_loads := fun _ => Ok coffee_call;
  json_dumps := json_dumps ascii_env;
  float_of_str := float_of_str ascii_env;
  str_other := str_other ascii_env;
  str_builtin_exn := str_builtin_exn ascii_env
|}.

(** * Properties *)

(** ** Facts about strings *)

Lemma cp_eqb_eq (a b : N) : cp_eqb a b = true <-> a = b.
Proof. unfold cp_eqb. apply N.eqb_eq. Qed.

Lemma cp_eqb_refl (a : N) : cp_eqb a a = true.
Proof. now apply cp_eqb_eq. Qed.

Lemma str_eqb_eq (a b : pystr) : str_eqb a b = true <-> a = b.
Proof.
  revert b; induction a as [|x a IH]; intros [|y b]; simpl;
    try (split; [discriminate | discriminate]); try tauto.
  rewrite andb_true_iff, cp_eqb_eq, IH.
  split; [intros [-> ->]; reflexivity | intros H; inversion H; auto].
Qed.

Lemma startswith_app (p t : pystr) : startswith p (p ++ t) = true.
Proof.
  induction p as [|x p IH]; simpl; [reflexivity|].
  now rewrite cp_eqb_refl, IH.
Qed.

Lemma startswith_spec (p s : pystr) :
  startswith p s = true <-> exists t, s = p ++ t.
Proof.
  split.
  - revert s; induction p as [|x p IH]; intros s H.
    + now exists s.
    + destruct s as [|y s]; simpl in H; [discriminate|].
      apply andb_true_iff in H as [Hxy Hp].
      apply cp_eqb_eq in Hxy; subst y.
      destruct (IH _ Hp) as [t ->]. now exists t.
  - intros [t ->]. apply startswith_app.
Qed.

Lemma contains_unfold (w s : pystr) :
  contains w s =
  startswith w s || match s with [] => false | _ :: s' => contains w s' end.
Proof. destruct s; reflexivity. Qed.

Lemma contains_cons (w : pystr) (c : N) (s : pystr) :
  contains w s = true -> contains w (c :: s) = true.
Proof.
  intros H. rewrite contains_unfold, H. apply orb_true_r.
Qed.

Lemma contains_spec (w s : pystr) :
  contains w s = true <-> exists a b, s = a ++ w ++ b.
Proof.
  split.
  - induction s as [|c s IH]; rewrite contains_unfold; intros H;
      apply orb_true_iff in H as [H|H].
    + apply startswith_spec in H as [t ->]. now exists [], t.
    + discriminate.
    + apply startswith_spec in H as [t ->]. now exists [], t.
    + destruct (IH H) as (a & b & ->). now exists (c :: a), b.
  - intros (a & b & ->).
    induction a as [|c a IH]; simpl app.
    + rewrite contains_unfold, startswith_app. reflexivity.
    + now apply contains_cons.
Qed.

Lemma contains_app_l (w a b : pystr) :
  contains w a = true -> contains w (a ++ b) = true.
Proof.
  rewrite !contains_spec. intros (x & y & ->).
  exists x, (y ++ b). now rewrite <- !app_assoc.
Qed.

Lemma contains_app_r (w a b : pystr) :
  contains w b = true -> contains w (a ++ b) = true.
Proof.
  rewrite !contains_spec. intros (x & y & ->).
  exists (a ++ x), y. now rewrite <- !app_assoc.
Qed.


Lemma mem_cp_In (c : N) (s : pystr) : mem_cp c s = true <-> In c s.
Proof.
  unfold mem_cp. rewrite existsb_exists. split.
  - intros (x & Hx & He). apply cp_eqb_eq in He. now subst.
  - intros H. exists c. split; [assumption | apply cp_eqb_refl].
Qed.




Lemma contains_single (c : N) (s : pystr) :
  contains [c] s = mem_cp c s.
Proof.
  induction s as [|y s IH]; [reflexivity|].
  rewrite contains_unfold, IH. simpl.
  rewrite andb_true_r. reflexivity.
Qed.

Lemma mem_cp_app (c : N) (a b : pystr) :
  mem_cp c (a ++ b) = mem_cp c a || mem_cp c b.
Proof. unfold mem_cp. apply existsb_app. Qed.


(** ** Facts about lowering, trimming and integers as text *)

Lemma uint_cps_chars (d : Decimal.uint) :
  Forall (fun c => In c dm_chars) (uint_cps d).
Proof.
  induction d; simpl; constructor; try assumption;
    vm_compute; tauto.
Qed.

Lemma str_of_int_chars (n : Z) :
  Forall (fun c => In c dm_chars) (str_of_int n).
Proof.
  unfold str_of_int. destruct (Z.to_int n).
  - apply uint_cps_chars.
  - constructor; [vm_compute; tauto | apply uint_cps_chars].
Qed.

Lemma uint_cps_nonempty (d : Decimal.uint) :
  d <> Decimal.Nil -> uint_cps d <> [].
Proof. destruct d; simpl; intros H; try discriminate. now elim H. Qed.

Lemma str_of_int_nonempty (n : Z) : str_of_int n <> [].
Proof.
  unfold str_of_int. destruct n as [|p|p]; simpl; try discriminate.
  apply uint_cps_nonempty, DecimalPos.Unsigned.to_uint_nonnil.
Qed.

Section EnvFacts.
Variable E : py_env.

Lemma lower_app (a b : pystr) : lower E (a ++ b) = lower E a ++ lower E b.
Proof. apply flat_map_app. Qed.

Lemma lower_fixed (s : pystr) :
  Forall (fun c => lower_cp E c = [c]) s -> lower E s = s.
Proof.
  induction 1 as [|c s Hc _ IH]; [reflexivity|].
  unfold lower in *. simpl. now rewrite Hc, IH.
Qed.

Lemma dm_lower (c : N) : In c dm_chars -> lower_cp E c = [c].
Proof.
  intros H. vm_compute in H.
  repeat (destruct H as [<-|H]; [reflexivity|]). contradiction.
Qed.

Lemma dm_not_space (c : N) : In c dm_chars -> is_space E c = false.
Proof.
  intros H. vm_compute in H.
  repeat (destruct H as [<-|H]; [reflexivity|]). contradiction.
Qed.

Lemma lower_str_of_int (n : Z) : lower E (str_of_int n) = str_of_int n.
Proof.
  apply lower_fixed. eapply Forall_impl; [|apply str_of_int_chars].
  intros c. apply dm_lower.
Qed.

Lemma lstrip_keep (c : N) (s : pystr) :
  is_space E c = false -> lstrip E (c :: s) = c :: s.
Proof. intros H. simpl. now rewrite H. Qed.

Lemma lstrip_split (s : pystr) :
  exists ws, s = ws ++ lstrip E s /\ Forall (fun c => is_space E c = true) ws.
Proof.
  induction s as [|c s (ws & Hs & Hws)].
  - now exists [].
  - simpl. destruct (is_space E c) eqn:Hc.
    + exists (c :: ws). split; [simpl; now f_equal | now constructor].
    + now exists [].
Qed.

Lemma rstrip_split (s : pystr) :
  exists ws, s = rstrip E s ++ ws /\ Forall (fun c => is_space E c = true) ws.
Proof.
  unfold rstrip. destruct (lstrip_split (rev s)) as (ws & Hs & Hws).
  exists (rev ws). split.
  - rewrite <- rev_app_distr, <- Hs. symmetry. apply rev_involutive.
  - now apply Forall_rev.
Qed.

Lemma strip_split (s : pystr) :
  exists ws1 ws2,
    s = ws1 ++ strip E s ++ ws2
    /\ Forall (fun c => is_space E c = true) ws1
    /\ Forall (fun c => is_space E c = true) ws2.
Proof.
  destruct (lstrip_split s) as (ws1 & H1 & Hws1).
  destruct (rstrip_split (lstrip E s)) as (ws2 & H2 & Hws2).
  exists ws1, ws2. unfold strip. now rewrite <- H2.
Qed.

Lemma rstrip_keep (d : N) (s : pystr) :
  is_space E d = false -> rstrip E (s ++ [d]) = s ++ [d].
Proof.
  intros Hd. unfold rstrip. rewrite rev_app_distr.
  change (rev [d] ++ rev s) with (d :: rev s).
  rewrite (lstrip_keep _ _ Hd).
  change (rev (d :: rev s)) with (rev (rev s) ++ [d]).
  now rewrite rev_involutive.
Qed.

(** Text that begins and ends with a character that is not white space is
    left alone by [strip]. *)
Lemma strip_fixed (c d : N) (s : pystr) :
  is_space E c = false -> is_space E d = false ->
  strip E (c :: s ++ [d]) = c :: s ++ [d].
Proof.
  intros Hc Hd. unfold strip. rewrite (lstrip_keep _ _ Hc).
  apply (rstrip_keep d (c :: s) Hd).
Qed.



End EnvFacts.


(** ** The two gates *)

Lemma occurs_contains (w s : pystr) : contains w s = true <-> occurs w s.
Proof. apply contains_spec. Qed.

Lemma not_occurs_contains (w s : pystr) :
  contains w s = false <-> ~ occurs w s.
Proof.
  rewrite <- occurs_contains. destruct (contains w s); split;
    intros H; try reflexivity; try discriminate; try (now elim H).
Qed.

Lemma wrapped_t (sql : pystr) (cap : Z) :
  u "SELECT * FROM (" ++ sql ++ u ") AS _t LIMIT " ++ str_of_int cap
  = wrapped sql (u "_t") cap.
Proof. unfold wrapped. do 2 f_equal. Qed.

Lemma wrapped_safe (sql : pystr) (cap : Z) :
  u "SELECT * FROM (" ++ sql ++ u ") AS _safe LIMIT " ++ str_of_int cap
  = wrapped sql (u "_safe") cap.
Proof. unfold wrapped. do 2 f_equal. Qed.

Lemma if_negb {A} (b : bool) (x y : A) :
  (if negb b then x else y) = (if b then y else x).
Proof. now destruct b. Qed.

Section GateFacts.
Variable E : py_env.
Variable cfg : Router.flags.
Variable HAS_SQLGLOT : bool.

(** What the router's gate does, check by check. *)
Lemma router_gate_inv (sql out : pystr) :
  Router._ensure_safe_select E cfg sql = Ok out ->
  contains (u ";") sql = false
  /\ (startswith (u "select") (strip E (lower E sql))
      || startswith (u "with") (strip E (lower E sql))) = true
  /\ existsb (fun kw => contains (u " " ++ kw ++ u " ") (padded E sql))
       Router._BANNED = false
  /\ sqlglot_parse E sql = Ok tt
  /\ out = (if contains (u " limit ") (padded E sql) then sql
            else wrapped sql (u "_t") (Router.MAX_ROWS cfg)).
Proof.
  unfold Router._ensure_safe_select. cbv zeta. fold (padded E sql).
  rewrite if_negb.
  destruct (contains (u ";") sql); [discriminate|].
  destruct (startswith (u "select") _ || startswith (u "with") _);
    [|discriminate].
  match goal with |- context [existsb ?f Router._BANNED] =>
    destruct (existsb f Router._BANNED) end; [discriminate|].
  destruct (sqlglot_parse E sql) as [[]|[[] m|[] m]]; try discriminate.
  rewrite if_negb, wrapped_t.
  destruct (contains (u " limit ") (padded E sql));
    intros H; inversion H; subst; repeat split; reflexivity.
Qed.

Lemma router_gate_accepts (sql : pystr) :
  contains (u ";") sql = false ->
  (startswith (u "select") (strip E (lower E sql))
   || startswith (u "with") (strip E (lower E sql))) = true ->
  existsb (fun kw => contains (u " " ++ kw ++ u " ") (padded E sql))
    Router._BANNED = false ->
  sqlglot_parse E sql = Ok tt ->
  Router._ensure_safe_select E cfg sql =
  Ok (if contains (u " limit ") (padded E sql) then sql
      else wrapped sql (u "_t") (Router.MAX_ROWS cfg)).
Proof.
  intros H1 H2 H3 H4.
  unfold Router._ensure_safe_select. cbv zeta. fold (padded E sql).
  rewrite if_negb, H1, H2, H3, H4, if_negb, wrapped_t.
  now destruct (contains (u " limit ") (padded E sql)).
Qed.

End GateFacts.


Section StripFacts.
Variable E : py_env.

Lemma lstrip_head (s : pystr) :
  lstrip E s = [] \/
  exists c t, lstrip E s = c :: t /\ is_space E c = false.
Proof.
  induction s as [|c s IH]; [now left|].
  simpl. destruct (is_space E c) eqn:Hc; [assumption|].
  right. now exists c, s.
Qed.

Lemma lstrip_idem (s : pystr) : lstrip E (lstrip E s) = lstrip E s.
Proof.
  destruct (lstrip_head s) as [->|(c & t & -> & Hc)]; [reflexivity|].
  now apply lstrip_keep.
Qed.

Lemma rstrip_idem (s : pystr) : rstrip E (rstrip E s) = rstrip E s.
Proof. unfold rstrip. now rewrite rev_involutive, lstrip_idem. Qed.

Lemma lstrip_snoc (a : pystr) (c : N) :
  is_space E c = false -> lstrip E (a ++ [c]) = lstrip E a ++ [c].
Proof.
  intros Hc. induction a as [|x a IH]; simpl.
  - now rewrite Hc.
  - destruct (is_space E x); [assumption | reflexivity].
Qed.

Lemma rstrip_cons (c : N) (t : pystr) :
  is_space E c = false -> rstrip E (c :: t) = c :: rstrip E t.
Proof.
  intros Hc. unfold rstrip. simpl rev.
  rewrite (lstrip_snoc _ _ Hc), rev_app_distr. reflexivity.
Qed.

Lemma rstrip_snoc_space (s : pystr) (c : N) :
  is_space E c = true -> rstrip E (s ++ [c]) = rstrip E s.
Proof.
  intros Hc. unfold rstrip. rewrite rev_app_distr. simpl. now rewrite Hc.
Qed.

Lemma strip_head (s : pystr) :
  strip E s = [] \/
  exists c t, strip E s = c :: t /\ is_space E c = false.
Proof.
  unfold strip.
  destruct (lstrip_head s) as [->|(c & t & -> & Hc)]; [now left|].
  right. exists c, (rstrip E t). split; [now apply rstrip_cons | assumption].
Qed.

(** Trimming the padded text gives back the trimmed text. *)
Lemma strip_padded (sql : pystr) :
  strip E (padded E sql) = strip E (lower E sql).
Proof.
  unfold padded. set (core := strip E (lower E sql)).
  assert (Hr : rstrip E core = core) by apply rstrip_idem.
  change (u " " ++ core ++ u " ") with (32%N :: core ++ [32%N]).
  unfold strip at 1. simpl lstrip.
  destruct (strip_head (lower E sql)) as [H|(c & t & H & Hc)];
    fold core in H.
  - rewrite H. reflexivity.
  - rewrite H in *. simpl app. rewrite (lstrip_keep _ _ _ Hc).
    change (c :: t ++ [32%N]) with ((c :: t) ++ [32%N]).
    now rewrite rstrip_snoc_space.
Qed.

End StripFacts.

Section DbGateFacts.
Variable E : py_env.
Variable HAS_SQLGLOT : bool.

Lemma db_gate_inv (sql out : pystr) :
  Db.ensure_safe_select E HAS_SQLGLOT sql = Ok out ->
  contains (u ";") sql = false
  /\ (startswith (u "select") (strip E (lower E sql))
      || startswith (u "with") (strip E (lower E sql))) = true
  /\ existsb (fun kw => contains kw (padded E sql)) Db._BANNED = false
  /\ db_parse E HAS_SQLGLOT sql = Ok tt
  /\ out = (if contains (u " limit ") (padded E sql) then sql
            else wrapped sql (u "_safe") Db.MAX_ROWS).
Proof.
  unfold Db.ensure_safe_select, db_parse. cbv zeta. fold (padded E sql).
  rewrite if_negb, strip_padded.
  destruct (contains (u ";") sql); [discriminate|].
  destruct (startswith (u "select") _ || startswith (u "with") _);
    [|discriminate].
  match goal with |- context [existsb ?f Db._BANNED] =>
    destruct (existsb f Db._BANNED) end; [discriminate|].
  destruct (if HAS_SQLGLOT then sqlglot_parse E sql else Ok tt)
    as [[]|[[] m|[] m]]; try discriminate.
  rewrite if_negb, wrapped_safe.
  destruct (contains (u " limit ") (padded E sql));
    intros H; inversion H; subst; repeat split; reflexivity.
Qed.

Lemma db_gate_accepts (sql : pystr) :
  contains (u ";") sql = false ->
  (startswith (u "select") (strip E (lower E sql))
   || startswith (u "with") (strip E (lower E sql))) = true ->
  existsb (fun kw => contains kw (padded E sql)) Db._BANNED = false ->
  db_parse E HAS_SQLGLOT sql = Ok tt ->
  Db.ensure_safe_select E HAS_SQLGLOT sql =
  Ok (if contains (u " limit ") (padded E sql) then sql
      else wrapped sql (u "_safe") Db.MAX_ROWS).
Proof.
  unfold db_parse. intros H1 H2 H3 H4.
  unfold Db.ensure_safe_select. cbv zeta. fold (padded E sql).
  rewrite if_negb, strip_padded, H1, H2, H3, H4, if_negb, wrapped_safe.
  now destruct (contains (u " limit ") (padded E sql)).
Qed.

End DbGateFacts.


(** ** A second pass through a gate *)

Section SecondPass.
Variable E : py_env.
Variables (sql alias : pystr) (cap : Z).
Hypothesis alias_lower : lower E alias = alias.

Let L := lower E sql.
Let dec := str_of_int cap.

Lemma lower_wrapped :
  lower E (wrapped sql alias cap)
  = u "select * from (" ++ L ++ u ") as " ++ alias ++ u " limit " ++ dec.
Proof.
  unfold wrapped. rewrite !lower_app, alias_lower, lower_str_of_int.
  reflexivity.
Qed.

Lemma dec_last : exists d0 dl, dec = d0 ++ [dl] /\ In dl dm_chars.
Proof.
  destruct (exists_last (str_of_int_nonempty cap)) as (d0 & dl & H).
  exists d0, dl. split; [exact H|].
  pose proof (str_of_int_chars cap) as F. rewrite H in F.
  apply Forall_app in F as [_ F]. now inversion F.
Qed.


Lemma strip_lower_wrapped :
  strip E (lower E (wrapped sql alias cap)) = lower E (wrapped sql alias cap).
Proof.
  rewrite lower_wrapped.
  destruct dec_last as (d0 & dl & -> & Hdl).
  change (u "select * from (" ++ L ++ u ") as " ++ alias ++ u " limit "
            ++ d0 ++ [dl])
    with (115%N :: (u "elect * from (" ++ L ++ u ") as " ++ alias
                      ++ u " limit " ++ d0 ++ [dl])).
  replace (u "elect * from (" ++ L ++ u ") as " ++ alias ++ u " limit "
             ++ d0 ++ [dl])
    with ((u "elect * from (" ++ L ++ u ") as " ++ alias ++ u " limit "
             ++ d0) ++ [dl])
    by (now rewrite <- !app_assoc).
  apply strip_fixed; [reflexivity | now apply dm_not_space].
Qed.

Lemma padded_wrapped :
  padded E (wrapped sql alias cap)
  = u " select * from " ++ 40%N :: L
      ++ 41%N :: (u " as " ++ alias ++ u " limit ") ++ dec ++ [32%N].
Proof.
  unfold padded. rewrite strip_lower_wrapped, lower_wrapped.
  rewrite <- !app_assoc. reflexivity.
Qed.

Lemma wrapped_no_semicolon :
  contains (u ";") sql = false ->
  (forall c, In c alias -> c <> 59%N) ->
  contains (u ";") (wrapped sql alias cap) = false.
Proof.
  intros Hs Ha. change (u ";") with [59%N] in *.
  rewrite contains_single in *. unfold wrapped.
  rewrite !mem_cp_app, Hs.
  assert (Hal : mem_cp 59 alias = false).
  { destruct (mem_cp 59 alias) eqn:H; [|reflexivity].
    apply mem_cp_In in H. now elim (Ha _ H). }
  assert (Hd : mem_cp 59 (str_of_int cap) = false).
  { destruct (mem_cp 59 (str_of_int cap)) eqn:H; [|reflexivity].
    apply mem_cp_In in H.
    pose proof (str_of_int_chars cap) as F.
    rewrite Forall_forall in F. specialize (F _ H). vm_compute in F.
    repeat (destruct F as [F|F]; [discriminate|]). contradiction. }
  rewrite Hal, Hd. reflexivity.
Qed.

Lemma wrapped_starts_select :
  startswith (u "select") (strip E (lower E (wrapped sql alias cap))) = true.
Proof.
  rewrite strip_lower_wrapped, lower_wrapped.
  change (u "select * from (" ++ L ++ u ") as " ++ alias ++ u " limit "
            ++ dec)
    with (u "select" ++ (u " * from (" ++ L ++ u ") as " ++ alias
                          ++ u " limit " ++ dec)).
  apply startswith_app.
Qed.

Lemma wrapped_has_limit :
  contains (u " limit ") (padded E (wrapped sql alias cap)) = true.
Proof.
  rewrite padded_wrapped. apply contains_spec.
  exists (u " select * from " ++ 40%N :: L ++ 41%N :: u " as " ++ alias),
         (dec ++ [32%N]).
  rewrite <- !app_assoc. simpl. rewrite <- !app_assoc. reflexivity.
Qed.


End SecondPass.


(** ** What the gates reject, return and repeat *)




Lemma alias_t_plain : forall c, In c (u "_t") -> c <> 59%N.
Proof.
  intros c H. vm_compute in H.
  repeat (destruct H as [<-|H]; [discriminate|]). contradiction.
Qed.

Lemma alias_safe_plain : forall c, In c (u "_safe") -> c <> 59%N.
Proof.
  intros c H. vm_compute in H.
  repeat (destruct H as [<-|H]; [discriminate|]). contradiction.
Qed.

Section GateTheorems.
Variable E : py_env.
Variable cfg : Router.flags.
Variable HAS_SQLGLOT : bool.



End GateTheorems.


(** ** The claims about the gates *)

Lemma existsb_orb {A} (f : A -> bool) (x : A) (l : list A) :
  existsb f (x :: l) = f x || existsb f l.
Proof. reflexivity. Qed.

(** The keyword check of the gates.  Both look for a banned word between
    two spaces of the lowered, trimmed and padded statement.  A statement
    in which a word of the gate's list stands so is rejected with a
    [ValueError]; a statement in which none does passes the keyword check,
    so that it is accepted as soon as it has no semicolon, begins with
    [select] or [with] and parses. *)
Theorem gates_reject_space_delimited_words :
  forall (E : py_env) (cfg : Router.flags) (HAS_SQLGLOT : bool)
         (sql : pystr),
    (forall kw, In kw Router._BANNED -> space_delimited E kw sql ->
       is_value_error (Router._ensure_safe_select E cfg sql))
    /\ (forall w, In w Db._BANNED -> occurs w (padded E sql) ->
       is_value_error (Db.ensure_safe_select E HAS_SQLGLOT sql))
    /\ ((forall kw, In kw Router._BANNED -> ~ space_delimited E kw sql) ->
        contains (u ";") sql = false ->
        startswith (u "select") (strip E (lower E sql))
        || startswith (u "with") (strip E (lower E sql)) = true ->
        sqlglot_parse E sql = Ok tt ->
        is_ok (Router._ensure_safe_select E cfg sql) = true)
    /\ ((forall w, In w Db._BANNED -> ~ occurs w (padded E sql)) ->
        contains (u ";") sql = false ->
        startswith (u "select") (strip E (lower E sql))
        || startswith (u "with") (strip E (lower E sql)) = true ->
        db_parse E HAS_SQLGLOT sql = Ok tt ->
        is_ok (Db.ensure_safe_select E HAS_SQLGLOT sql) = true).
Proof.
  intros E cfg hs sql. split; [|split; [|split]].
  - intros kw Hin Hocc. apply occurs_contains in Hocc.
    unfold Router._ensure_safe_select. cbv zeta. fold (padded E sql).
    rewrite if_negb.
    destruct (contains (u ";") sql); [eexists; reflexivity|].
    destruct (startswith (u "select") _ || startswith (u "with") _);
      [|eexists; reflexivity].
    match goal with |- context [existsb ?f Router._BANNED] =>
      assert (Hb : existsb f Router._BANNED = true)
        by (apply existsb_exists; exists kw; split; assumption);
      rewrite Hb end.
    eexists; reflexivity.
  - intros w Hin Hocc. apply occurs_contains in Hocc.
    unfold Db.ensure_safe_select. cbv zeta. fold (padded E sql).
    rewrite if_negb.
    destruct (contains (u ";") sql); [eexists; reflexivity|].
    destruct (startswith (u "select") _ || startswith (u "with") _);
      [|eexists; reflexivity].
    match goal with |- context [existsb ?f Db._BANNED] =>
      assert (Hb : existsb f Db._BANNED = true)
        by (apply existsb_exists; exists w; split; assumption);
      rewrite Hb end.
    eexists; reflexivity.
  - intros Hno Hs Hst Hp.
    assert (Hb : existsb (fun kw => contains (u " " ++ kw ++ u " ")
                                             (padded E sql))
                   Router._BANNED = false).
    { match goal with |- ?b = false => destruct b eqn:Hb end;
        [|reflexivity].
      apply existsb_exists in Hb as (kw & Hin & Hc).
      apply occurs_contains in Hc. now elim (Hno kw Hin). }
    rewrite (router_gate_accepts E cfg sql Hs Hst Hb Hp). reflexivity.
  - intros Hno Hs Hst Hp.
    assert (Hb : existsb (fun kw => contains kw (padded E sql)) Db._BANNED
                 = false).
    { match goal with |- ?b = false => destruct b eqn:Hb end;
        [|reflexivity].
      apply existsb_exists in Hb as (w & Hin & Hc).
      apply occurs_contains in Hc. now elim (Hno w Hin). }
    rewrite (db_gate_accepts E hs sql Hs Hst Hb Hp). reflexivity.
Qed.

Ltac in_list := vm_compute; repeat (first [left; reflexivity | right]).

Lemma no_occurrence_by_test (ws : list pystr) (s : pystr) :
  existsb (fun w => contains w s) ws = false ->
  forall w, In w ws -> ~ occurs w s.
Proof.
  intros H w Hin Hocc. apply occurs_contains in Hocc.
  assert (existsb (fun w => contains w s) ws = true)
    by (apply existsb_exists; eauto).
  congruence.
Qed.

(** A statement with the stand-alone word [drop] is rejected by both gates;
    a query on a column named [dropbox] passes both. *)
Lemma gates_reject_space_delimited_words_witness :
  is_value_error
    (Router._ensure_safe_select ascii_env Router.default_flags
       (u "select 1 from x where drop table x"))
  /\ is_value_error
       (Db.ensure_safe_select ascii_env true
          (u "select 1 from x where drop table x"))
  /\ is_ok (Router._ensure_safe_select ascii_env Router.default_flags
              (u "select dropbox from files")) = true
  /\ is_ok (Db.ensure_safe_select ascii_env true
              (u "select dropbox from files")) = true.
Proof.
  pose (bad := u "select 1 from x where drop table x").
  pose (good := u "select dropbox from files").
  destruct (gates_reject_space_delimited_words ascii_env
              Router.default_flags true bad) as (R1 & D1 & _ & _).
  destruct (gates_reject_space_delimited_words ascii_env
              Router.default_flags true good) as (_ & _ & R2 & D2).
  split; [|split; [|split]].
  - refine (R1 (u "drop") _ _).
    + in_list.
    + unfold space_delimited. apply occurs_contains.
      vm_compute. reflexivity.
  - refine (D1 (u " drop ") _ _).
    + in_list.
    + apply occurs_contains. vm_compute. reflexivity.
  - apply R2; [|vm_compute; reflexivity..].
    intros kw Hin. unfold space_delimited.
    apply (no_occurrence_by_test
             (map (fun kw => u " " ++ kw ++ u " ") Router._BANNED));
      [vm_compute; reflexivity
      | apply (in_map (fun kw => u " " ++ kw ++ u " ")); exact Hin].
  - apply D2; [|vm_compute; reflexivity..].
    apply no_occurrence_by_test. vm_compute. reflexivity.
Defined.

(** C2.  The gates miss a banned word that stands next to punctuation.  A
    statement that quotes the word [drop] is accepted by both gates, which
    return it wrapped; and the database client's gate, when no parser is
    installed, accepts a statement that deletes rows inside a [with]
    clause, the word [delete] standing after a parenthesis.  The claim
    has every such statement rejected. *)
Theorem gates_accept_punctuated_banned_word :
  Router._ensure_safe_select ascii_env Router.default_flags
    (u "select 'drop' from t")
  = Ok (u "SELECT * FROM (select 'drop' from t) AS _t LIMIT 500")
  /\ Db.ensure_safe_select ascii_env true (u "select 'drop' from t")
     = Ok (u "SELECT * FROM (select 'drop' from t) AS _safe LIMIT 500")
  /\ Db.ensure_safe_select ascii_env false
       (u "with d as (delete from t returning id) select id from d")
     = Ok (u "SELECT * FROM (with d as (delete from t returning id) select id from d) AS _safe LIMIT 500").
Proof. split; [|split]; vm_compute; reflexivity. Qed.

(** The limit check of the gates.  A statement a gate accepts comes back
    unchanged when the word [limit] stands between two spaces of its
    lowered, trimmed and padded text, and otherwise comes back whole,
    between [SELECT * FROM (] and [) AS <alias> LIMIT <cap>]: alias [_t]
    and cap [MAX_ROWS] (500 unless the environment says otherwise) for the
    router, alias [_safe] and cap 500 for the database client. *)
Theorem gates_wrap_unless_limit_word :
  forall (E : py_env) (cfg : Router.flags) (HAS_SQLGLOT : bool)
         (sql out : pystr),
    (Router._ensure_safe_select E cfg sql = Ok out ->
       (space_delimited E (u "limit") sql -> out = sql)
       /\ (~ space_delimited E (u "limit") sql ->
           out = wrapped sql (u "_t") (Router.MAX_ROWS cfg)))
    /\ (Db.ensure_safe_select E HAS_SQLGLOT sql = Ok out ->
       (space_delimited E (u "limit") sql -> out = sql)
       /\ (~ space_delimited E (u "limit") sql ->
           out = wrapped sql (u "_safe") Db.MAX_ROWS)).
Proof.
  intros E cfg hs sql out. unfold space_delimited.
  change (u " " ++ u "limit" ++ u " ") with (u " limit ").
  split; intros H.
  - apply router_gate_inv in H as (_ & _ & _ & _ & ->).
    destruct (contains (u " limit ") (padded E sql)) eqn:Hl.
    + split; [reflexivity|]. intros Hn. apply occurs_contains in Hl.
      now elim Hn.
    + split; [|reflexivity]. intros Hy. apply occurs_contains in Hy.
      congruence.
  - apply db_gate_inv in H as (_ & _ & _ & _ & ->).
    destruct (contains (u " limit ") (padded E sql)) eqn:Hl.
    + split; [reflexivity|]. intros Hn. apply occurs_contains in Hl.
      now elim Hn.
    + split; [|reflexivity]. intros Hy. apply occurs_contains in Hy.
      congruence.
Qed.

Lemma gates_wrap_unless_limit_word_witness :
  u "SELECT * FROM (select * from t) AS _t LIMIT 500"
  = wrapped (u "select * from t") (u "_t") 500
  /\ u "SELECT room FROM spaces LIMIT 5" = u "SELECT room FROM spaces LIMIT 5".
Proof.
  split.
  - refine (proj2 (proj1 (gates_wrap_unless_limit_word ascii_env
                            Router.default_flags true
                            (u "select * from t") _) _) _).
    + vm_compute. reflexivity.
    + unfold space_delimited. apply not_occurs_contains.
      vm_compute. reflexivity.
  - refine (proj1 (proj2 (gates_wrap_unless_limit_word ascii_env
                            Router.default_flags true
                            (u "SELECT room FROM spaces LIMIT 5") _) _) _).
    + vm_compute. reflexivity.
    + unfold space_delimited. apply occurs_contains.
      vm_compute. reflexivity.
Defined.

(** C7.  The gates take the word [limit] between two spaces for a limiting
    clause.  A statement that has no such clause, but quotes the word,
    comes back from both gates as it was, without any cap on its rows;
    and a statement whose [LIMIT] is followed by a line break is wrapped
    although it has one.  The claim has the first wrapped with the cap
    and the second returned unchanged. *)
Theorem gates_miss_and_misread_limit :
  Router._ensure_safe_select ascii_env Router.default_flags
    (u "select note from t where note = 'no limit here'")
  = Ok (u "select note from t where note = 'no limit here'")
  /\ Db.ensure_safe_select ascii_env true
       (u "select note from t where note = 'no limit here'")
     = Ok (u "select note from t where note = 'no limit here'")
  /\ Router._ensure_safe_select ascii_env Router.default_flags
       (u "select * from t limit" ++ [10%N] ++ u "5")
     = Ok (u "SELECT * FROM (select * from t limit" ++ [10%N]
             ++ u "5) AS _t LIMIT 500").
Proof. split; [|split]; vm_compute; reflexivity. Qed.





Ltac same_kind := cbv [exn_kind_of]; reflexivity.

Lemma occurs_extend (a b s : pystr) : occurs (a ++ b) s -> occurs a s.
Proof.
  intros (x & y & ->). exists x, (b ++ y). now rewrite <- app_assoc.
Qed.

(** C10 (as amended).  With the router's cap at 500 and the parser
    installed, the two gates treat alike every statement whose padded text
    holds none of [ create ], [ call ] and [ replace into ]: both raise an
    exception of the same kind, or both return the statement unchanged, or
    both return it wrapped, one under the alias [_t] and the other under
    [_safe]. *)
Theorem gates_agree_outside_create_call_replace :
  forall (E : py_env) (cfg : Router.flags) (sql : pystr),
    Router.MAX_ROWS cfg = 500%Z ->
    (forall w, In w [u " create "; u " call "; u " replace into "] ->
               ~ occurs w (padded E sql)) ->
    agree_up_to_alias sql 500
      (Router._ensure_safe_select E cfg sql)
      (Db.ensure_safe_select E true sql).
Proof.
  intros E cfg sql Hcap Hno.
  assert (Hcreate : contains (u " create ") (padded E sql) = false)
    by (apply not_occurs_contains, Hno; in_list).
  assert (Hcall : contains (u " call ") (padded E sql) = false)
    by (apply not_occurs_contains, Hno; in_list).
  assert (Hrep : contains (u " replace into ") (padded E sql) = false)
    by (apply not_occurs_contains, Hno; in_list).
  assert (Htable : contains (u " create table ") (padded E sql) = false).
  { apply not_occurs_contains. intros Hocc.
    apply not_occurs_contains in Hcreate. apply Hcreate.
    apply (occurs_extend (u " create ") (u "table ")). exact Hocc. }
  assert (Hwords :
            existsb (fun kw => contains (u " " ++ kw ++ u " ") (padded E sql))
              Router._BANNED
            = existsb (fun kw => contains kw (padded E sql)) Db._BANNED).
  { unfold Router._BANNED, Db._BANNED. rewrite !existsb_orb.
    change (u " " ++ u "create" ++ u " ") with (u " create ").
    change (u " " ++ u "insert" ++ u " ") with (u " insert ").
    change (u " " ++ u "update" ++ u " ") with (u " update ").
    change (u " " ++ u "delete" ++ u " ") with (u " delete ").
    change (u " " ++ u "alter" ++ u " ") with (u " alter ").
    change (u " " ++ u "drop" ++ u " ") with (u " drop ").
    change (u " " ++ u "attach" ++ u " ") with (u " attach ").
    change (u " " ++ u "copy" ++ u " ") with (u " copy ").
    change (u " " ++ u "pragma" ++ u " ") with (u " pragma ").
    rewrite Hcreate, Hcall, Hrep, Htable.
    set (b1 := contains (u " insert ") (padded E sql)).
    set (b2 := contains (u " update ") (padded E sql)).
    set (b3 := contains (u " delete ") (padded E sql)).
    set (b4 := contains (u " alter ") (padded E sql)).
    set (b5 := contains (u " drop ") (padded E sql)).
    set (b6 := contains (u " attach ") (padded E sql)).
    set (b7 := contains (u " copy ") (padded E sql)).
    set (b8 := contains (u " pragma ") (padded E sql)).
    cbn [existsb].
    destruct b1, b2, b3, b4, b5, b6, b7, b8; reflexivity. }
  set (r := Router._ensure_safe_select E cfg sql).
  set (d := Db.ensure_safe_select E true sql).
  destruct r as [a|e1] eqn:Hr; destruct d as [b|e2] eqn:Hd;
    subst r d; cbn [agree_up_to_alias].
  - apply router_gate_inv in Hr as (_ & _ & _ & _ & ->).
    apply db_gate_inv in Hd as (_ & _ & _ & _ & ->).
    rewrite Hcap. unfold Db.MAX_ROWS.
    destruct (contains (u " limit ") (padded E sql)); auto.
  - apply router_gate_inv in Hr as (H1 & H2 & H3 & H4 & _).
    rewrite Hwords in H3.
    rewrite (db_gate_accepts E true sql H1 H2 H3 H4) in Hd. discriminate.
  - apply db_gate_inv in Hd as (H1 & H2 & H3 & H4 & _).
    rewrite <- Hwords in H3.
    rewrite (router_gate_accepts E cfg sql H1 H2 H3 H4) in Hr. discriminate.
  - revert Hr Hd.
    unfold Router._ensure_safe_select, Db.ensure_safe_select. cbv zeta.
    fold (padded E sql). rewrite !if_negb, strip_padded, Hwords.
    destruct (contains (u ";") sql);
      [intros Hr Hd; injection Hr as <-; injection Hd as <-; same_kind|].
    destruct (startswith (u "select") (strip E (lower E sql))
              || startswith (u "with") (strip E (lower E sql)));
      [|intros Hr Hd; injection Hr as <-; injection Hd as <-; same_kind].
    destruct (existsb (fun kw => contains kw (padded E sql)) Db._BANNED);
      [intros Hr Hd; injection Hr as <-; injection Hd as <-; same_kind|].
    destruct (sqlglot_parse E sql) as [[]|[[] m|[] m]];
      try (intros Hr Hd; injection Hr as <-; injection Hd as <-; same_kind);
      destruct (contains (u " limit ") (padded E sql));
      intros Hr Hd; discriminate.
Qed.

Lemma gates_agree_outside_create_call_replace_witness :
  agree_up_to_alias (u "select * from t") 500
    (Router._ensure_safe_select ascii_env Router.default_flags
       (u "select * from t"))
    (Db.ensure_safe_select ascii_env true (u "select * from t")).
Proof.
  refine (gates_agree_outside_create_call_replace ascii_env
            Router.default_flags (u "select * from t") _ _).
  - reflexivity.
  - apply no_occurrence_by_test. vm_compute. reflexivity.
Defined.

(** C10, as stated, fails: the two lists of banned words differ.  The
    router lets [call] and [replace into] through, which the database
    client refuses; the router refuses every [create], the database client
    only [create table]. *)
Lemma gates_disagree_on_call_and_create :
  Router._ensure_safe_select ascii_env Router.default_flags
    (u "select 'please call back' from t")
  = Ok (u "SELECT * FROM (select 'please call back' from t) AS _t LIMIT 500")
  /\ Db.ensure_safe_select ascii_env true
       (u "select 'please call back' from t")
     = Raise (Raised ValueError (u "Unsafe keyword detected."))
  /\ Router._ensure_safe_select ascii_env Router.default_flags
       (u "select 'how to create a view' from t")
     = Raise (Raised ValueError (u "Unsafe keyword detected."))
  /\ Db.ensure_safe_select ascii_env true
       (u "select 'how to create a view' from t")
     = Ok (u "SELECT * FROM (select 'how to create a view' from t) AS _safe LIMIT 500").
Proof. split; [|split; [|split]]; vm_compute; reflexivity. Qed.


(** ** The questions of the specification *)

(** C1.  The question "underused rooms on floor 4 below 15%" never reaches
    the underused-rooms matcher: it mentions a floor number and the word
    "rooms", so the rooms-on-floor matcher, which comes second, takes it
    and the decision names [rooms_on_floor] with [floor="4"].  Run on its
    own, the underused-rooms block would have answered with threshold 0.15
    and [floor="4"]. *)
Theorem underused_question_taken_by_rooms_on_floor :
  forall E : py_env,
    Router._intent_list_floors E q_underused_floor4 = false
    /\ Router._intent_rooms_on_floor E q_underused_floor4 = Ok (Some 4%Z)
    /\ Router._fast_intent E q_underused_floor4
       = Ok (Some (Router.tool_decision (u "rooms_on_floor")
                     [(u "floor", VStr (u "4"))]
                     (u "fast_intent: rooms_on_floor floor=4 → tool")))
    /\ Router.underused_rooms_block E
         (Router._normalize_text E q_underused_floor4)
       = Ok (Some (let a := [(u "days", VInt 30);
                             (u "threshold", VFloat 0.15%float);
                             (u "floor", VStr (u "4"))] in
                   Router.tool_decision (u "underused_rooms") a
                     (u "fast_intent: underused_rooms "
                        ++ py_str E (VDict a)))).
Proof.
  intros E. split; [|split; [|split]]; vm_compute; reflexivity.
Qed.

(** C4.  On "why is floor 2 always empty" neither deterministic stage
    matches, the escalation heuristic fires on the keyword "why", and
    [infer] returns a decision of mode [agent], whatever the flags and the
    language model. *)
Theorem why_question_goes_to_agent :
  forall (E : py_env) (cfg : Router.flags) (SYSTEM_PROMPT ctx : pystr)
         (chat_create : pystr -> pystr -> result pyval),
    contains (u "why") (lower E q_why_floor2) = true
    /\ Router._needs_agent E q_why_floor2 = true
    /\ Router._fast_intent E q_why_floor2 = Ok None
    /\ Router._fast_sql E cfg q_why_floor2 = Ok None
    /\ Router.infer E cfg SYSTEM_PROMPT ctx chat_create q_why_floor2
       = Ok (Router.mkDecision Router.agent VNone VNone None None
               (u "heuristic: needs_agent")).
Proof.
  intros E [[] [] l s m] SP ctx chat;
    (split; [|split; [|split; [|split]]]); vm_compute; reflexivity.
Qed.

(** C9.  A question whose threshold has four hundred digits makes the
    pattern matcher raise [OverflowError]: the digits are turned into an
    integer that is then divided by the float 100.0.  [infer] does not
    catch it. *)
Theorem fast_intent_raises_on_huge_threshold :
  forall (E : py_env) (SYSTEM_PROMPT ctx : pystr)
         (chat_create : pystr -> pystr -> result pyval),
    Router._fast_intent E q_huge_threshold
    = Raise (Raised OverflowError (u "int too large to convert to float"))
    /\ Router.infer E Router.default_flags SYSTEM_PROMPT ctx chat_create
         q_huge_threshold
       = Raise (Raised OverflowError
                  (u "int too large to convert to float")).
Proof.
  intros E SP ctx chat. split; vm_compute; reflexivity.
Qed.


(** ** The shape of a decision *)

Lemma nonemptyb_app_l (a b : pystr) :
  nonemptyb a = true -> nonemptyb (a ++ b) = true.
Proof. destruct a; [discriminate | reflexivity]. Qed.

Lemma tool_decision_shape (nm : pystr) (a : pydict) (tr : pystr) :
  nonemptyb nm = true -> nonemptyb tr = true ->
  names_tool (Router.tool_decision nm a tr) = true
  /\ well_formed (Router.tool_decision nm a tr) = true
  /\ Router.mode (Router.tool_decision nm a tr) = Router.tool.
Proof.
  intros Hn Ht. unfold names_tool, well_formed, Router.tool_decision.
  cbn [Router.name Router.args Router.trace Router.mode Router.sql
       Router.text absent andb].
  now rewrite Hn, Ht.
Qed.

Ltac lit_nonempty :=
  first [ apply nonemptyb_app_l; vm_compute; reflexivity
        | vm_compute; reflexivity ].

Section DecisionShape.
Variable E : py_env.
Variable cfg : Router.flags.

Ltac close_tool :=
  let H := fresh in
  intros H; first [injection H as <- | discriminate];
  apply tool_decision_shape; lit_nonempty.

Lemma free_meeting_rooms_shape (qn : pystr) (d : Router.Decision) :
  Router.free_meeting_rooms_block E qn = Some d -> shaped d.
Proof.
  unfold Router.free_meeting_rooms_block.
  destruct (_ && _ && _); [|discriminate].
  destruct (Router.nonempty _); [|discriminate]. close_tool.
Qed.

Lemma utilization_by_floor_shape (qn : pystr) (d : Router.Decision) :
  Router.utilization_by_floor_block E qn = Ok (Some d) -> shaped d.
Proof.
  unfold Router.utilization_by_floor_block.
  destruct (_ && _); [|discriminate].
  destruct (Router._parse_days_hours E qn); cbn [bind]; [|discriminate].
  close_tool.
Qed.

Lemma utilization_floor_shape (qn : pystr) (d : Router.Decision) :
  Router.utilization_floor_block E qn = Ok (Some d) -> shaped d.
Proof.
  unfold Router.utilization_floor_block.
  destruct (re_found _ _ _ _); [|discriminate].
  destruct (Router.nonempty _); [|discriminate].
  destruct (Router._parse_days_hours E qn); cbn [bind]; [|discriminate].
  close_tool.
Qed.

Lemma busiest_rooms_shape (qn : pystr) (d : Router.Decision) :
  Router.busiest_rooms_block E qn = Ok (Some d) -> shaped d.
Proof.
  unfold Router.busiest_rooms_block.
  destruct (_ || _ || _ || _); [|discriminate].
  destruct (Router._parse_days_hours E qn); cbn [bind]; [|discriminate].
  close_tool.
Qed.

Lemma underused_rooms_shape (qn : pystr) (d : Router.Decision) :
  Router.underused_rooms_block E qn = Ok (Some d) -> shaped d.
Proof.
  unfold Router.underused_rooms_block.
  destruct (_ || _ || _ || _); [|discriminate].
  destruct (Router._parse_days_hours E qn); cbn [bind]; [|discriminate].
  destruct (Router._parse_threshold_percent E qn); cbn [bind];
    [|discriminate].
  close_tool.
Qed.

Lemma plan_coffee_machines_shape (qn : pystr) (d : Router.Decision) :
  Router.plan_coffee_machines_block E qn = Ok (Some d) -> shaped d.
Proof.
  unfold Router.plan_coffee_machines_block.
  destruct (_ && _); [|discriminate].
  destruct (Router._parse_days_hours E qn); cbn [bind]; [|discriminate].
  destruct (Router._parse_int E qn); cbn [bind]; [|discriminate].
  close_tool.
Qed.

Lemma fast_intent_shape (q : pystr) (d : Router.Decision) :
  Router._fast_intent E q = Ok (Some d) -> shaped d.
Proof.
  unfold Router._fast_intent. cbv zeta.
  destruct (Router._intent_list_floors E q); [close_tool|].
  destruct (Router._intent_rooms_on_floor E q) as [[fl|]|]; cbn [bind];
    [close_tool| |discriminate].
  unfold Router.or_else.
  destruct (Router.free_meeting_rooms_block E _) eqn:H1.
  { intros H; injection H as <-. eapply free_meeting_rooms_shape, H1. }
  destruct (Router.utilization_by_floor_block E _) as [[d2|]|] eqn:H2;
    [intros H; injection H as <-;
     eapply utilization_by_floor_shape, H2 | | discriminate].
  destruct (Router.utilization_floor_block E _) as [[d3|]|] eqn:H3;
    [intros H; injection H as <-;
     eapply utilization_floor_shape, H3 | | discriminate].
  destruct (Router.busiest_rooms_block E _) as [[d4|]|] eqn:H4;
    [intros H; injection H as <-;
     eapply busiest_rooms_shape, H4 | | discriminate].
  destruct (Router.underused_rooms_block E _) as [[d5|]|] eqn:H5;
    [intros H; injection H as <-;
     eapply underused_rooms_shape, H5 | | discriminate].
  destruct (Router.plan_coffee_machines_block E _) as [[d6|]|] eqn:H6;
    [intros H; injection H as <-;
     eapply plan_coffee_machines_shape, H6 | | discriminate].
  discriminate.
Qed.



Variables SYSTEM_PROMPT ctx : pystr.
Variable chat_create : pystr -> pystr -> result pyval.



End DecisionShape.





(** ** Dictionaries *)

Lemma str_eqb_refl (a : pystr) : str_eqb a a = true.
Proof. now apply str_eqb_eq. Qed.

Lemma str_eqb_false_trans (k k' k0 : pystr) :
  str_eqb k k' = false -> str_eqb k' k0 = true -> str_eqb k k0 = false.
Proof.
  intros H1 H2. apply str_eqb_eq in H2. now subst.
Qed.

Lemma dict_get_set_same (k : pystr) (v : pyval) (d : pydict) :
  dict_get k (dict_set k v d) = Some v.
Proof.
  induction d as [|[k0 v0] d IH]; simpl.
  - now rewrite str_eqb_refl.
  - destruct (str_eqb k k0) eqn:Hk; simpl; now rewrite Hk.
Qed.

Lemma dict_get_set_other (k k' : pystr) (v : pyval) (d : pydict) :
  str_eqb k k' = false -> dict_get k (dict_set k' v d) = dict_get k d.
Proof.
  intros Hk. induction d as [|[k0 v0] d IH]; simpl.
  - now rewrite Hk.
  - destruct (str_eqb k' k0) eqn:H0; simpl.
    + now rewrite (str_eqb_false_trans _ _ _ Hk H0).
    + now rewrite IH.
Qed.

Lemma dict_get_pop_same (k : pystr) (d : pydict) :
  dict_get k (dict_pop k d) = None.
Proof.
  induction d as [|[k0 v0] d IH]; simpl; [reflexivity|].
  destruct (str_eqb k k0) eqn:Hk; simpl; [assumption|].
  now rewrite Hk.
Qed.

Lemma dict_get_pop_other (k k' : pystr) (d : pydict) :
  str_eqb k k' = false -> dict_get k (dict_pop k' d) = dict_get k d.
Proof.
  intros Hk. induction d as [|[k0 v0] d IH]; simpl; [reflexivity|].
  destruct (str_eqb k' k0) eqn:H0; simpl.
  - now rewrite (str_eqb_false_trans _ _ _ Hk H0).
  - now rewrite IH.
Qed.

(** ** The dispatchers *)

Lemma get_default_dict (v : pyval) (k : pystr) (dflt x : pyval) :
  get_default v k dflt = Ok x ->
  exists d, v = VDict d
            /\ x = match dict_get k d with Some y => y | None => dflt end.
Proof.
  destruct v; try discriminate. simpl. intros H. injection H as <-.
  now exists d.
Qed.

Lemma eq_str_true (v : pyval) (s : pystr) :
  eq_str v s = true -> v = VStr s.
Proof.
  destruct v; try discriminate. simpl. intros H.
  apply str_eqb_eq in H. now subst.
Qed.

(** Evaluate the comparisons of two literals in the goal. *)
Ltac literal_tests :=
  repeat match goal with
    | |- context [str_eqb (u ?a) (u ?b)] =>
        let t := constr:(str_eqb (u a) (u b)) in
        let v := eval vm_compute in t in
        replace t with v by (vm_compute; reflexivity)
    end.

Section Dispatch.
Variable E : py_env.
Variables DataFrame W : Type.
Variable db_call : Backend.call -> W -> result DataFrame * W.

Lemma bindM_ok {A B} (m : Backend.M W A) (f : A -> Backend.M W B)
      (s s2 : Backend.sys W) (b : B) :
  Backend.bindM m f s = (Ok b, s2) ->
  exists a s1, m s = (Ok a, s1) /\ f a s1 = (Ok b, s2).
Proof.
  unfold Backend.bindM. destruct (m s) as [[a|e] s1]; [eauto|discriminate].
Qed.

Lemma lift_ok {A} (r : result A) (s s1 : Backend.sys W) (a : A) :
  Backend.lift r s = (Ok a, s1) -> r = Ok a /\ s1 = s.
Proof. unfold Backend.lift. intros H. now injection H as -> ->. Qed.

Lemma ret_ok {A} (x a : A) (s s1 : Backend.sys W) :
  Backend.ret x s = (Ok a, s1) -> a = x /\ s1 = s.
Proof. unfold Backend.ret. intros H. now injection H as -> ->. Qed.

Lemma perform_ok (c : Backend.call) (s s1 : Backend.sys W) (d : DataFrame) :
  Backend.perform db_call c s = (Ok d, s1) ->
  Backend.calls s1 = Backend.calls s ++ [c].
Proof.
  unfold Backend.perform. destruct (db_call c (Backend.world s)).
  intros H. now injection H as _ <-.
Qed.

Lemma quiet_lift {A} (r : result A) : quiet (Backend.lift (W := W) r).
Proof. intros s r' s1 H. unfold Backend.lift in H. now injection H. Qed.

Lemma quiet_ret {A} (a : A) : quiet (Backend.ret (W := W) a).
Proof. intros s r' s1 H. unfold Backend.ret in H. now injection H. Qed.

Lemma quiet_bind {A B} (m : Backend.M W A) (f : A -> Backend.M W B) :
  quiet m -> (forall a, quiet (f a)) -> quiet (Backend.bindM m f).
Proof.
  intros Hm Hf s r s1. unfold Backend.bindM.
  destruct (m s) as [[a|e] s'] eqn:H; pose proof (Hm _ _ _ H); subst s'.
  - apply Hf.
  - intros H'. now injection H'.
Qed.

Lemma quiet_arg_int (args : pyval) (k : pystr) (dflt : Z) :
  quiet (Agent.arg_int E (W := W) args k dflt).
Proof.
  unfold Agent.arg_int.
  apply quiet_bind; [apply quiet_lift|]. intros v.
  apply quiet_bind; [apply quiet_lift|]. intros n. apply quiet_ret.
Qed.

Lemma quiet_arg_float (args : pyval) (k : pystr) (dflt : float) :
  quiet (Agent.arg_float E (W := W) args k dflt).
Proof.
  unfold Agent.arg_float.
  apply quiet_bind; [apply quiet_lift|]. intros v.
  apply quiet_bind; [apply quiet_lift|]. intros n. apply quiet_ret.
Qed.

Lemma quiet_on_floor (args : pyval) :
  quiet (Agent.on_floor E (W := W) args).
Proof.
  unfold Agent.on_floor.
  apply quiet_bind; [apply quiet_lift|]. intros v.
  destruct (truthy v); [|apply quiet_ret].
  apply quiet_bind; [apply quiet_lift|]. intros f. apply quiet_ret.
Qed.

Lemma quiet_where_floor (args : pyval) :
  quiet (Chat.where_floor E (W := W) args).
Proof.
  unfold Chat.where_floor.
  apply quiet_bind; [apply quiet_lift|]. intros v.
  destruct (truthy v); [|apply quiet_ret].
  apply quiet_bind; [apply quiet_lift|]. intros f. apply quiet_ret.
Qed.

Lemma arg_int_ok (args : pyval) (k : pystr) (dflt : Z) (v : pyval)
      (s s1 : Backend.sys W) :
  Agent.arg_int E args k dflt s = (Ok v, s1) ->
  exists x n, get_default args k (VInt dflt) = Ok x
              /\ py_int E x = Ok n /\ v = VInt n.
Proof.
  unfold Agent.arg_int. intros H.
  apply bindM_ok in H as (x & s' & H1 & H).
  apply lift_ok in H1 as [H1 ->].
  apply bindM_ok in H as (n & s' & H2 & H).
  apply lift_ok in H2 as [H2 ->].
  apply ret_ok in H as [-> _]. eauto.
Qed.

(** One step of a dispatcher: a quiet computation, then the rest. *)
Lemma bind_quiet_ok {A B} (m : Backend.M W A) (f : A -> Backend.M W B)
      (s s2 : Backend.sys W) (b : B) :
  quiet m -> Backend.bindM m f s = (Ok b, s2) ->
  exists a, m s = (Ok a, s) /\ f a s = (Ok b, s2).
Proof.
  intros Q H. apply bindM_ok in H as (a & s1 & H1 & H2).
  pose proof (Q _ _ _ H1). subst s1. eauto.
Qed.

Lemma bind_perform_ok {B} (c : Backend.call) (f : DataFrame -> Backend.M W B)
      (s s2 : Backend.sys W) (b : B) :
  Backend.bindM (Backend.perform db_call c) f s = (Ok b, s2) ->
  exists d s1, Backend.calls s1 = Backend.calls s ++ [c]
               /\ f d s1 = (Ok b, s2).
Proof.
  intros H. apply bindM_ok in H as (d & s1 & H1 & H2).
  apply perform_ok in H1. eauto.
Qed.

Ltac quiet_step :=
  first [ apply quiet_lift | apply quiet_arg_int | apply quiet_arg_float
        | apply quiet_on_floor | apply quiet_where_floor | apply quiet_ret ].

(** Walk through a dispatcher branch that has returned: quiet steps keep
    the record of requests, a request adds itself to it. *)
Ltac walk H :=
  repeat first
    [ apply bind_perform_ok in H as (? & ? & ? & H)
    | apply bind_quiet_ok in H as (? & _ & H); [|solve [quiet_step]]
    | apply ret_ok in H as [_ ->] ].

Lemma quiet_hours (args h0 : pyval) :
  quiet (match h0 with
         | VNone =>
             Backend.bindM (Backend.lift (json_dumps E args))
               (fun j => Backend.ret (W := W)
                           (if contains (u "now") (lower E j)
                            then VInt 1 else VNone))
         | _ => Backend.ret h0
         end).
Proof.
  destruct h0; try apply quiet_ret.
  apply quiet_bind; [apply quiet_lift|]. intros j. apply quiet_ret.
Qed.

(** The coffee planner, when it returns, has asked the backend once, for a
    plan. *)
Lemma agent_coffee_one_request (args : pyval) (s s1 : Backend.sys W)
      (res : Agent.ToolResult DataFrame) :
  Agent.coffee_tool E db_call args s = (Ok res, s1) ->
  exists o, Backend.calls s1
            = Backend.calls s ++ [Backend.plan_coffee_machines o].
Proof.
  unfold Agent.coffee_tool. intros H.
  apply bind_quiet_ok in H as (h0 & _ & H); [|apply quiet_lift].
  apply bind_quiet_ok in H as (h & _ & H); [|apply quiet_hours].
  walk H. eauto.
Qed.

Lemma chat_coffee_one_request (name args : pyval) (s s1 : Backend.sys W)
      (r : Chat.ChatResponse DataFrame) :
  Chat.coffee_tool E db_call name args s = (Ok r, s1) ->
  exists o, Backend.calls s1
            = Backend.calls s ++ [Backend.plan_coffee_machines o].
Proof.
  unfold Chat.coffee_tool. intros H. walk H. eauto.
Qed.

(** Every tool of the orchestrator's dispatcher, when it returns, has
    asked the backend exactly once. *)
Lemma agent_tool_one_request (name args : pyval) (s s1 : Backend.sys W)
      (res : Agent.ToolResult DataFrame) :
  Agent._run_tool E db_call name args s = (Ok res, s1) ->
  exists c, Backend.calls s1 = Backend.calls s ++ [c].
Proof.
  unfold Agent._run_tool.
  repeat match goal with
    | |- (if ?c then _ else _) s = _ -> _ => destruct c
    end;
    try (intros H; walk H; eauto; fail).
  - intros H. apply agent_coffee_one_request in H as (o & H). eauto.
  - discriminate.
Qed.


Lemma asks_quiet {A} (n : nat) (P : Backend.call -> Prop)
      (m : Backend.M W A) :
  quiet m -> asks_at_most n P m.
Proof.
  intros Hq s r s1 H. apply Hq in H as ->. exists [].
  rewrite app_nil_r. repeat split; [apply Nat.le_0_l | constructor].
Qed.

Lemma asks_ret {A} (n : nat) (P : Backend.call -> Prop) (a : A) :
  asks_at_most n P (Backend.ret (W := W) a).
Proof. apply asks_quiet, quiet_ret. Qed.

Lemma asks_lift {A} (n : nat) (P : Backend.call -> Prop) (r : result A) :
  asks_at_most n P (Backend.lift (W := W) r).
Proof. apply asks_quiet, quiet_lift. Qed.

Lemma asks_raise {A} (n : nat) (P : Backend.call -> Prop) (e : exn) :
  asks_at_most n P (Backend.raise (W := W) (A := A) e).
Proof.
  apply asks_quiet. intros s r s1 H. unfold Backend.raise in H.
  now injection H as _ <-.
Qed.

Lemma asks_outside {A} (n : nat) (P : Backend.call -> Prop)
      (f : W -> result A * W) :
  asks_at_most n P (Backend.outside f).
Proof.
  intros s r s1 H. unfold Backend.outside in H.
  destruct (f (Backend.world s)) as [r' w']. injection H as _ <-.
  exists []. cbn. rewrite app_nil_r.
  repeat split; [apply Nat.le_0_l | constructor].
Qed.

Lemma asks_perform (n : nat) (P : Backend.call -> Prop) (c : Backend.call) :
  P c -> asks_at_most (S n) P (Backend.perform db_call c).
Proof.
  intros Hc s r s1 H. unfold Backend.perform in H.
  destruct (db_call c (Backend.world s)) as [r' w']. injection H as _ <-.
  exists [c]. cbn. repeat split; [apply le_n_S, Nat.le_0_l | now constructor].
Qed.

Lemma asks_bind {A B} (n1 n2 : nat) (P : Backend.call -> Prop)
      (m : Backend.M W A) (f : A -> Backend.M W B) :
  asks_at_most n1 P m -> (forall a, asks_at_most n2 P (f a)) ->
  asks_at_most (n1 + n2) P (Backend.bindM m f).
Proof.
  intros Hm Hf s r s2 H. unfold Backend.bindM in H.
  destruct (m s) as [[a|e] s1] eqn:H1.
  - apply Hm in H1 as (l1 & E1 & L1 & F1).
    apply Hf in H as (l2 & E2 & L2 & F2).
    exists (l1 ++ l2). rewrite E2, E1, app_assoc, length_app.
    repeat split; [lia | now apply Forall_app].
  - injection H as _ <-. apply Hm in H1 as (l1 & E1 & L1 & F1).
    exists l1. repeat split; [assumption | lia | assumption].
Qed.

Lemma asks_bind_quiet {A B} (n : nat) (P : Backend.call -> Prop)
      (m : Backend.M W A) (f : A -> Backend.M W B) :
  quiet m -> (forall a, asks_at_most n P (f a)) ->
  asks_at_most n P (Backend.bindM m f).
Proof.
  intros Hq Hf. change n with (0 + n)%nat.
  apply asks_bind; [now apply asks_quiet | assumption].
Qed.

Lemma asks_bind_perform {B} (n : nat) (P : Backend.call -> Prop)
      (c : Backend.call) (f : DataFrame -> Backend.M W B) :
  P c -> (forall d, asks_at_most n P (f d)) ->
  asks_at_most (S n) P (Backend.bindM (Backend.perform db_call c) f).
Proof.
  intros Hc Hf. change (S n) with (1 + n)%nat.
  apply asks_bind; [now apply asks_perform | assumption].
Qed.

Lemma asks_bind_lift {A B} (n : nat) (P : Backend.call -> Prop)
      (r : result A) (f : A -> Backend.M W B) :
  (forall a, r = Ok a -> asks_at_most n P (f a)) ->
  asks_at_most n P (Backend.bindM (Backend.lift r) f).
Proof.
  intros Hf s r0 s1 H. unfold Backend.bindM, Backend.lift in H.
  destruct r as [a|e].
  - now apply (Hf a eq_refl) in H.
  - injection H as _ <-. exists []. rewrite app_nil_r.
    repeat split; [apply Nat.le_0_l | constructor].
Qed.

Lemma asks_weaken {A} (n n' : nat) (P Q : Backend.call -> Prop)
      (m : Backend.M W A) :
  (n <= n')%nat -> (forall c, P c -> Q c) ->
  asks_at_most n P m -> asks_at_most n' Q m.
Proof.
  intros Hn HPQ Hm s r s1 H. apply Hm in H as (l & E1 & L1 & F1).
  exists l. repeat split; [assumption | lia |].
  eapply Forall_impl; eassumption.
Qed.

(** [int(args.get(key, default))] gives an [int], [float(...)] a [float]. *)
Lemma asks_bind_arg_int {B} (n : nat) (P : Backend.call -> Prop)
      (args : pyval) (k : pystr) (dflt : Z) (f : pyval -> Backend.M W B) :
  (forall z, asks_at_most n P (f (VInt z))) ->
  asks_at_most n P (Backend.bindM (Agent.arg_int E args k dflt) f).
Proof.
  intros Hf s r s2 H. unfold Agent.arg_int, Backend.bindM, Backend.lift,
    Backend.ret in H.
  destruct (get_default args k (VInt dflt)); [|injection H as _ <-].
  - destruct (py_int E a); [|injection H as _ <-].
    + now apply Hf in H.
    + exists []. rewrite app_nil_r.
      repeat split; [apply Nat.le_0_l | constructor].
  - exists []. rewrite app_nil_r.
    repeat split; [apply Nat.le_0_l | constructor].
Qed.

Lemma asks_bind_arg_float {B} (n : nat) (P : Backend.call -> Prop)
      (args : pyval) (k : pystr) (dflt : float)
      (f : pyval -> Backend.M W B) :
  (forall x, asks_at_most n P (f (VFloat x))) ->
  asks_at_most n P (Backend.bindM (Agent.arg_float E args k dflt) f).
Proof.
  intros Hf s r s2 H. unfold Agent.arg_float, Backend.bindM, Backend.lift,
    Backend.ret in H.
  destruct (get_default args k (VFloat dflt)); [|injection H as _ <-].
  - destruct (py_float E a); [|injection H as _ <-].
    + now apply Hf in H.
    + exists []. rewrite app_nil_r.
      repeat split; [apply Nat.le_0_l | constructor].
  - exists []. rewrite app_nil_r.
    repeat split; [apply Nat.le_0_l | constructor].
Qed.

Lemma asks_attempt {A} (n : nat) (P : Backend.call -> Prop)
      (m : Backend.M W A) (default : A) :
  asks_at_most n P m -> asks_at_most n P (Backend.attempt m default).
Proof.
  intros Hm s r s1 H. unfold Backend.attempt in H.
  destruct (m s) as [[a|e] s'] eqn:H1; injection H as _ <-;
    now apply Hm in H1.
Qed.



Variable df_empty : DataFrame -> bool.

Lemma run_tool_coffee (args : pyval) :
  Agent._run_tool E db_call (VStr (u "plan_coffee_machines")) args
  = Agent.coffee_tool E db_call args.
Proof.
  unfold Agent._run_tool. cbn [eq_str]. literal_tests. reflexivity.
Qed.

(** What the first run of the coffee planner tells about its arguments:
    they are a dictionary whose [days], or 14 in its place, reads as an
    integer. *)
Lemma agent_coffee_args (args : pyval) (s s1 : Backend.sys W)
      (res : Agent.ToolResult DataFrame) :
  Agent.coffee_tool E db_call args s = (Ok res, s1) ->
  exists d n,
    args = VDict d
    /\ py_int E (match dict_get (u "days") d with
                 | Some x => x
                 | None => VInt 14
                 end) = Ok n.
Proof.
  unfold Agent.coffee_tool. intros H.
  apply bind_quiet_ok in H as (h0 & _ & H); [|apply quiet_lift].
  apply bind_quiet_ok in H as (h & _ & H); [|apply quiet_hours].
  apply bind_quiet_ok in H as (fl & _ & H); [|apply quiet_lift].
  apply bind_quiet_ok in H as (kn & _ & H); [|apply quiet_arg_int].
  apply bind_quiet_ok in H as (dn & Hd & _); [|apply quiet_arg_int].
  apply arg_int_ok in Hd as (x & n & Hx & Hn & _).
  apply get_default_dict in Hx as (d & -> & ->). eauto.
Qed.

Lemma relaxed_dict (d : pydict) (n : Z) :
  py_int E (match dict_get (u "days") d with
            | Some x => x
            | None => VInt 14
            end) = Ok n ->
  Agent.relaxed E (VDict d)
  = Ok (VDict (dict_set (u "avoid_quiet") (VBool false)
                 (dict_set (u "days") (VInt (Z.max n 14))
                    (dict_pop (u "hours") d)))).
Proof.
  intros H. unfold Agent.relaxed, get_default. cbn [bind].
  rewrite dict_get_pop_other by (vm_compute; reflexivity).
  rewrite H. reflexivity.
Qed.

Lemma relaxed_reads (d : pydict) (n : Z) :
  let args' := VDict (dict_set (u "avoid_quiet") (VBool false)
                        (dict_set (u "days") (VInt (Z.max n 14))
                           (dict_pop (u "hours") d))) in
  get args' (u "hours") = Ok VNone
  /\ get args' (u "days") = Ok (VInt (Z.max n 14))
  /\ get args' (u "avoid_quiet") = Ok (VBool false).
Proof.
  cbv zeta. unfold get, get_default. repeat split.
  - rewrite !dict_get_set_other by (vm_compute; reflexivity).
    now rewrite dict_get_pop_same.
  - rewrite dict_get_set_other by (vm_compute; reflexivity).
    now rewrite dict_get_set_same.
  - now rewrite dict_get_set_same.
Qed.

End Dispatch.

Ltac quiet_leaf :=
  first [ apply quiet_lift | apply quiet_on_floor | apply quiet_where_floor
        | apply quiet_ret | apply quiet_hours ].

(** One step through a branch of a dispatcher. *)
Ltac ask_step tac :=
  first [ apply asks_ret
        | apply asks_raise
        | apply asks_bind_arg_int; intros ?
        | apply asks_bind_arg_float; intros ?
        | apply asks_bind_quiet; [solve [quiet_leaf] | intros ?]
        | apply asks_bind_perform; [solve [tac] | intros ?] ].

(** ** The auto-repair of the orchestrator *)

Section Repair.
Variable E : py_env.
Variable cfg : Router.flags.
Variable HAS_SQLGLOT : bool.
Variables DataFrame W : Type.
Variable db_call : Backend.call -> W -> result DataFrame * W.
Variable df_empty : DataFrame -> bool.
Variable pd : columns DataFrame.
Variable planner_plan : pystr -> W -> result pyval * W.
Variable json_dumps_unicode : pyval -> result pystr.
Variable advisor_chat : W -> pystr -> pystr -> result pystr.
Variable SYSTEM_PROMPT : pystr.
Variable chat_create : W -> pystr -> pystr -> result pyval.

Abbreviation agent_run :=
  (Agent.run E cfg HAS_SQLGLOT db_call df_empty pd planner_plan
     json_dumps_unicode advisor_chat SYSTEM_PROMPT chat_create).

(** The quick indicators are one request. *)
Lemma kpis_requests (P : Backend.call -> Prop) (h : Z) :
  P (Backend.execute_sql (Insights.kpis_sql h)) ->
  asks_at_most 1 P (Insights.kpis E db_call pd h).
Proof.
  intros HP. unfold Insights.kpis.
  apply asks_bind_perform; [exact HP | intros d].
  apply asks_bind_quiet; [apply quiet_lift | intros row].
  apply asks_lift.
Qed.

(** The summary of suggestions asks for the quick indicators and nothing
    else. *)
Lemma summarize_requests (P : Backend.call -> Prop) (user_goal : pystr)
      (d : DataFrame) (tool_name : pyval) :
  P (Backend.execute_sql (Insights.kpis_sql 24)) ->
  asks_at_most 1 P
    (Agent._summarize_suggestions E db_call df_empty pd json_dumps_unicode
       advisor_chat user_goal d tool_name).
Proof.
  intros HP. unfold Agent._summarize_suggestions.
  change 1%nat with (1 + 0)%nat. apply asks_bind.
  - apply asks_attempt. change 1%nat with (1 + 0)%nat.
    apply asks_bind; [now apply kpis_requests | intros k; apply asks_ret].
  - intros blocks. apply asks_bind_quiet; [apply quiet_lift | intros j].
    apply asks_quiet. intros s r s1 H. now injection H.
Qed.

(** What [run] does with the result of a tool. *)
Let finish (user_goal : pystr) (planned : bool) (name : pyval)
    (res : Agent.ToolResult DataFrame)
  : Backend.M W (Agent.RunResult DataFrame) :=
  if planned && re_found E flag_I Agent.re_suggest user_goal then
    Backend.bindM
      (Agent._summarize_suggestions E db_call df_empty pd json_dumps_unicode
         advisor_chat user_goal (Agent.df res) name)
      (fun summary =>
         Backend.ret {| Agent.r_title := u "Suggestions";
                        Agent.r_text := VStr summary;
                        Agent.r_df := Some (Agent.df res) |})
  else Backend.ret (Agent.as_run DataFrame res).

Lemma finish_requests (user_goal : pystr) (planned : bool) (name : pyval)
      (res : Agent.ToolResult DataFrame) :
  asks_at_most 1 kpi_request (finish user_goal planned name res).
Proof.
  unfold finish.
  destruct (planned && re_found E flag_I Agent.re_suggest user_goal);
    [|apply asks_ret].
  change 1%nat with (1 + 0)%nat. apply asks_bind.
  - apply summarize_requests. reflexivity.
  - intros summary. apply asks_ret.
Qed.

Lemma finish_plain (user_goal : pystr) (planned : bool) (name : pyval)
      (res : Agent.ToolResult DataFrame) (s : Backend.sys W) :
  planned && re_found E flag_I Agent.re_suggest user_goal = false ->
  finish user_goal planned name res s = (Ok (Agent.as_run DataFrame res), s).
Proof. intros H. unfold finish. rewrite H. reflexivity. Qed.

(** On either of its tool paths [run] is the tool with its repair,
    followed by the handling of the result. *)
Lemma run_reaches (user_goal : pystr) (s s0 : Backend.sys W)
      (planned : bool) (name args : pyval) :
  reaches_dispatcher E cfg db_call pd planner_plan SYSTEM_PROMPT chat_create
    user_goal s planned name args s0 ->
  agent_run user_goal s
  = Backend.bindM (Agent.run_tool_with_repair E db_call df_empty name args)
      (finish user_goal planned name) s0.
Proof.
  intros [nm a w0 Hp | r w0 d s0' Hp Hr Hi Hm].
  - unfold Agent.run, finish.
    unfold Backend.bindM at 1. unfold Backend.outside. rewrite Hp.
    cbn [Backend.world Backend.calls andb].
    unfold Backend.bindM at 1. unfold Backend.lift at 1.
    unfold get, get_default. cbn [dict_get dict_has]. literal_tests.
    cbv iota. cbn [truthy].
    unfold Backend.bindM at 1. unfold Backend.lift at 1.
    unfold getitem. cbn [dict_get]. literal_tests. cbv iota.
    unfold Backend.bindM at 1. unfold Backend.lift at 1.
    reflexivity.
  - unfold Agent.run, finish. cbn [andb].
    unfold Backend.bindM at 1. unfold Backend.outside. rewrite Hp.
    cbn [Backend.world Backend.calls].
    assert (X : forall dec : pyval,
               left_to_router (Ok dec) = true \/ dec = VDict [(u "final", VNone)] ->
               exists dd, dec = VDict dd
                 /\ truthy (match dict_get (u "final") dd with
                            | Some v => v | None => VNone end) = false
                 /\ dict_has (u "tool") dd = false
                 /\ eq_str (match dict_get (u "mode") dd with
                            | Some v => v | None => VNone end) (u "sql")
                    && truthy (match dict_get (u "sql") dd with
                               | Some v => v | None => VNone end) = false).
    { intros dec [Hd| ->].
      - destruct dec; try discriminate. exists d0. split; [reflexivity|].
        unfold left_to_router in Hd.
        apply andb_true_iff in Hd as [Hd H3].
        apply andb_true_iff in Hd as [H1 H2].
        apply negb_true_iff in H1, H2, H3. auto.
      - eexists. split; [reflexivity|]. vm_compute. auto. }
    assert (Y : exists dec,
               (match r with
                | Ok d1 => (Ok d1, {| Backend.world := w0;
                                      Backend.calls := Backend.calls s |})
                | Raise _ => (Ok (VDict [(u "final", VNone)]),
                              {| Backend.world := w0;
                                 Backend.calls := Backend.calls s |})
                end)
               = (Ok dec, {| Backend.world := w0;
                             Backend.calls := Backend.calls s |})
               /\ (left_to_router (Ok dec) = true
                   \/ dec = VDict [(u "final", VNone)])).
    { destruct r as [d1|e]; eexists; split; try reflexivity; auto. }
    destruct Y as (dec & -> & Hdec).
    destruct (X dec Hdec) as (dd & -> & F1 & F2 & F3).
    unfold Backend.bindM at 1. unfold Backend.lift at 1.
    unfold get at 1. unfold get_default at 1. rewrite F1, F2.
    unfold Backend.bindM at 1. unfold Backend.lift at 1.
    unfold get at 1. unfold get_default at 1.
    unfold Backend.bindM at 1. unfold Backend.lift at 1.
    unfold get at 1. unfold get_default at 1. rewrite F3.
    unfold Backend.bindM at 1. rewrite Hi, Hm.
    unfold Backend.bindM.
    destruct (Agent.run_tool_with_repair E db_call df_empty (Router.name d)
                (Router.args d) s0) as [[res|e] s1]; reflexivity.
Qed.

(** A step whose value is known. *)
Lemma asks_bind_val {A B} (m : Backend.M W A) (a : A)
      (f : A -> Backend.M W B) (n : nat) (P : Backend.call -> Prop) :
  (forall s, m s = (Ok a, s)) -> asks_at_most n P (f a) ->
  asks_at_most n P (Backend.bindM m f).
Proof.
  intros Hm Hf s r s1 H. unfold Backend.bindM in H. rewrite Hm in H.
  now apply Hf in H.
Qed.

(** The coffee planner run on relaxed arguments asks for a relaxed plan. *)
Lemma coffee_relaxed_requests (d : pydict) (n : Z) :
  asks_at_most 1 (relaxed_plan n)
    (Agent.coffee_tool E db_call
       (VDict (dict_set (u "avoid_quiet") (VBool false)
                 (dict_set (u "days") (VInt (Z.max n 14))
                    (dict_pop (u "hours") d))))).
Proof.
  unfold Agent.coffee_tool.
  apply asks_bind_quiet; [apply quiet_lift | intros h0].
  apply asks_bind_quiet; [apply quiet_hours | intros h].
  apply asks_bind_quiet; [apply quiet_lift | intros fl].
  apply asks_bind_arg_int; intros kn.
  apply (asks_bind_val _ (VInt (Z.max n 14))).
  { intros s. unfold Agent.arg_int, Backend.bindM, Backend.lift, get_default.
    rewrite dict_get_set_other by (vm_compute; reflexivity).
    rewrite dict_get_set_same. reflexivity. }
  apply (asks_bind_val _ (VBool false)).
  { intros s. unfold Backend.lift, get_default.
    rewrite dict_get_set_same. reflexivity. }
  apply asks_bind_arg_float; intros qw.
  apply asks_bind_arg_float; intros dr.
  apply asks_bind_perform.
  { eexists. split; [reflexivity|]. split; reflexivity. }
  intros t.
  apply asks_bind_quiet; [apply quiet_on_floor | intros w].
  apply asks_ret.
Qed.

End Repair.

(** C3 (as amended).  On both tool paths of [AgentPro.run] (the planner's
    tool decision and the router's), the dispatcher is run once, and a
    run that returns has asked the backend once.  When the tool is the
    coffee planner and that run returns an empty table, the dispatcher is
    run once more, on the arguments with [hours] removed, [days] set to
    [max(int(days), 14)] (with 14 for a missing [days]) and [avoid_quiet]
    set to false; this second run asks at most once (once when it
    returns), for a plan over that many days that does not avoid the
    quiet zones; and, when the goal does not ask for suggestions, [run]
    returns the result of the second run with the note of the auto-repair
    added to its text.  Otherwise (another tool, or a table that is not
    empty) [run] returns the result of the first run.  After the last run
    of the dispatcher [run] asks the backend nothing but the quick
    indicators of the summary of suggestions: no tool is run a third
    time, and none but the coffee planner a second time.  The chatbot's
    dispatcher runs the coffee planner once and asks the backend once. *)
Theorem coffee_planner_repaired_once :
  forall (E : py_env) (cfg : Router.flags) (HAS_SQLGLOT : bool)
         (DataFrame W : Type)
         (db_call : Backend.call -> W -> result DataFrame * W)
         (df_empty : DataFrame -> bool) (pd : columns DataFrame)
         (planner_plan : pystr -> W -> result pyval * W)
         (json_dumps_unicode : pyval -> result pystr)
         (advisor_chat : W -> pystr -> pystr -> result pystr)
         (SYSTEM_PROMPT : pystr)
         (chat_create : W -> pystr -> pystr -> result pyval)
         (user_goal : pystr) (planned : bool) (name args : pyval)
         (s s0 s1 : Backend.sys W) (res : Agent.ToolResult DataFrame),
    let run :=
      Agent.run E cfg HAS_SQLGLOT db_call df_empty pd planner_plan
        json_dumps_unicode advisor_chat SYSTEM_PROMPT chat_create
        user_goal s in
    let suggesting :=
      planned && re_found E flag_I Agent.re_suggest user_goal in
    reaches_dispatcher E cfg db_call pd planner_plan SYSTEM_PROMPT
      chat_create user_goal s planned name args s0 ->
    Agent._run_tool E db_call name args s0 = (Ok res, s1) ->
    (exists c, Backend.calls s1 = Backend.calls s0 ++ [c])
    /\ (df_empty (Agent.df res) && eq_str name (u "plan_coffee_machines")
        = false ->
        (suggesting = false -> run = (Ok (Agent.as_run DataFrame res), s1))
        /\ (forall r s2, run = (r, s2) ->
            exists l, Backend.calls s2 = Backend.calls s1 ++ l
                      /\ (List.length l <= 1)%nat
                      /\ Forall kpi_request l))
    /\ (df_empty (Agent.df res) && eq_str name (u "plan_coffee_machines")
        = true ->
        exists (d : pydict) (n : Z) (args' : pyval),
          args = VDict d
          /\ py_int E (match dict_get (u "days") d with
                       | Some x => x
                       | None => VInt 14
                       end) = Ok n
          /\ args' = VDict (dict_set (u "avoid_quiet") (VBool false)
                             (dict_set (u "days") (VInt (Z.max n 14))
                                (dict_pop (u "hours") d)))
          /\ get args' (u "hours") = Ok VNone
          /\ get args' (u "days") = Ok (VInt (Z.max n 14))
          /\ get args' (u "avoid_quiet") = Ok (VBool false)
          /\ forall r2 s2,
               Agent._run_tool E db_call (VStr (u "plan_coffee_machines"))
                 args' s1 = (r2, s2) ->
               (exists l, Backend.calls s2 = Backend.calls s1 ++ l
                          /\ (List.length l <= 1)%nat
                          /\ (is_ok r2 = true -> List.length l = 1%nat)
                          /\ Forall (relaxed_plan n) l)
               /\ (suggesting = false ->
                   run = returned (annotated (r2, s2)))
               /\ (forall r s3, run = (r, s3) ->
                   exists l, Backend.calls s3 = Backend.calls s2 ++ l
                             /\ (List.length l <= 1)%nat
                             /\ Forall kpi_request l))
    /\ (forall df_len df_merge s2 (r : Chat.ChatResponse DataFrame),
          Chat._run_tool E db_call df_len df_merge pd
            (VStr (u "plan_coffee_machines")) args s = (Ok r, s2) ->
          exists o, Backend.calls s2
                    = Backend.calls s ++ [Backend.plan_coffee_machines o]).
Proof.
  intros E cfg hs DataFrame W db_call df_empty pd planner_plan jd chat sp cc
         user_goal planned name args s s0 s1 res run suggesting Hr H.
  pose proof (run_reaches E cfg hs DataFrame W db_call df_empty pd
                planner_plan jd chat sp cc user_goal s s0 planned name args
                Hr) as Hrun.
  fold run in Hrun. cbv beta zeta in Hrun.
  fold suggesting in Hrun. clearbody suggesting run.
  split; [|split; [|split]].
  - eapply agent_tool_one_request, H.
  - intros Hc.
    assert (Hrun' : run = (if suggesting
                           then Backend.bindM
                                  (Agent._summarize_suggestions E db_call
                                     df_empty pd jd chat user_goal
                                     (Agent.df res) name)
                                  (fun summary =>
                                     Backend.ret
                                       {| Agent.r_title := u "Suggestions";
                                          Agent.r_text := VStr summary;
                                          Agent.r_df := Some (Agent.df res) |})
                           else Backend.ret (Agent.as_run DataFrame res)) s1).
    { rewrite Hrun. unfold Agent.run_tool_with_repair.
      unfold Backend.bindM at 1. unfold Backend.bindM at 1.
      rewrite H, Hc. reflexivity. }
    split.
    + intros Hs. rewrite Hrun', Hs. reflexivity.
    + intros r s2 Hx. rewrite Hrun' in Hx.
      destruct suggesting.
      * eapply (asks_bind W 1 0); [| |exact Hx].
        -- apply summarize_requests. reflexivity.
        -- intros summary. apply asks_ret.
      * eapply (asks_ret W 1), Hx.
  - intros Hc. pose proof Hc as Hc'.
    apply andb_true_iff in Hc' as [_ Hn]. apply eq_str_true in Hn.
    subst name. rewrite run_tool_coffee in H.
    destruct (agent_coffee_args E DataFrame W db_call args s0 s1 res H)
      as (d & n & -> & Hn).
    eexists d, n, _. split; [reflexivity|]. split; [exact Hn|].
    split; [reflexivity|].
    destruct (relaxed_reads d n) as (R1 & R2 & R3).
    split; [exact R1|]. split; [exact R2|]. split; [exact R3|].
    intros r2 s2 H2.
    set (args' := VDict (dict_set (u "avoid_quiet") (VBool false)
                           (dict_set (u "days") (VInt (Z.max n 14))
                              (dict_pop (u "hours") d)))) in *.
    assert (Hrun' : run = Backend.bindM
                            (fun s => annotated (r2, s))
                            (if suggesting
                             then (fun res =>
                                     Backend.bindM
                                       (Agent._summarize_suggestions E db_call
                                          df_empty pd jd chat user_goal
                                          (Agent.df res)
                                          (VStr (u "plan_coffee_machines")))
                                       (fun summary =>
                                          Backend.ret
                                            {| Agent.r_title := u "Suggestions";
                                               Agent.r_text := VStr summary;
                                               Agent.r_df :=
                                                 Some (Agent.df res) |}))
                             else (fun res =>
                                     Backend.ret (Agent.as_run DataFrame res)))
                            s2).
    { rewrite Hrun. unfold Agent.run_tool_with_repair.
      unfold Backend.bindM at 1. unfold Backend.bindM at 1.
      rewrite run_tool_coffee, H, Hc.
      unfold Backend.bindM at 1. unfold Backend.lift at 1.
      rewrite (relaxed_dict E d n Hn). fold args'.
      unfold Backend.bindM at 1. rewrite H2.
      unfold Backend.bindM, annotated, Backend.ret.
      destruct r2 as [res2|e]; [|reflexivity].
      destruct suggesting; reflexivity. }
    split; [|split].
    + rewrite run_tool_coffee in H2.
      unfold args' in H2.
      pose proof H2 as H2'.
      apply coffee_relaxed_requests in H2' as (l & El & Ll & Fl).
      exists l. split; [exact El|]. split; [exact Ll|]. split; [|exact Fl].
      intros Hok. destruct r2 as [res2|e]; [|discriminate].
      apply agent_coffee_one_request in H2 as (o & Ho).
      rewrite El in Ho. apply app_inv_head in Ho. now subst l.
    + intros Hs. rewrite Hrun', Hs.
      unfold Backend.bindM, annotated, returned, Backend.ret.
      destruct r2; reflexivity.
    + intros r s3 Hx. rewrite Hrun' in Hx.
      unfold Backend.bindM, annotated in Hx.
      destruct r2 as [res2|e].
      * destruct suggesting.
        -- eapply (asks_bind W 1 0); [| |exact Hx].
           ++ apply summarize_requests. reflexivity.
           ++ intros summary. apply asks_ret.
        -- eapply (asks_ret W 1), Hx.
      * injection Hx as _ <-. exists []. rewrite app_nil_r.
        repeat split; [apply Nat.le_0_l | constructor].
  - intros df_len df_merge s2 r.
    unfold Chat._run_tool. cbn [eq_str]. literal_tests.
    apply chat_coffee_one_request.
Qed.

(** With a backend whose tables are all empty and a planner that picks the
    coffee planner for the last hour of the last 7 days, [run] asks for
    that plan, then for a plan over 14 days without the hour and without
    avoiding the quiet zones, and returns it with the note. *)
Lemma coffee_planner_repaired_once_witness :
  Agent.run ascii_env Router.default_flags true empty_backend (Nat.eqb 0)
    plain_columns coffee_planner (fun _ => Ok []) (fun _ _ _ => Ok []) []
    (fun _ _ _ => Ok VNone) (u "where should the coffee machines go") start
  = (Ok {| Agent.r_title := u "Coffee machine plan";
           Agent.r_text :=
             VStr (u "Optimized coffee-machine placement (auto-repaired: widened window, relaxed quiet)");
           Agent.r_df := Some 0%nat |},
     {| Backend.world := tt;
        Backend.calls :=
          [Backend.plan_coffee_machines
             {| Backend.floor := VNone; Backend.k := VInt 2;
                Backend.hours := VInt 1; Backend.days := VInt 7;
                Backend.avoid_quiet := VBool true;
                Backend.quiet_weight := VFloat 0.6%float;
                Backend.downweight_refreshment := VFloat 0.5%float |};
           Backend.plan_coffee_machines
             {| Backend.floor := VNone; Backend.k := VInt 2;
                Backend.hours := VNone; Backend.days := VInt 14;
                Backend.avoid_quiet := VBool false;
                Backend.quiet_weight := VFloat 0.6%float;
                Backend.downweight_refreshment := VFloat 0.5%float |}] |}).
Proof.
  pose (goal := u "where should the coffee machines go").
  pose (a := VDict [(u "hours", VInt 1); (u "days", VInt 7)]).
  destruct (Agent._run_tool ascii_env empty_backend
              (VStr (u "plan_coffee_machines")) a start)
    as [r1 s1] eqn:H1.
  pose proof H1 as H1'. vm_compute in H1'. injection H1' as <- <-.
  destruct (coffee_planner_repaired_once ascii_env Router.default_flags true
              nat unit empty_backend (Nat.eqb 0) plain_columns
              coffee_planner (fun _ => Ok []) (fun _ _ _ => Ok []) []
              (fun _ _ _ => Ok VNone) goal true
              (VStr (u "plan_coffee_machines")) a start start _ _
              (by_planner ascii_env Router.default_flags nat unit
                 empty_backend plain_columns coffee_planner []
                 (fun _ _ _ => Ok VNone) goal start
                 (VStr (u "plan_coffee_machines")) a tt eq_refl)
              H1) as (_ & _ & H3 & _).
  destruct (H3 eq_refl)
    as (d & n & args' & Hd & Hn & Ha & _ & _ & _ & Hrest).
  unfold a in Hd. injection Hd as <-. vm_compute in Hn. injection Hn as <-.
  destruct (Agent._run_tool ascii_env empty_backend
              (VStr (u "plan_coffee_machines")) args' _)
    as [r2 s2] eqn:H2.
  destruct (Hrest r2 s2 eq_refl) as (_ & Hb & _).
  assert (Hs : true && re_found ascii_env flag_I Agent.re_suggest goal
               = false) by (vm_compute; reflexivity).
  fold goal. rewrite (Hb Hs).
  subst args'. vm_compute in H2. injection H2 as <- <-.
  vm_compute. reflexivity.
Defined.

(** C3, as stated, fails in the chatbot: its dispatcher runs the coffee
    planner once, returns the empty table with a text that carries no
    note, and [ask] turns that into a refusal; the backend has been asked
    once. *)
Lemma chatbot_does_not_retry_coffee_planner :
  Chat._run_tool ascii_env empty_backend Z.of_nat (fun _ _ => None)
    plain_columns (VStr (u "plan_coffee_machines")) (VDict []) start
  = (Ok {| Chat.text := u "Optimized coffee-machine placement. Higher score = more demand, fewer conflicts.";
           Chat.df := Some 0%nat;
           Chat.title := Some (u "Coffee machine plan");
           Chat.evidence :=
             [(u "tool", VStr (u "plan_coffee_machines"));
              (u "args", VDict [])] |},
     {| Backend.world := tt;
        Backend.calls := [Backend.plan_coffee_machines default_options] |})
  /\ Chat.ask ascii_env Router.default_flags empty_backend (Nat.eqb 0)
       Z.of_nat (fun _ => VNone) (fun _ _ => None) plain_columns
       silent_agent (fun _ w => (Ok VNone, w)) []
       (fun _ _ _ => Ok VNone) (u "coffee machine placement") true false
       start
     = (Ok {| Chat.a_text := VStr (u "No rows for that query in your data.");
              Chat.a_df := Chat.NoTable; Chat.a_title := VNone;
              Chat.a_evidence := None; Chat.a_route := None |},
        {| Backend.world := tt;
           Backend.calls :=
             [Backend.plan_coffee_machines default_options] |}).
Proof. split; vm_compute; reflexivity. Qed.


(** C5 (as amended).  Given a name that is none of its tools, the
    orchestrator's dispatcher raises [ValueError("Unknown tool <name>")]
    and the chatbot's dispatcher returns a response that has the text
    "Unknown tool: <name>" and no table; neither asks the backend
    anything. *)
Theorem unknown_tool_raises_or_answers :
  forall (E : py_env) (DataFrame W : Type)
         (db_call : Backend.call -> W -> result DataFrame * W)
         (df_len : DataFrame -> Z)
         (df_merge : DataFrame -> DataFrame -> option DataFrame)
         (pd : columns DataFrame)
         (name args : pyval) (s : Backend.sys W),
    (known agent_tools name = false ->
       Agent._run_tool E db_call name args s
       = (Raise (Raised ValueError (u "Unknown tool " ++ py_str E name)), s))
    /\ (known chat_tools name = false ->
        Chat._run_tool E db_call df_len df_merge pd name args s
        = (Ok {| Chat.text := u "Unknown tool: " ++ py_str E name;
                 Chat.df := None; Chat.title := None;
                 Chat.evidence := [] |}, s)).
Proof.
  intros E DataFrame W db_call df_len df_merge pd name args s.
  split; intros H; unfold known, agent_tools, chat_tools in H;
    cbn [existsb app] in H;
    repeat (apply orb_false_iff in H as [? H]).
  - unfold Agent._run_tool.
    repeat match goal with X : eq_str name _ = false |- _ =>
      rewrite X; clear X end.
    reflexivity.
  - unfold Chat._run_tool.
    repeat match goal with X : eq_str name _ = false |- _ =>
      rewrite X; clear X end.
    reflexivity.
Qed.

Lemma unknown_tool_raises_or_answers_witness :
  Agent._run_tool ascii_env empty_backend (VStr (u "peak_hours")) (VDict [])
    start
  = (Raise (Raised ValueError (u "Unknown tool peak_hours")), start)
  /\ Chat._run_tool ascii_env empty_backend Z.of_nat (fun _ _ => None)
       plain_columns (VStr (u "peak_hours")) (VDict []) start
     = (Ok {| Chat.text := u "Unknown tool: peak_hours";
              Chat.df := None; Chat.title := None; Chat.evidence := [] |},
        start).
Proof.
  split.
  - refine (proj1 (unknown_tool_raises_or_answers ascii_env nat unit
                     empty_backend Z.of_nat (fun _ _ => None)
                     plain_columns (VStr (u "peak_hours"))
                     (VDict []) start) _).
    vm_compute. reflexivity.
  - refine (proj2 (unknown_tool_raises_or_answers ascii_env nat unit
                     empty_backend Z.of_nat (fun _ _ => None)
                     plain_columns (VStr (u "peak_hours"))
                     (VDict []) start) _).
    vm_compute. reflexivity.
Defined.

(** C5, as stated, fails in the chatbot: an unknown tool name gives an
    ordinary response, not an error. *)
Lemma chatbot_answers_unknown_tool :
  Chat._run_tool ascii_env empty_backend Z.of_nat (fun _ _ => None)
    plain_columns (VStr (u "peak_hours")) (VDict []) start
  = (Ok {| Chat.text := u "Unknown tool: peak_hours"; Chat.df := None;
           Chat.title := None; Chat.evidence := [] |}, start).
Proof. vm_compute. reflexivity. Qed.


(** * Further properties *)

(** ** More about the gates *)

Section GateOutput.
Variable E : py_env.
Variable cfg : Router.flags.
Variable HAS_SQLGLOT : bool.

Lemma limit_word : u " " ++ u "limit" ++ u " " = u " limit ".
Proof. vm_compute; reflexivity. Qed.

Lemma occurs_self (s : pystr) : occurs s s.
Proof. exists [], []. now rewrite app_nil_r. Qed.

Lemma occurs_wrapped (sql alias : pystr) (cap : Z) :
  occurs sql (wrapped sql alias cap).
Proof. unfold wrapped. eexists _, _. reflexivity. Qed.

Lemma limited_after_gate (sql alias : pystr) (cap : Z) :
  lower E alias = alias ->
  (forall c, In c alias -> c <> 59%N) ->
  contains (u ";") sql = false ->
  startswith (u "select") (strip E (lower E sql))
  || startswith (u "with") (strip E (lower E sql)) = true ->
  let out := if contains (u " limit ") (padded E sql) then sql
             else wrapped sql alias cap in
  single_limited_query E out /\ occurs sql out.
Proof.
  intros Ha Hc Hs Hst. cbv zeta. unfold single_limited_query, space_delimited.
  destruct (contains (u " limit ") (padded E sql)) eqn:Hl.
  - repeat split; try assumption; [|apply occurs_self].
    apply occurs_contains. rewrite limit_word. exact Hl.
  - repeat split.
    + now apply wrapped_no_semicolon.
    + rewrite wrapped_starts_select by assumption. apply orb_true_l.
    + apply occurs_contains. rewrite limit_word.
      now apply wrapped_has_limit.
    + apply occurs_wrapped.
Qed.

Lemma router_gate_output (sql out : pystr) :
  Router._ensure_safe_select E cfg sql = Ok out ->
  single_limited_query E out /\ occurs sql out.
Proof.
  intros H. apply router_gate_inv in H as (Hs & Hst & _ & _ & ->).
  apply limited_after_gate; try assumption.
  - vm_compute; reflexivity.
  - apply alias_t_plain.
Qed.

Lemma db_gate_output (sql out : pystr) :
  Db.ensure_safe_select E HAS_SQLGLOT sql = Ok out ->
  single_limited_query E out /\ occurs sql out.
Proof.
  intros H. apply db_gate_inv in H as (Hs & Hst & _ & _ & ->).
  apply limited_after_gate; try assumption.
  - vm_compute; reflexivity.
  - apply alias_safe_plain.
Qed.

Lemma db_gate_keeps_limited (sql out : pystr) :
  single_limited_query E sql ->
  Db.ensure_safe_select E HAS_SQLGLOT sql = Ok out -> out = sql.
Proof.
  intros (_ & _ & Hl) H. apply db_gate_inv in H as (_ & _ & _ & _ & ->).
  apply occurs_contains in Hl. rewrite limit_word in Hl.
  now rewrite Hl.
Qed.

Lemma router_gate_keeps_limited (sql out : pystr) :
  single_limited_query E sql ->
  Router._ensure_safe_select E cfg sql = Ok out -> out = sql.
Proof.
  intros (_ & _ & Hl) H. apply router_gate_inv in H as (_ & _ & _ & _ & ->).
  apply occurs_contains in Hl. rewrite limit_word in Hl.
  now rewrite Hl.
Qed.

End GateOutput.

(** X1.  What a gate returns is one statement (it holds no semicolon), a query
    (lowered and trimmed it begins with select or with) that carries the
    word limit between two spaces, and it contains the statement it was
    given, verbatim. *)
Theorem gates_return_one_limited_query :
  forall (E : py_env) (cfg : Router.flags) (HAS_SQLGLOT : bool)
         (sql out : pystr),
    (Router._ensure_safe_select E cfg sql = Ok out ->
       single_limited_query E out /\ occurs sql out)
    /\ (Db.ensure_safe_select E HAS_SQLGLOT sql = Ok out ->
        single_limited_query E out /\ occurs sql out).
Proof.
  intros E cfg h sql out. split.
  - apply router_gate_output.
  - apply db_gate_output.
Qed.

Lemma gates_return_one_limited_query_witness :
  (single_limited_query ascii_env
     (u "SELECT * FROM (select room from spaces) AS _t LIMIT 500")
   /\ occurs (u "select room from spaces")
        (u "SELECT * FROM (select room from spaces) AS _t LIMIT 500"))
  /\ (single_limited_query ascii_env
        (u "SELECT * FROM (select room from spaces) AS _safe LIMIT 500")
      /\ occurs (u "select room from spaces")
           (u "SELECT * FROM (select room from spaces) AS _safe LIMIT 500")).
Proof.
  pose proof (gates_return_one_limited_query ascii_env Router.default_flags
                true (u "select room from spaces")) as H.
  split.
  - apply (proj1 (H (u "SELECT * FROM (select room from spaces) AS _t LIMIT 500"))).
    vm_compute; reflexivity.
  - apply (proj2 (H (u "SELECT * FROM (select room from spaces) AS _safe LIMIT 500"))).
    vm_compute; reflexivity.
Defined.

(** X2.  A statement that has passed one gate is not wrapped again by the
    other: when the database client's gate accepts what the router's gate
    returned, it returns it unchanged, and the other way round. *)
Theorem gates_do_not_wrap_twice :
  forall (E : py_env) (cfg : Router.flags) (HAS_SQLGLOT : bool)
         (sql out out' : pystr),
    (Router._ensure_safe_select E cfg sql = Ok out ->
     Db.ensure_safe_select E HAS_SQLGLOT out = Ok out' -> out' = out)
    /\ (Db.ensure_safe_select E HAS_SQLGLOT sql = Ok out ->
        Router._ensure_safe_select E cfg out = Ok out' -> out' = out).
Proof.
  intros E cfg h sql out out'. split; intros H1 H2.
  - apply (router_gate_output E cfg) in H1 as [H1 _].
    eapply db_gate_keeps_limited; eassumption.
  - apply (db_gate_output E h) in H1 as [H1 _].
    eapply router_gate_keeps_limited; eassumption.
Qed.

Lemma gates_do_not_wrap_twice_witness :
  u "SELECT * FROM (select room from spaces) AS _t LIMIT 500"
  = u "SELECT * FROM (select room from spaces) AS _t LIMIT 500"
  /\ u "SELECT * FROM (select room from spaces) AS _safe LIMIT 500"
     = u "SELECT * FROM (select room from spaces) AS _safe LIMIT 500".
Proof.
  split.
  - apply (proj1 (gates_do_not_wrap_twice ascii_env Router.default_flags true
                    (u "select room from spaces")
                    (u "SELECT * FROM (select room from spaces) AS _t LIMIT 500")
                    (u "SELECT * FROM (select room from spaces) AS _t LIMIT 500")));
      vm_compute; reflexivity.
  - apply (proj2 (gates_do_not_wrap_twice ascii_env Router.default_flags true
                    (u "select room from spaces")
                    (u "SELECT * FROM (select room from spaces) AS _safe LIMIT 500")
                    (u "SELECT * FROM (select room from spaces) AS _safe LIMIT 500")));
      vm_compute; reflexivity.
Defined.

(** X3.  A gate fails with a [ValueError], or with the exception of the parser
    when that is not a [ParseError] (a parse error is turned into a
    [ValueError]; anything else the parser raises passes through). *)
Theorem gates_fail_with_value_error_or_parser_failure :
  forall (E : py_env) (cfg : Router.flags) (HAS_SQLGLOT : bool)
         (sql : pystr) (e : exn),
    (Router._ensure_safe_select E cfg sql = Raise e ->
       gate_failure (sqlglot_parse E sql) e)
    /\ (Db.ensure_safe_select E HAS_SQLGLOT sql = Raise e ->
        gate_failure (db_parse E HAS_SQLGLOT sql) e).
Proof.
  intros E cfg h sql e. unfold gate_failure. split.
  - unfold Router._ensure_safe_select. cbv zeta.
    destruct (contains (u ";") sql);
      [intros H; injection H as <-; left; same_kind|].
    match goal with |- (if ?b then _ else _) = _ -> _ => destruct b end;
      [intros H; injection H as <-; left; same_kind|].
    match goal with |- (if ?b then _ else _) = _ -> _ => destruct b end;
      [intros H; injection H as <-; left; same_kind|].
    destruct (sqlglot_parse E sql) as [[]|[k m|k m]].
    + match goal with |- (if ?b then _ else _) = _ -> _ => destruct b end;
        discriminate.
    + destruct k; intros H; injection H as <-;
        first [left; same_kind | right; split; [reflexivity|discriminate]].
    + destruct k; intros H; injection H as <-;
        first [left; same_kind | right; split; [reflexivity|discriminate]].
  - unfold Db.ensure_safe_select, db_parse. cbv zeta.
    destruct (contains (u ";") sql);
      [intros H; injection H as <-; left; same_kind|].
    match goal with |- (if ?b then _ else _) = _ -> _ => destruct b end;
      [intros H; injection H as <-; left; same_kind|].
    match goal with |- (if ?b then _ else _) = _ -> _ => destruct b end;
      [intros H; injection H as <-; left; same_kind|].
    destruct (if h then sqlglot_parse E sql else Ok tt) as [[]|[k m|k m]].
    + match goal with |- (if ?b then _ else _) = _ -> _ => destruct b end;
        discriminate.
    + destruct k; intros H; injection H as <-;
        first [left; same_kind | right; split; [reflexivity|discriminate]].
    + destruct k; intros H; injection H as <-;
        first [left; same_kind | right; split; [reflexivity|discriminate]].
Qed.

Lemma gates_fail_with_value_error_or_parser_failure_witness :
  gate_failure (sqlglot_parse comment_env (u "select (1 -- one"))
    (Raised ValueError (u "SQL parse error: Expecting )"))
  /\ gate_failure (db_parse ascii_env false (u "select 1; select 2"))
       (Raised ValueError (u "Multiple statements not allowed.")).
Proof.
  split.
  - apply (proj1 (gates_fail_with_value_error_or_parser_failure comment_env
                    Router.default_flags true (u "select (1 -- one")
                    (Raised ValueError (u "SQL parse error: Expecting )")))).
    vm_compute; reflexivity.
  - apply (proj2 (gates_fail_with_value_error_or_parser_failure ascii_env
                    Router.default_flags false (u "select 1; select 2")
                    (Raised ValueError (u "Multiple statements not allowed.")))).
    vm_compute; reflexivity.
Defined.

(** ** More about the router *)

Section InferStages.
Variable E : py_env.
Variable cfg : Router.flags.
Variables SYSTEM_PROMPT ctx : pystr.
Variable chat_create : pystr -> pystr -> result pyval.

(** The first two stages of [infer], as it runs them. *)
Let stage1 (q : pystr) : result (option Router.Decision) :=
  if Router.FAST_INTENTS cfg then Router._fast_intent E q else Ok None.

Let stage2 (q : pystr) : result (option Router.Decision) :=
  if Router.FAST_SQL cfg then Router._fast_sql E cfg q else Ok None.

Lemma infer_unfold (user_text : pystr) :
  Router.infer E cfg SYSTEM_PROMPT ctx chat_create user_text
  = let q := strip E user_text in
    match stage1 q with
    | Raise e => Raise e
    | Ok (Some d) => Ok d
    | Ok None =>
        match stage2 q with
        | Raise e => Raise e
        | Ok (Some d) => Ok d
        | Ok None =>
            if Router._needs_agent E q then
              Ok (Router.mkDecision Router.agent VNone VNone None None
                    (u "heuristic: needs_agent"))
            else if negb (Router.LLM_ROUTING cfg) then
              Ok (Router.text_decision
                    (u "I can’t answer that from your provided data and tools.")
                    (u "llm_routing disabled"))
            else
              match Router.llm_stage E cfg SYSTEM_PROMPT ctx chat_create q with
              | Ok d => Ok d
              | Raise e =>
                  Ok (Router.text_decision (u "Router error: " ++ str_exn E e)
                        (u "exception"))
              end
        end
    end.
Proof.
  unfold Router.infer, stage1, stage2. cbv zeta.
  destruct (if Router.FAST_INTENTS cfg then _ else _) as [[d|]|]; cbn [bind];
    reflexivity.
Qed.

Lemma llm_stage_sql (q : pystr) (d : Router.Decision) :
  Router.llm_stage E cfg SYSTEM_PROMPT ctx chat_create q = Ok d ->
  Router.mode d = Router.sql_mode ->
  exists sql0 out,
    Router.sql d = Some out /\ Router._ensure_safe_select E cfg sql0 = Ok out.
Proof.
  unfold Router.llm_stage. cbv zeta.
  destruct (chat_create _ q) as [msg|]; cbn [bind]; [|discriminate].
  destruct (truthy (getattr_or_none msg (u "tool_calls"))).
  - destruct (getitem0 _) as [call|]; cbn [bind]; [|discriminate].
    match goal with |- bind ?m _ = _ -> _ =>
      destruct m as [fn|]; cbn [bind]; [|discriminate] end.
    match goal with |- bind ?m _ = _ -> _ =>
      destruct m as [nm|]; cbn [bind]; [|discriminate] end.
    match goal with |- bind ?m _ = _ -> _ =>
      destruct m as [a|]; cbn [bind]; [|discriminate] end.
    intros H; injection H as <-. discriminate.
  - destruct (getattr msg (u "content")) as [c|]; cbn [bind];
      [|discriminate].
    destruct (py_or c (VStr [])) as [| | | |content| | |]; try discriminate.
    match goal with |- match ?m with _ => _ end = _ -> _ =>
      destruct m as [m'|] end.
    + destruct (Router._ensure_safe_select E cfg _) eqn:Hg; cbn [bind];
        [|discriminate].
      intros H; injection H as <-. intros _. eexists _, _.
      split; [reflexivity | exact Hg].
    + destruct (Router.STRICT_MODE cfg); intros H; injection H as <-;
        discriminate.
Qed.

Lemma fast_sql_gated (q : pystr) (d : Router.Decision) :
  Router._fast_sql E cfg q = Ok (Some d) ->
  exists sql0 out,
    Router.sql d = Some out /\ Router._ensure_safe_select E cfg sql0 = Ok out.
Proof.
  unfold Router._fast_sql. cbv zeta.
  destruct (re_search E no_flags Router.re_compare (lower E q));
    [|discriminate].
  destruct (Router._parse_days_hours E (lower E q)); cbn [bind];
    [|discriminate].
  destruct (Router._ensure_safe_select E cfg _) eqn:Hg; cbn [bind];
    [|discriminate].
  intros H; injection H as <-. eexists _, _.
  split; [reflexivity | exact Hg].
Qed.

Lemma infer_sql_gated (user_text : pystr) (d : Router.Decision) :
  Router.infer E cfg SYSTEM_PROMPT ctx chat_create user_text = Ok d ->
  Router.mode d = Router.sql_mode ->
  exists sql0 out,
    Router.sql d = Some out /\ Router._ensure_safe_select E cfg sql0 = Ok out.
Proof.
  rewrite infer_unfold. cbv zeta. unfold stage1, stage2.
  set (q := strip E user_text).
  destruct (if Router.FAST_INTENTS cfg then _ else _) as [[d1|]|] eqn:H1;
    [ | | discriminate].
  { intros H; injection H as <-. intros Hm.
    destruct (Router.FAST_INTENTS cfg); [|discriminate].
    apply fast_intent_shape in H1 as (_ & _ & H1). congruence. }
  destruct (if Router.FAST_SQL cfg then _ else _) as [[d2|]|] eqn:H2;
    [ | | discriminate].
  { intros H; injection H as <-. intros _.
    destruct (Router.FAST_SQL cfg); [|discriminate].
    eapply fast_sql_gated, H2. }
  destruct (Router._needs_agent E q);
    [intros H; injection H as <-; discriminate|].
  destruct (negb (Router.LLM_ROUTING cfg));
    [intros H; injection H as <-; discriminate|].
  destruct (Router.llm_stage E cfg SYSTEM_PROMPT ctx chat_create q) eqn:H4;
    intros H; injection H as <-; [|discriminate].
  intros Hm. eapply llm_stage_sql; eassumption.
Qed.

Lemma infer_raise (user_text : pystr) (e : exn) :
  Router.infer E cfg SYSTEM_PROMPT ctx chat_create user_text = Raise e ->
  (Router.FAST_INTENTS cfg = true
   /\ Router._fast_intent E (strip E user_text) = Raise e)
  \/ (Router.FAST_SQL cfg = true
      /\ Router._fast_sql E cfg (strip E user_text) = Raise e).
Proof.
  rewrite infer_unfold. cbv zeta. unfold stage1, stage2.
  set (q := strip E user_text).
  destruct (Router.FAST_INTENTS cfg).
  - destruct (Router._fast_intent E q) as [[d1|]|]; [discriminate| |].
    2:{ intros H; injection H as <-. left. split; reflexivity. }
    destruct (Router.FAST_SQL cfg).
    + destruct (Router._fast_sql E cfg q) as [[d2|]|]; [discriminate| |].
      2:{ intros H; injection H as <-. right. split; reflexivity. }
      destruct (Router._needs_agent E q); [discriminate|].
      destruct (negb (Router.LLM_ROUTING cfg)); [discriminate|].
      destruct (Router.llm_stage _ _ _ _ _ _); discriminate.
    + destruct (Router._needs_agent E q); [discriminate|].
      destruct (negb (Router.LLM_ROUTING cfg)); [discriminate|].
      destruct (Router.llm_stage _ _ _ _ _ _); discriminate.
  - destruct (Router.FAST_SQL cfg).
    + destruct (Router._fast_sql E cfg q) as [[d2|]|]; [discriminate| |].
      2:{ intros H; injection H as <-. right. split; reflexivity. }
      destruct (Router._needs_agent E q); [discriminate|].
      destruct (negb (Router.LLM_ROUTING cfg)); [discriminate|].
      destruct (Router.llm_stage _ _ _ _ _ _); discriminate.
    + destruct (Router._needs_agent E q); [discriminate|].
      destruct (negb (Router.LLM_ROUTING cfg)); [discriminate|].
      destruct (Router.llm_stage _ _ _ _ _ _); discriminate.
Qed.

End InferStages.

(** X4.  Every decision of mode sql that [infer] returns carries a statement
    that [_ensure_safe_select] has returned: one statement, a query, with
    a limit between two spaces.  (The chatbot executes the statement of a
    decision as it is.) *)
Theorem sql_decisions_have_passed_the_gate :
  forall (E : py_env) (cfg : Router.flags) (SYSTEM_PROMPT ctx : pystr)
         (chat_create : pystr -> pystr -> result pyval)
         (user_text : pystr) (d : Router.Decision),
    Router.infer E cfg SYSTEM_PROMPT ctx chat_create user_text = Ok d ->
    Router.mode d = Router.sql_mode ->
    exists sql0 out,
      Router.sql d = Some out
      /\ Router._ensure_safe_select E cfg sql0 = Ok out
      /\ single_limited_query E out.
Proof.
  intros E cfg SP ctx chat q d H Hm.
  destruct (infer_sql_gated E cfg SP ctx chat q d H Hm)
    as (sql0 & out & Hs & Hg).
  exists sql0, out. repeat split; try assumption;
    apply (router_gate_output E cfg sql0 out Hg).
Qed.

(** ** More about [infer] *)

Section StripAround.
Variable E : py_env.

Lemma lstrip_spaces_app (ws x : pystr) :
  Forall (fun c => is_space E c = true) ws ->
  lstrip E (ws ++ x) = lstrip E x.
Proof.
  induction 1 as [|c ws Hc _ IH]; [reflexivity|].
  cbn [app lstrip]. now rewrite Hc.
Qed.

Lemma rstrip_app_spaces (x ws : pystr) :
  Forall (fun c => is_space E c = true) ws ->
  rstrip E (x ++ ws) = rstrip E x.
Proof.
  intros H. unfold rstrip. rewrite rev_app_distr.
  now rewrite lstrip_spaces_app by now apply Forall_rev.
Qed.

Lemma strip_surrounded (ws1 q ws2 : pystr) :
  Forall (fun c => is_space E c = true) ws1 ->
  Forall (fun c => is_space E c = true) ws2 ->
  strip E (ws1 ++ q ++ ws2) = strip E q.
Proof.
  intros H1 H2. unfold strip. rewrite lstrip_spaces_app by exact H1.
  destruct (lstrip_split E q) as (w & Hq & Hw).
  rewrite Hq at 1. rewrite <- app_assoc, lstrip_spaces_app by exact Hw.
  destruct (lstrip_head E q) as [->|(c & t & -> & Hc)].
  - cbn [app]. rewrite <- (app_nil_r ws2).
    now rewrite lstrip_spaces_app by exact H2.
  - cbn [app]. rewrite lstrip_keep by exact Hc.
    change (c :: t ++ ws2) with ((c :: t) ++ ws2).
    now rewrite (rstrip_app_spaces (c :: t) ws2 H2).
Qed.

End StripAround.

(** X5.  White space before and after the question does not change the
    decision of the router. *)
Theorem white_space_around_the_question_does_not_matter :
  forall (E : py_env) (cfg : Router.flags) (SYSTEM_PROMPT ctx : pystr)
         (chat_create : pystr -> pystr -> result pyval)
         (q ws1 ws2 : pystr),
    Forall (fun c => is_space E c = true) ws1 ->
    Forall (fun c => is_space E c = true) ws2 ->
    Router.infer E cfg SYSTEM_PROMPT ctx chat_create (ws1 ++ q ++ ws2)
    = Router.infer E cfg SYSTEM_PROMPT ctx chat_create q.
Proof.
  intros E cfg SP ctx chat q ws1 ws2 H1 H2.
  rewrite 2 infer_unfold. cbv zeta.
  now rewrite (strip_surrounded E ws1 q ws2 H1 H2).
Qed.

Lemma white_space_around_the_question_does_not_matter_witness :
  Router.infer ascii_env no_llm_flags [] [] (fun _ _ => Ok VNone)
    ([9%N; 32%N] ++ u "list floors" ++ [10%N])
  = Router.infer ascii_env no_llm_flags [] [] (fun _ _ => Ok VNone)
      (u "list floors").
Proof.
  apply (white_space_around_the_question_does_not_matter ascii_env
           no_llm_flags [] [] (fun _ _ => Ok VNone) (u "list floors")
           [9%N; 32%N] [10%N]); repeat constructor.
Defined.

(** X6.  An exception leaves [infer] only from one of the two pattern stages:
    whatever goes wrong in the stage of the language model (the request,
    the shape of the reply, the gate on the statement it proposes) ends in
    a decision of mode text. *)
Theorem infer_raises_only_from_the_pattern_stages :
  forall (E : py_env) (cfg : Router.flags) (SYSTEM_PROMPT ctx : pystr)
         (chat_create : pystr -> pystr -> result pyval)
         (user_text : pystr) (e : exn),
    Router.infer E cfg SYSTEM_PROMPT ctx chat_create user_text = Raise e ->
    (Router.FAST_INTENTS cfg = true
     /\ Router._fast_intent E (strip E user_text) = Raise e)
    \/ (Router.FAST_SQL cfg = true
        /\ Router._fast_sql E cfg (strip E user_text) = Raise e).
Proof. intros. eapply infer_raise; eassumption. Qed.

Lemma infer_raises_only_from_the_pattern_stages_witness :
  (Router.FAST_INTENTS Router.default_flags = true
   /\ Router._fast_intent ascii_env (strip ascii_env q_huge_threshold)
      = Raise (Raised OverflowError (u "int too large to convert to float")))
  \/ (Router.FAST_SQL Router.default_flags = true
      /\ Router._fast_sql ascii_env Router.default_flags
           (strip ascii_env q_huge_threshold)
         = Raise (Raised OverflowError
                    (u "int too large to convert to float"))).
Proof.
  apply (infer_raises_only_from_the_pattern_stages ascii_env
           Router.default_flags [] [] (fun _ _ => Ok VNone)
           q_huge_threshold).
  vm_compute; reflexivity.
Defined.

(** X7.  With the routing by the language model switched off, the decision does
    not depend on the model, on the system prompt or on the dynamic
    context: the model is not consulted. *)
Theorem without_llm_routing_the_model_is_not_consulted :
  forall (E : py_env) (cfg : Router.flags)
         (SYSTEM_PROMPT SYSTEM_PROMPT' ctx ctx' : pystr)
         (chat_create chat_create' : pystr -> pystr -> result pyval)
         (user_text : pystr),
    Router.LLM_ROUTING cfg = false ->
    Router.infer E cfg SYSTEM_PROMPT ctx chat_create user_text
    = Router.infer E cfg SYSTEM_PROMPT' ctx' chat_create' user_text.
Proof.
  intros E cfg SP SP' ctx ctx' chat chat' q H.
  rewrite 2 infer_unfold. cbv zeta. rewrite H. cbn [negb].
  destruct (if Router.FAST_INTENTS cfg then _ else _) as [[d|]|];
    try reflexivity.
Qed.

Lemma without_llm_routing_the_model_is_not_consulted_witness :
  Router.infer ascii_env no_llm_flags [] [] (fun _ _ => Ok sql_reply)
    (u "hello there")
  = Router.infer ascii_env no_llm_flags (u "prompt") (u "context")
      (fun _ _ => Ok nameless_tool_call) (u "hello there").
Proof.
  apply (without_llm_routing_the_model_is_not_consulted ascii_env
           no_llm_flags [] (u "prompt") [] (u "context")
           (fun _ _ => Ok sql_reply) (fun _ _ => Ok nameless_tool_call)
           (u "hello there")).
  reflexivity.
Defined.

Lemma sql_decisions_have_passed_the_gate_witness :
  exists sql0 out,
    Some (u "SELECT * FROM (select 1 from t) AS _t LIMIT 500") = Some out
    /\ Router._ensure_safe_select ascii_env Router.default_flags sql0 = Ok out
    /\ single_limited_query ascii_env out.
Proof.
  apply (sql_decisions_have_passed_the_gate ascii_env Router.default_flags
           [] [] (fun _ _ => Ok sql_reply) (u "hello")
           (Router.mkDecision Router.sql_mode VNone VNone
              (Some (u "SELECT * FROM (select 1 from t) AS _t LIMIT 500"))
              None (u "llm: sql_fallback"))).
  - vm_compute; reflexivity.
  - reflexivity.
Defined.

(** ** What the dispatchers ask of the backend *)

Section Requests.
Variable E : py_env.
Variables DataFrame W : Type.
Variable db_call : Backend.call -> W -> result DataFrame * W.

Lemma agent_tool_requests (name args : pyval) :
  asks_at_most 1
    (fun c => name = VStr (call_name c) /\ coerced c = true
              /\ call_name c <> u "execute_sql")
    (Agent._run_tool E db_call name args).
Proof.
  unfold Agent._run_tool.
  repeat match goal with
    | |- asks_at_most _ _ (if eq_str name ?t then _ else _) =>
        let H := fresh "N" in
        destruct (eq_str name t) eqn:H;
          [apply eq_str_true in H; subst name; clear;
           try unfold Agent.coffee_tool;
           repeat ask_step ltac:(split; [vm_compute; reflexivity|];
                                 split; [vm_compute; reflexivity
                                        | vm_compute; discriminate])
          | clear H]
    end.
  apply asks_raise.
Qed.


(** A computation that has returned satisfies [Q] on its result when its
    last step does. *)
Lemma returns_bind {A B} (Q : B -> Prop) (m : Backend.M W A)
      (f : A -> Backend.M W B) :
  (forall a s b s1, f a s = (Ok b, s1) -> Q b) ->
  forall s b s1, Backend.bindM m f s = (Ok b, s1) -> Q b.
Proof.
  intros Hf s b s1 H. apply bindM_ok in H as (a & s0 & _ & H).
  eapply Hf, H.
Qed.

Lemma chat_known_tool_has_table
      (df_len : DataFrame -> Z)
      (df_merge : DataFrame -> DataFrame -> option DataFrame)
      (pd : columns DataFrame) (name args : pyval)
      (s s1 : Backend.sys W) (r : Chat.ChatResponse DataFrame) :
  known chat_tools name = true ->
  Chat._run_tool E db_call df_len df_merge pd name args s
  = (Ok r, s1) ->
  exists d, Chat.df r = Some d.
Proof.
  intros Hk. revert s r s1. unfold Chat._run_tool.
  repeat match goal with
    | |- forall s r s1, (if eq_str name ?t then _ else _) s = _ -> _ =>
        let H := fresh "N" in
        destruct (eq_str name t) eqn:H;
          [clear; try unfold Chat.coffee_tool;
           repeat (apply returns_bind; intros ?; cbv zeta);
           intros s r s1 H; apply ret_ok in H as [-> _];
           eexists; reflexivity | ]
    end.
  exfalso. unfold known, chat_tools, agent_tools in Hk.
  cbn [existsb app] in Hk.
  rewrite N, N0, N1, N2, N3, N4, N5, N6, N7, N8, N9 in Hk. discriminate.
Qed.

End Requests.

Lemma at_most_one {A} (l : list A) :
  (List.length l <= 1)%nat -> l = [] \/ exists c, l = [c].
Proof.
  destruct l as [|c [|c' l]]; cbn; intros H;
    [now left | right; now exists c | lia].
Qed.

(** X8.  Whatever arguments it is given, and whether it returns or raises, the
    orchestrator's dispatcher asks the backend nothing or one operation,
    and that operation is the one that bears the name of the tool. *)
Theorem agent_tool_asks_its_own_operation :
  forall (E : py_env) (DataFrame W : Type)
         (db_call : Backend.call -> W -> result DataFrame * W)
         (name args : pyval) (s s1 : Backend.sys W)
         (r : result (Agent.ToolResult DataFrame)),
    Agent._run_tool E db_call name args s = (r, s1) ->
    Backend.calls s1 = Backend.calls s
    \/ exists c, Backend.calls s1 = Backend.calls s ++ [c]
                 /\ name = VStr (call_name c).
Proof.
  intros E DataFrame W db_call name args s s1 r H.
  apply agent_tool_requests in H as (l & -> & Hl & Hf).
  apply at_most_one in Hl as [->|[c ->]].
  - left. apply app_nil_r.
  - right. exists c. split; [reflexivity|].
    inversion Hf as [|? ? [Hn _] _]. exact Hn.
Qed.

Lemma agent_tool_asks_its_own_operation_witness :
  [Backend.rooms_on_floor (VStr (u "3"))] = []
  \/ exists c, [Backend.rooms_on_floor (VStr (u "3"))] = [] ++ [c]
               /\ VStr (u "rooms_on_floor") = VStr (call_name c).
Proof.
  apply (agent_tool_asks_its_own_operation ascii_env nat unit empty_backend
           (VStr (u "rooms_on_floor")) (VDict [(u "floor", VStr (u "3"))])
           start
           {| Backend.world := tt;
              Backend.calls := [Backend.rooms_on_floor (VStr (u "3"))] |}
           (Ok {| Agent.title := u "Rooms 3"; Agent.df := 0%nat;
                  Agent.text := u "Rooms" |})).
  vm_compute; reflexivity.
Defined.

(** A computation that raises without asking anything. *)
Lemma unasked_bind_quiet {W A B : Type} (m : Backend.M W A)
      (f : A -> Backend.M W B) :
  quiet m -> (forall a, raises_unasked (f a)) ->
  raises_unasked (Backend.bindM m f).
Proof.
  intros Hq Hf s. unfold Backend.bindM.
  destruct (m s) as [[a|e] s'] eqn:H; apply Hq in H as ->.
  - apply Hf.
  - now exists e.
Qed.

Lemma unasked_arg_int {W B : Type} (E : py_env) (args : pyval) (k : pystr)
      (dflt : Z) (f : pyval -> Backend.M W B) :
  is_ok (converted E args (k, VInt dflt)) = false ->
  raises_unasked (Backend.bindM (Agent.arg_int E args k dflt) f).
Proof.
  unfold converted, Agent.arg_int, Backend.bindM, Backend.lift. cbn [fst snd].
  intros H s.
  destruct (get_default args k (VInt dflt)) as [v|e]; [|now exists e].
  cbn [bind] in H. destruct (py_int E v) as [n|e]; [discriminate|].
  now exists e.
Qed.

Lemma unasked_arg_float {W B : Type} (E : py_env) (args : pyval) (k : pystr)
      (dflt : float) (f : pyval -> Backend.M W B) :
  is_ok (converted E args (k, VFloat dflt)) = false ->
  raises_unasked (Backend.bindM (Agent.arg_float E args k dflt) f).
Proof.
  unfold converted, Agent.arg_float, Backend.bindM, Backend.lift.
  cbn [fst snd]. intros H s.
  destruct (get_default args k (VFloat dflt)) as [v|e]; [|now exists e].
  cbn [bind] in H. destruct (py_float E v) as [n|e]; [discriminate|].
  now exists e.
Qed.

Ltac unasked_steps :=
  repeat first
    [ apply unasked_arg_int; assumption
    | apply unasked_arg_float; assumption
    | apply unasked_bind_quiet;
      [ solve [ apply quiet_lift | apply quiet_arg_int | apply quiet_arg_float
              | apply quiet_hours ]
      | intros ? ] ].

(** A number that cannot be converted stops the orchestrator's dispatcher
    before it asks. *)
Lemma agent_tool_unconverted (E : py_env) (DataFrame W : Type)
      (db_call : Backend.call -> W -> result DataFrame * W)
      (nm : pystr) (args : pyval) (kd : pystr * pyval) :
  In kd (numbers_of nm) ->
  is_ok (converted E args kd) = false ->
  raises_unasked (Agent._run_tool E db_call (VStr nm) args).
Proof.
  unfold numbers_of. intros Hin H.
  repeat match type of Hin with
    | In _ (if str_eqb nm ?t then _ else _) =>
        let N := fresh "N" in
        destruct (str_eqb nm t) eqn:N;
          [apply str_eqb_eq in N; subst nm; cbn [In] in Hin |]
    end;
    [ .. | destruct Hin ].
  all: unfold Agent._run_tool; cbn [eq_str]; literal_tests; cbv iota;
    try unfold Agent.coffee_tool.
  all: repeat match type of Hin with
         | _ \/ _ => destruct Hin as [<-|Hin]
         | False => destruct Hin
         end.
  all: unasked_steps.
Qed.

(** X9.  What the orchestrator's dispatcher hands to the backend as a number
    of days, a limit or a number of machines is an [int], as a threshold
    or a weight a [float], as the switch of the quiet zones a [bool],
    whatever the arguments held; and when one of the numbers of the tool
    cannot be converted, the dispatcher raises and has asked nothing. *)
Theorem agent_tool_converts_its_arguments :
  forall (E : py_env) (DataFrame W : Type)
         (db_call : Backend.call -> W -> result DataFrame * W)
         (name args : pyval) (s s1 : Backend.sys W)
         (r : result (Agent.ToolResult DataFrame)),
    Agent._run_tool E db_call name args s = (r, s1) ->
    (forall c, In c (Backend.calls s1) ->
               In c (Backend.calls s) \/ coerced c = true)
    /\ (forall nm kd,
          name = VStr nm -> In kd (numbers_of nm) ->
          is_ok (converted E args kd) = false ->
          is_ok r = false /\ s1 = s).
Proof.
  intros E DataFrame W db_call name args s s1 r H. split.
  - intros c Hin.
    apply agent_tool_requests in H as (l & Hc & _ & Hf).
    rewrite Hc in Hin. apply in_app_or in Hin as [Hin|Hin]; [now left|].
    right. rewrite Forall_forall in Hf. now apply Hf in Hin.
  - intros nm kd -> Hin Hk.
    destruct (agent_tool_unconverted E DataFrame W db_call nm args kd Hin
                Hk s) as (e & He).
    rewrite He in H. injection H as <- <-. now split.
Qed.

(** The days are given as the text of a number and the limit as a float:
    the request carries the integers 7 and 3.  With a limit that is no
    number, the dispatcher raises and asks nothing. *)
Lemma agent_tool_converts_its_arguments_witness :
  (In (Backend.busiest_rooms VNone (VInt 7) (VInt 3)) []
   \/ coerced (Backend.busiest_rooms VNone (VInt 7) (VInt 3)) = true)
  /\ (is_ok (@Raise (Agent.ToolResult nat) (Builtin TypeError (u "int")))
      = false
      /\ start = start).
Proof.
  split.
  - refine (proj1 (agent_tool_converts_its_arguments ascii_env nat unit
                     empty_backend (VStr (u "busiest_rooms"))
                     (VDict [(u "days", VStr (u "7"));
                             (u "limit", VFloat 3.5%float)])
                     start
                     {| Backend.world := tt;
                        Backend.calls :=
                          [Backend.busiest_rooms VNone (VInt 7) (VInt 3)] |}
                     (Ok {| Agent.title := u "Busiest"; Agent.df := 0%nat;
                            Agent.text := u "Busiest" |}) _) _ _).
    + vm_compute; reflexivity.
    + left; reflexivity.
  - refine (proj2 (agent_tool_converts_its_arguments ascii_env nat unit
                     empty_backend (VStr (u "busiest_rooms"))
                     (VDict [(u "limit", VNone)]) start start
                     (Raise (Builtin TypeError (u "int"))) _)
              (u "busiest_rooms") (u "limit", VInt 5) eq_refl _ _).
    + vm_compute; reflexivity.
    + in_list.
    + vm_compute; reflexivity.
Defined.



(** X11.  The four tools that read their floor with [args["floor"]], which
    are [rooms_on_floor], [status_floor_now], [free_meeting_rooms_now] and
    [utilization_floor], fail with [KeyError('floor')] when the argument
    dictionary has no floor, in both dispatchers, and the backend is not
    asked. *)
Theorem floor_tools_need_a_floor :
  forall (E : py_env) (DataFrame W : Type)
         (db_call : Backend.call -> W -> result DataFrame * W)
         (df_len : DataFrame -> Z)
         (df_merge : DataFrame -> DataFrame -> option DataFrame)
         (pd : columns DataFrame)
         (name : pystr) (d : pydict) (s : Backend.sys W),
    In name floor_tools ->
    dict_get (u "floor") d = None ->
    Agent._run_tool E db_call (VStr name) (VDict d) s
    = (Raise (Builtin KeyError (u "floor")), s)
    /\ Chat._run_tool E db_call df_len df_merge pd
         (VStr name) (VDict d) s
       = (Raise (Builtin KeyError (u "floor")), s).
Proof.
  intros E DataFrame W db_call df_len df_merge pm name d s Hin Hd.
  unfold floor_tools in Hin. cbn [In] in Hin.
  destruct Hin as [<-|[<-|[<-|[<-|[]]]]];
    (split;
     [unfold Agent._run_tool | unfold Chat._run_tool];
     cbn [eq_str]; literal_tests; cbv iota;
     unfold Backend.bindM, Backend.lift, getitem, builtin_exn;
     rewrite Hd; reflexivity).
Qed.

Lemma floor_tools_need_a_floor_witness :
  Agent._run_tool ascii_env empty_backend (VStr (u "utilization_floor"))
    (VDict [(u "days", VInt 7)]) start
  = (Raise (Builtin KeyError (u "floor")), start)
  /\ Chat._run_tool ascii_env empty_backend Z.of_nat (fun _ _ => None)
       plain_columns (VStr (u "utilization_floor"))
       (VDict [(u "days", VInt 7)]) start
     = (Raise (Builtin KeyError (u "floor")), start).
Proof.
  apply (floor_tools_need_a_floor ascii_env nat unit empty_backend Z.of_nat
           (fun _ _ => None) plain_columns (u "utilization_floor")
           [(u "days", VInt 7)] start).
  - in_list.
  - vm_compute; reflexivity.
Defined.

(** ** The relaxed arguments of the auto-repair *)

Lemma dict_pop_absent (k : pystr) (d : pydict) :
  dict_get k d = None -> dict_pop k d = d.
Proof.
  induction d as [|[k' v'] d IH]; cbn; [reflexivity|].
  destruct (str_eqb k k'); [discriminate|].
  intros H. now rewrite IH.
Qed.

Lemma dict_set_present (k : pystr) (v : pyval) (d : pydict) :
  dict_get k d = Some v -> dict_set k v d = d.
Proof.
  induction d as [|[k' v'] d IH]; cbn; [discriminate|].
  destruct (str_eqb k k').
  - intros H; injection H as ->. reflexivity.
  - intros H. now rewrite IH.
Qed.

Section Relaxed.
Variable E : py_env.

Lemma relaxed_inv (args args' : pyval) :
  Agent.relaxed E args = Ok args' ->
  exists d n,
    args = VDict d
    /\ py_int E (match dict_get (u "days") d with
                 | Some x => x
                 | None => VInt 14
                 end) = Ok n
    /\ args' = VDict (dict_set (u "avoid_quiet") (VBool false)
                        (dict_set (u "days") (VInt (Z.max n 14))
                           (dict_pop (u "hours") d))).
Proof.
  unfold Agent.relaxed. destruct args as [| | | | | |d|]; try discriminate.
  unfold get_default. cbn [bind].
  rewrite dict_get_pop_other by (vm_compute; reflexivity).
  destruct (py_int E _) as [n|] eqn:Hn; cbn [bind]; [|discriminate].
  intros H; injection H as <-. exists d, n. repeat split. exact Hn.
Qed.

End Relaxed.

(** X12.  Relaxing the arguments of the coffee planner a second time changes
    nothing more: after one repair the dictionary has no hours, an integer
    number of days that is at least 14 and the quiet zones switched off,
    and every other entry is as it was. *)
Theorem relaxing_twice_changes_nothing_more :
  forall (E : py_env) (args args' : pyval),
    Agent.relaxed E args = Ok args' ->
    Agent.relaxed E args' = Ok args'
    /\ get args' (u "hours") = Ok VNone
    /\ (exists n, get args' (u "days") = Ok (VInt n) /\ (14 <= n)%Z)
    /\ get args' (u "avoid_quiet") = Ok (VBool false)
    /\ forall k, str_eqb k (u "hours") = false ->
                 str_eqb k (u "days") = false ->
                 str_eqb k (u "avoid_quiet") = false ->
                 get args' k = get args k.
Proof.
  intros E args args' H.
  apply relaxed_inv in H as (d & n & -> & Hn & ->).
  set (d1 := dict_pop (u "hours") d).
  set (d2 := dict_set (u "days") (VInt (Z.max n 14)) d1).
  set (d3 := dict_set (u "avoid_quiet") (VBool false) d2).
  assert (Hh : dict_get (u "hours") d3 = None).
  { unfold d3, d2, d1.
    rewrite 2 dict_get_set_other by (vm_compute; reflexivity).
    apply dict_get_pop_same. }
  assert (Hd : dict_get (u "days") d3 = Some (VInt (Z.max n 14))).
  { unfold d3, d2.
    rewrite dict_get_set_other by (vm_compute; reflexivity).
    apply dict_get_set_same. }
  assert (Ha : dict_get (u "avoid_quiet") d3 = Some (VBool false)).
  { unfold d3. apply dict_get_set_same. }
  repeat split.
  - rewrite (relaxed_dict E d3 (Z.max n 14)).
    + rewrite (dict_pop_absent _ _ Hh).
      rewrite Z.max_l by lia.
      rewrite (dict_set_present _ _ _ Hd).
      now rewrite (dict_set_present _ _ _ Ha).
    + now rewrite Hd.
  - unfold get, get_default. now rewrite Hh.
  - exists (Z.max n 14). split; [|lia].
    unfold get, get_default. now rewrite Hd.
  - unfold get, get_default. now rewrite Ha.
  - intros k K1 K2 K3. unfold get, get_default, d3, d2, d1.
    now rewrite 2 dict_get_set_other, dict_get_pop_other.
Qed.

Lemma relaxing_twice_changes_nothing_more_witness :
  Agent.relaxed ascii_env
    (VDict [(u "floor", VStr (u "3")); (u "days", VInt 30);
            (u "avoid_quiet", VBool false)])
  = Ok (VDict [(u "floor", VStr (u "3")); (u "days", VInt 30);
               (u "avoid_quiet", VBool false)]).
Proof.
  apply (relaxing_twice_changes_nothing_more ascii_env
           (VDict [(u "floor", VStr (u "3")); (u "hours", VInt 1);
                   (u "days", VStr (u "30")); (u "avoid_quiet", VBool true)])).
  vm_compute; reflexivity.
Defined.

(** ** The tools offered to the language model *)

(** X13.  Every tool that the router offers to the language model has a name
    that the chatbot's dispatcher knows: when the dispatcher returns for
    it, the response carries a table (it is never the answer to an unknown
    tool).  The orchestrator's dispatcher refuses two of the tools
    offered, the data profile and the overview. *)
Theorem offered_tools_reach_the_chatbot_dispatcher :
  forall (E : py_env) (DataFrame W : Type)
         (db_call : Backend.call -> W -> result DataFrame * W)
         (df_len : DataFrame -> Z)
         (df_merge : DataFrame -> DataFrame -> option DataFrame)
         (pd : columns DataFrame)
         (args : pyval) (s : Backend.sys W),
    Forall (fun t =>
              exists n,
                Prompts.tool_name t = Ok (VStr n)
                /\ known chat_tools (VStr n) = true
                /\ (forall r s1,
                      Chat._run_tool E db_call df_len df_merge
                        pd (VStr n) args s = (Ok r, s1) ->
                      exists d, Chat.df r = Some d)
                /\ (known agent_tools (VStr n) = false <->
                    n = u "data_profile_summary" \/ n = u "data_overview"))
           Prompts.TOOLS
    /\ Agent._run_tool E db_call (VStr (u "data_profile_summary")) args s
       = (Raise (Raised ValueError (u "Unknown tool data_profile_summary")),
          s)
    /\ Agent._run_tool E db_call (VStr (u "data_overview")) args s
       = (Raise (Raised ValueError (u "Unknown tool data_overview")), s).
Proof.
  intros E DataFrame W db_call df_len df_merge pm args s.
  split; [|split].
  - unfold Prompts.TOOLS.
    repeat (apply Forall_cons || apply Forall_nil).
    all: eexists; split; [vm_compute; reflexivity|];
      split; [vm_compute; reflexivity|];
      split; [intros r s1; apply chat_known_tool_has_table;
              vm_compute; reflexivity|].
    all: split;
      [ intros H; vm_compute in H;
        first [discriminate H | left; reflexivity | right; reflexivity]
      | intros [H|H]; vm_compute in H; first [discriminate H | vm_compute; reflexivity] ].
  - unfold Agent._run_tool. cbn [eq_str]. literal_tests. cbv iota.
    unfold Backend.raise.
    apply (f_equal (fun m => (Raise (Raised ValueError m), s))).
    vm_compute; reflexivity.
  - unfold Agent._run_tool. cbn [eq_str]. literal_tests. cbv iota.
    unfold Backend.raise.
    apply (f_equal (fun m => (Raise (Raised ValueError m), s))).
    vm_compute; reflexivity.
Qed.

(** ** What the two entry points execute *)

Lemma not_sql_request (G : pystr -> Prop) (c : Backend.call) :
  call_name c <> u "execute_sql" -> sql_only_if G c.
Proof. intros H x ->. now contradiction H. Qed.


Section EntryPoints.
Variable E : py_env.
Variable cfg : Router.flags.
Variable HAS_SQLGLOT : bool.
Variables DataFrame W : Type.
Variable db_call : Backend.call -> W -> result DataFrame * W.
Variable df_empty : DataFrame -> bool.
Variable pd : columns DataFrame.
Variable SYSTEM_PROMPT : pystr.
Variable chat_create : W -> pystr -> pystr -> result pyval.

Abbreviation infer_db :=
  (NLRouter.infer E cfg db_call pd SYSTEM_PROMPT chat_create).

(** The dynamic context asks for the floors and for the space types, and
    always returns. *)
Lemma context_requests (P : Backend.call -> Prop) :
  P Backend.list_floors ->
  P (Backend.execute_sql NLRouter.space_types_sql) ->
  asks_at_most 2 P (NLRouter._dynamic_context db_call pd).
Proof.
  intros P1 P2. unfold NLRouter._dynamic_context.
  change 2%nat with (1 + 1)%nat. apply asks_bind.
  - apply asks_attempt.
    apply asks_bind_perform; [exact P1 | intros d; apply asks_lift].
  - intros floors. change 1%nat with (1 + 0)%nat. apply asks_bind.
    + apply asks_attempt.
      apply asks_bind_perform; [exact P2 | intros d; apply asks_lift].
    + intros t. cbv zeta. apply asks_ret.
Qed.




Lemma infer_requests (P : Backend.call -> Prop) (q : pystr) :
  P Backend.list_floors ->
  P (Backend.execute_sql NLRouter.space_types_sql) ->
  asks_at_most 2 P (infer_db q).
Proof.
  intros P1 P2. unfold NLRouter.infer. cbv zeta.
  apply asks_bind_quiet; [apply quiet_lift | intros [d1|]]; [apply asks_ret|].
  apply asks_bind_quiet; [apply quiet_lift | intros [d2|]]; [apply asks_ret|].
  destruct (Router._needs_agent E (strip E q)); [apply asks_ret|].
  destruct (negb (Router.LLM_ROUTING cfg)); [apply asks_ret|].
  change 2%nat with (2 + 0)%nat. apply asks_bind.
  - now apply context_requests.
  - intros ctx. apply asks_quiet. intros s r s1 H. now injection H.
Qed.


Let db_gated (x : pystr) : Prop :=
  exists sql0, Db.ensure_safe_select E HAS_SQLGLOT sql0 = Ok x
               /\ single_limited_query E x.

Lemma repair_requests (G : pystr -> Prop) (name args : pyval) :
  asks_at_most 2 (sql_only_if G)
    (Agent.run_tool_with_repair E db_call df_empty name args).
Proof.
  unfold Agent.run_tool_with_repair. change 2%nat with (1 + 1)%nat.
  apply asks_bind.
  - eapply asks_weaken; [apply le_n | | apply agent_tool_requests].
    intros c (_ & _ & H). now apply not_sql_request.
  - intros res. destruct (_ && _); [|apply asks_ret].
    apply asks_bind_quiet; [apply quiet_lift | intros args'].
    change 1%nat with (1 + 0)%nat. apply asks_bind; [|intros ?; apply asks_ret].
    eapply asks_weaken; [apply le_n | | apply agent_tool_requests].
    intros c (_ & _ & H). now apply not_sql_request.
Qed.

Lemma run_sql_requests (G : pystr -> Prop) (sql : pyval) :
  (forall x, db_gated x -> G x) ->
  asks_at_most 1 (sql_only_if G)
    (Agent.run_sql E HAS_SQLGLOT db_call sql).
Proof.
  intros HG.
  unfold Agent.run_sql. destruct sql; try apply asks_raise.
  apply asks_bind_lift. intros out Hg.
  apply asks_bind_perform; [|intros d; apply asks_ret].
  intros x Hx. injection Hx as <-. apply HG. exists s. split; [exact Hg|].
  apply (db_gate_output E HAS_SQLGLOT s out Hg).
Qed.

Variable planner_plan : pystr -> W -> result pyval * W.
Variable json_dumps_unicode : pyval -> result pystr.
Variable advisor_chat : W -> pystr -> pystr -> result pystr.

Lemma run_requests (user_goal : pystr) :
  asks_at_most 4
    (sql_only_if (fun x => In x orchestrator_statements \/ db_gated x))
    (Agent.run E cfg HAS_SQLGLOT db_call df_empty pd planner_plan
       json_dumps_unicode advisor_chat SYSTEM_PROMPT chat_create user_goal).
Proof.
  set (G := fun x => In x orchestrator_statements \/ db_gated x).
  unfold Agent.run. change 4%nat with (0 + 4)%nat. apply asks_bind.
  { intros s r s1 H.
    destruct (Backend.outside (planner_plan user_goal) s) as [[d|e] s'] eqn:Ho;
      injection H as _ <-;
      apply (asks_outside W 0 (sql_only_if G)) in Ho; exact Ho. }
  intros decision.
  apply asks_bind_quiet; [apply quiet_lift | intros final].
  destruct (truthy final); [apply asks_ret|].
  match goal with |- asks_at_most _ _ (if ?b then _ else _) => destruct b end.
  - apply asks_bind_quiet; [apply quiet_lift | intros name].
    apply asks_bind_quiet; [apply quiet_lift | intros a0].
    cbv zeta. change 4%nat with (2 + 2)%nat.
    apply asks_bind; [apply repair_requests|].
    intros res. destruct (re_found _ _ _ _); [|apply asks_ret].
    change 2%nat with (1 + 1)%nat. apply asks_bind; [|intros; apply asks_ret].
    apply (summarize_requests E DataFrame W db_call df_empty pd
             json_dumps_unicode advisor_chat).
    intros x Hx. injection Hx as <-. left. right. left. reflexivity.
  - apply asks_bind_quiet; [apply quiet_lift | intros md].
    apply asks_bind_quiet; [apply quiet_lift | intros sq].
    destruct (_ && _).
    + eapply asks_weaken; [ | | apply (run_sql_requests G)];
        [lia | auto | intros x Hx; now right].
    + change 4%nat with (2 + 2)%nat. apply asks_bind.
      { apply infer_requests.
        - intros x Hx. discriminate.
        - intros x Hx. injection Hx as <-. left. left. reflexivity. }
      intros d. destruct (Router.mode d).
      * change 2%nat with (2 + 0)%nat.
        apply asks_bind; [apply repair_requests | intros; apply asks_ret].
      * eapply asks_weaken; [ | | apply (run_sql_requests G)];
          [lia | auto | intros x Hx; now right].
      * apply asks_ret.
      * apply asks_ret.
      * apply asks_ret.
Qed.

Variable df_len : DataFrame -> Z.
Variable df_sample : DataFrame -> pyval.
Variable df_merge : DataFrame -> DataFrame -> option DataFrame.
Variable agent_run : pystr -> W -> result (Chat.AgentOut DataFrame) * W.
Variable rag_search : pystr -> W -> result pyval * W.

Abbreviation chat_ask :=
  (Chat.ask E cfg db_call df_empty df_len df_sample df_merge pd agent_run
     rag_search SYSTEM_PROMPT chat_create).


End EntryPoints.



(** X15.  Every statement that [AgentPro.run] sends to the backend for
    execution is one of two constant statements of the code (that of the
    router's dynamic context, that of the quick indicators) or has been
    returned by the database client's gate, whether the planner or the
    router proposed it: one statement, a query, with a limit.  In one run
    the orchestrator makes at most four requests. *)
Theorem orchestrator_executes_constant_or_gated_sql :
  forall (E : py_env) (cfg : Router.flags) (HAS_SQLGLOT : bool)
         (DataFrame W : Type)
         (db_call : Backend.call -> W -> result DataFrame * W)
         (df_empty : DataFrame -> bool) (pd : columns DataFrame)
         (planner_plan : pystr -> W -> result pyval * W)
         (json_dumps_unicode : pyval -> result pystr)
         (advisor_chat : W -> pystr -> pystr -> result pystr)
         (SYSTEM_PROMPT : pystr)
         (chat_create : W -> pystr -> pystr -> result pyval)
         (user_goal : pystr) (s s1 : Backend.sys W)
         (r : result (Agent.RunResult DataFrame)),
    Agent.run E cfg HAS_SQLGLOT db_call df_empty pd planner_plan
      json_dumps_unicode advisor_chat SYSTEM_PROMPT chat_create user_goal s
    = (r, s1) ->
    exists l,
      Backend.calls s1 = Backend.calls s ++ l
      /\ (List.length l <= 4)%nat
      /\ Forall (sql_only_if
                   (fun x => In x orchestrator_statements
                             \/ exists sql0,
                                  Db.ensure_safe_select E HAS_SQLGLOT sql0
                                  = Ok x
                                  /\ single_limited_query E x)) l.
Proof.
  intros E cfg h DataFrame W db_call df_empty pd plan jd advisor SP chat goal
    s s1 r H.
  eapply run_requests, H.
Qed.

(** The planner fails and the language model of the router answers with a
    statement: [run] fetches the dynamic context, passes the statement
    through the database client's gate and executes it. *)
Lemma orchestrator_executes_constant_or_gated_sql_witness :
  exists l,
    [Backend.list_floors;
     Backend.execute_sql NLRouter.space_types_sql;
     Backend.execute_sql (u "SELECT * FROM (select 1 from t) AS _t LIMIT 500")]
    = [] ++ l
    /\ (List.length l <= 4)%nat
    /\ Forall (sql_only_if
                 (fun x => In x orchestrator_statements
                           \/ exists sql0,
                                Db.ensure_safe_select ascii_env true sql0
                                = Ok x
                                /\ single_limited_query ascii_env x)) l.
Proof.
  apply (orchestrator_executes_constant_or_gated_sql ascii_env
           Router.default_flags true nat unit empty_backend (Nat.eqb 0)
           plain_columns
           (fun _ w => (Raise (Raised OtherError (u "no grounding pack")), w))
           (fun _ => Ok []) (fun _ _ _ => Ok []) []
           (fun _ _ _ => Ok sql_reply) (u "hello") start
           {| Backend.world := tt;
              Backend.calls :=
                [Backend.list_floors;
                 Backend.execute_sql NLRouter.space_types_sql;
                 Backend.execute_sql
                   (u "SELECT * FROM (select 1 from t) AS _t LIMIT 500")] |}
           (Ok {| Agent.r_title := u "Query result";
                  Agent.r_text := VStr (u "Answer derived from SQL.");
                  Agent.r_df := Some 0%nat |})).
  vm_compute; reflexivity.
Defined.

(** X16.  In strict mode an answer that [Chatbot.ask] gives on the tool path
    or on the SQL path never shows an empty table: such an answer is
    replaced by the notice that there are no rows.  (The answer of the
    reasoning agent is handed on as it is.) *)
Theorem strict_answers_show_no_empty_table :
  forall (E : py_env) (cfg : Router.flags) (DataFrame W : Type)
         (db_call : Backend.call -> W -> result DataFrame * W)
         (df_empty : DataFrame -> bool) (df_len : DataFrame -> Z)
         (df_sample : DataFrame -> pyval)
         (df_merge : DataFrame -> DataFrame -> option DataFrame)
         (pd : columns DataFrame)
         (agent_run : pystr -> W -> result (Chat.AgentOut DataFrame) * W)
         (rag_search : pystr -> W -> result pyval * W)
         (SYSTEM_PROMPT : pystr)
         (chat_create : W -> pystr -> pystr -> result pyval)
         (question : pystr) (show_route : bool)
         (s s1 : Backend.sys W) (a : Chat.Answer DataFrame) (t : DataFrame),
    for_the_agent
      (fst (NLRouter.infer E cfg db_call pd SYSTEM_PROMPT chat_create
              question s)) = false ->
    Chat.ask E cfg db_call df_empty df_len df_sample df_merge pd agent_run
      rag_search SYSTEM_PROMPT chat_create question true show_route s
    = (Ok a, s1) ->
    Chat.a_df a = Chat.Table t ->
    df_empty t = false.
Proof.
  intros E cfg DataFrame W db_call df_empty df_len df_sample df_merge pd
    agent_run rag_search SP chat question show s s1 a t Ha H.
  unfold Chat.ask in H. unfold Backend.bindM at 1 in H.
  destruct (NLRouter.infer E cfg db_call pd SP chat question s)
    as [[d|e] s0]; [|discriminate].
  cbn [fst] in Ha. unfold for_the_agent in Ha.
  cbv zeta in H. revert H. destruct (Router.mode d); try discriminate.
  - (* tool *)
    intros H. apply bindM_ok in H as (x & s2 & _ & H).
    cbn [andb] in H. unfold Chat.as_table in H.
    destruct (Chat.df x) as [t'|].
    + destruct (df_empty t') eqn:He; apply ret_ok in H as [-> _];
        cbn; intros Ht; [discriminate|]. now injection Ht as <-.
    + apply ret_ok in H as [-> _]. discriminate.
  - (* sql *)
    unfold Backend.perform.
    destruct (db_call _ _) as [[t'|e] w']; cbn [andb].
    + destruct (df_empty t') eqn:He; intros H; injection H as <- _;
        cbn; intros Ht; [discriminate|]. now injection Ht as <-.
    + intros H; injection H as <- _. discriminate.
  - (* text *)
    intros H. apply ret_ok in H as [-> _]. discriminate.
Qed.

(** The table of the floors has three rows and is shown. *)
Lemma strict_answers_show_no_empty_table_witness :
  Nat.eqb 0 3 = false.
Proof.
  apply (strict_answers_show_no_empty_table ascii_env Router.default_flags
           nat unit three_rows_backend (Nat.eqb 0) Z.of_nat (fun _ => VNone)
           (fun _ _ => None) plain_columns silent_agent
           (fun _ w => (Ok VNone, w)) [] (fun _ _ _ => Ok VNone)
           (u "list floors") false start
           {| Backend.world := tt; Backend.calls := [Backend.list_floors] |}
           {| Chat.a_text := VStr (u "Floors detected.");
              Chat.a_df := Chat.Table 3%nat;
              Chat.a_title := VStr (u "Floors");
              Chat.a_evidence := Some [(u "tool", VStr (u "list_floors"))];
              Chat.a_route := None |}
           3%nat).
  - vm_compute; reflexivity.
  - vm_compute; reflexivity.
  - reflexivity.
Defined.

(** X17.  On the SQL path [Chatbot.ask] does not raise: once the router has
    returned a decision of mode sql, [ask] returns an answer whatever the
    backend does with the statement, and when its execution fails the
    answer is the text "SQL error: " followed by the message, without a
    table. *)
Theorem chatbot_reports_a_failed_query_as_text :
  forall (E : py_env) (cfg : Router.flags) (DataFrame W : Type)
         (db_call : Backend.call -> W -> result DataFrame * W)
         (df_empty : DataFrame -> bool) (df_len : DataFrame -> Z)
         (df_sample : DataFrame -> pyval)
         (df_merge : DataFrame -> DataFrame -> option DataFrame)
         (pd : columns DataFrame)
         (agent_run : pystr -> W -> result (Chat.AgentOut DataFrame) * W)
         (rag_search : pystr -> W -> result pyval * W)
         (SYSTEM_PROMPT : pystr)
         (chat_create : W -> pystr -> pystr -> result pyval)
         (question : pystr) (strict show_route : bool)
         (s s0 : Backend.sys W) (d : Router.Decision) (x : pystr),
    NLRouter.infer E cfg db_call pd SYSTEM_PROMPT chat_create question s
    = (Ok d, s0) ->
    Router.mode d = Router.sql_mode ->
    Router.sql d = Some x ->
    (exists a s1,
       Chat.ask E cfg db_call df_empty df_len df_sample df_merge pd
         agent_run rag_search SYSTEM_PROMPT chat_create question strict
         show_route s = (Ok a, s1))
    /\ (forall e w',
          db_call (Backend.execute_sql x) (Backend.world s0)
          = (Raise e, w') ->
          Chat.ask E cfg db_call df_empty df_len df_sample df_merge pd
            agent_run rag_search SYSTEM_PROMPT chat_create question strict
            show_route s
          = (Ok {| Chat.a_text := VStr (u "SQL error: " ++ str_exn E e);
                   Chat.a_df := Chat.NoTable; Chat.a_title := VNone;
                   Chat.a_evidence := None;
                   Chat.a_route :=
                     if show_route
                     then Some (Router.sql_mode, Router.trace d) else None |},
             {| Backend.world := w';
                Backend.calls :=
                  Backend.calls s0 ++ [Backend.execute_sql x] |})).
Proof.
  intros E cfg DataFrame W db_call df_empty df_len df_sample df_merge pd
    agent_run rag_search SP chat question strict show s s0 d x Hi Hm Hs.
  split; [|intros e w' Hd];
    unfold Chat.ask; unfold Backend.bindM at 1;
    rewrite Hi; cbv zeta; rewrite Hm, Hs; unfold Backend.perform.
  - destruct (db_call _ _) as [[t|e] w'].
    + destruct (strict && df_empty t); eexists _, _; reflexivity.
    + eexists _, _; reflexivity.
  - rewrite Hd. reflexivity.
Qed.

(** The language model answers "hello" with a statement and the backend
    fails on every request: the dynamic context is empty, and the answer
    reports the failure of the statement. *)
Lemma chatbot_reports_a_failed_query_as_text_witness :
  (exists a s1,
     Chat.ask ascii_env Router.default_flags failing_backend (Nat.eqb 0)
       Z.of_nat (fun _ => VNone) (fun _ _ => None) plain_columns
       silent_agent (fun _ w => (Ok VNone, w)) []
       (fun _ _ _ => Ok sql_reply) (u "hello") true true start
     = (Ok a, s1))
  /\ Chat.ask ascii_env Router.default_flags failing_backend (Nat.eqb 0)
       Z.of_nat (fun _ => VNone) (fun _ _ => None) plain_columns
       silent_agent (fun _ w => (Ok VNone, w)) []
       (fun _ _ _ => Ok sql_reply) (u "hello") true true start
     = (Ok {| Chat.a_text := VStr (u "SQL error: no such table");
              Chat.a_df := Chat.NoTable; Chat.a_title := VNone;
              Chat.a_evidence := None;
              Chat.a_route :=
                Some (Router.sql_mode, u "llm: sql_fallback") |},
        {| Backend.world := tt;
           Backend.calls :=
             [Backend.list_floors;
              Backend.execute_sql NLRouter.space_types_sql;
              Backend.execute_sql
                (u "SELECT * FROM (select 1 from t) AS _t LIMIT 500")] |}).
Proof.
  pose proof (chatbot_reports_a_failed_query_as_text ascii_env
                Router.default_flags nat unit failing_backend (Nat.eqb 0)
                Z.of_nat (fun _ => VNone) (fun _ _ => None)
                plain_columns silent_agent
                (fun _ w => (Ok VNone, w)) []
                (fun _ _ _ => Ok sql_reply) (u "hello") true true start
                {| Backend.world := tt;
                   Backend.calls :=
                     [Backend.list_floors;
                      Backend.execute_sql NLRouter.space_types_sql] |}
                (Router.mkDecision Router.sql_mode VNone VNone
                   (Some (u "SELECT * FROM (select 1 from t) AS _t LIMIT 500"))
                   None (u "llm: sql_fallback"))
                (u "SELECT * FROM (select 1 from t) AS _t LIMIT 500")) as H.
  destruct H as [H1 H2]; [vm_compute; reflexivity | reflexivity | reflexivity |].
  split; [exact H1|].
  rewrite (H2 (Raised OtherError (u "no such table")) tt eq_refl).
  vm_compute; reflexivity.
Defined.

(** ** The matcher on runs of one class *)

Section Runs.
Variable E : py_env.
Variable fl : re_flags.

Lemma rmatch_rep (lo : nat) (hi : option nat) (g : bool) (r : regex)
      (st : mstate) (k : mstate -> option mstate) :
  rmatch E fl (RRep lo hi g r) st k
  = rep_loop E fl r lo g k
      (match hi with Some h => h | None => List.length (m_rest st) end) O st.
Proof. reflexivity. Qed.

Lemma rep_loop_O (r : regex) (lo : nat) (g : bool)
      (k : mstate -> option mstate) (i : nat) (st : mstate) :
  rep_loop E fl r lo g k O i st = if (lo <=? i)%nat then k st else None.
Proof. reflexivity. Qed.

Lemma rep_loop_S (r : regex) (lo : nat) (g : bool)
      (k : mstate -> option mstate) (fuel i : nat) (st : mstate) :
  rep_loop E fl r lo g k (S fuel) i st
  = let next := fun st' => if shorter st' st
                           then rep_loop E fl r lo g k fuel (S i) st'
                           else None in
    let here := if (lo <=? i)%nat then k st else None in
    if g then match rmatch E fl r st next with
              | Some x => Some x
              | None => here
              end
    else match here with
         | Some x => Some x
         | None => rmatch E fl r st next
         end.
Proof. reflexivity. Qed.

Lemma rmatch_cls (c0 : cls) (st : mstate) (k : mstate -> option mstate) :
  rmatch E fl (RCls c0) st k
  = match m_rest st with
    | [] => None
    | c :: t =>
        if cls_match E fl c0 c
        then k {| m_prev := Some c; m_rest := t; m_groups := m_groups st |}
        else None
    end.
Proof. cbn. unfold advance. now destruct (m_rest st). Qed.

Lemma after_nil (st : mstate) : after [] st (m_rest st) = st.
Proof. now destruct st. Qed.

(** A greedy loop over a class reads the longest run, and what follows
    the run is tried first. *)
Lemma rep_greedy_commit (c0 : cls) (lo : nat)
      (k : mstate -> option mstate) (x : mstate) (t : pystr) :
  match t with [] => True | c :: _ => cls_match E fl c0 c = false end ->
  forall (ws : pystr) (fuel i : nat) (st : mstate),
    m_rest st = ws ++ t ->
    Forall (fun c => cls_match E fl c0 c = true) ws ->
    (List.length ws <= fuel)%nat ->
    (lo <= i + List.length ws)%nat ->
    k (after ws st t) = Some x ->
    rep_loop E fl (RCls c0) lo true k fuel i st = Some x.
Proof.
  intros Ht. induction ws as [|c ws IH]; intros fuel i st Hr Hw Hf Hlo Hk.
  - cbn in Hr, Hlo. rewrite <- Hr, after_nil in Hk.
    assert (Hi : (lo <=? i)%nat = true) by (apply Nat.leb_le; lia).
    destruct fuel; [now rewrite rep_loop_O, Hi|].
    rewrite rep_loop_S. cbv zeta. rewrite Hi, rmatch_cls, Hr.
    destruct t as [|c t]; [exact Hk|]. now rewrite Ht.
  - cbn in Hf. destruct fuel as [|fuel]; [lia|].
    inversion Hw as [|? ? Hc Hw']; subst.
    rewrite rep_loop_S. cbv zeta. rewrite rmatch_cls, Hr. cbn [app].
    rewrite Hc. unfold shorter at 1. cbn [m_rest]. rewrite Hr.
    cbn [List.length app].
    rewrite (proj2 (Nat.ltb_lt _ _)) by lia.
    erewrite IH;
      [reflexivity | reflexivity | exact Hw' | lia | cbn in *; lia | exact Hk].
Qed.

(** Whatever a loop over a class returns, the continuation returned it
    after a run of the class. *)
Lemma rep_cls_inv (c0 : cls) (lo : nat) (g : bool)
      (k : mstate -> option mstate) (x : mstate) :
  forall (fuel i : nat) (st : mstate),
    rep_loop E fl (RCls c0) lo g k fuel i st = Some x ->
    exists ws t,
      m_rest st = ws ++ t
      /\ Forall (fun c => cls_match E fl c0 c = true) ws
      /\ (lo <= i + List.length ws)%nat
      /\ k (after ws st t) = Some x.
Proof.
  assert (Here : forall i st, (if (lo <=? i)%nat then k st else None) = Some x ->
            exists ws t, m_rest st = ws ++ t
              /\ Forall (fun c => cls_match E fl c0 c = true) ws
              /\ (lo <= i + List.length ws)%nat
              /\ k (after ws st t) = Some x).
  { intros i st H. destruct (lo <=? i)%nat eqn:Hi; [|discriminate].
    apply Nat.leb_le in Hi. exists [], (m_rest st).
    rewrite after_nil. repeat split; [constructor | cbn; lia | exact H]. }
  induction fuel as [|fuel IH]; intros i st H;
    [rewrite rep_loop_O in H; now apply Here|].
  rewrite rep_loop_S in H. cbv zeta in H.
  assert (Step : rmatch E fl (RCls c0) st
                   (fun st' => if shorter st' st
                               then rep_loop E fl (RCls c0) lo g k fuel (S i) st'
                               else None) = Some x ->
            exists ws t, m_rest st = ws ++ t
              /\ Forall (fun c => cls_match E fl c0 c = true) ws
              /\ (lo <= i + List.length ws)%nat
              /\ k (after ws st t) = Some x).
  { rewrite rmatch_cls. destruct (m_rest st) as [|c t0] eqn:Hr; [discriminate|].
    destruct (cls_match E fl c0 c) eqn:Hc; [|discriminate].
    destruct (shorter _ st); [|discriminate]. intros H1.
    apply IH in H1 as (ws & t & Hr1 & Hw & Hlo & Hk). cbn in Hr1. subst t0.
    exists (c :: ws), t. repeat split.
    - now constructor.
    - cbn; lia.
    - exact Hk. }
  destruct g.
  - destruct (rmatch E fl (RCls c0) st _) eqn:H1.
    + injection H as ->. now apply Step.
    + now apply Here.
  - destruct (if (lo <=? i)%nat then k st else None) eqn:H0.
    + injection H as ->. now apply Here.
    + now apply Step.
Qed.

End Runs.

(** ** Integers and their text *)

Lemma uint_cps_digits (d : Decimal.uint) :
  Forall (fun c => In c digit_chars) (uint_cps d).
Proof.
  induction d; cbn [uint_cps]; constructor; try assumption; in_list.
Qed.

Section IntText.
Variable E : py_env.

Lemma digit_is_digit (c : N) : In c digit_chars -> is_digit E c = true.
Proof.
  intros H. vm_compute in H.
  repeat (destruct H as [<-|H]; [reflexivity|]). contradiction.
Qed.

Lemma digit_not_space (c : N) : In c digit_chars -> is_space E c = false.
Proof.
  intros H. vm_compute in H.
  repeat (destruct H as [<-|H]; [reflexivity|]). contradiction.
Qed.

Lemma digit_not_sign (c : N) : In c digit_chars -> is_sign c = false.
Proof.
  intros H. vm_compute in H.
  repeat (destruct H as [<-|H]; [reflexivity|]). contradiction.
Qed.

Lemma digits_value_acc (d : Decimal.uint) (p : positive) :
  digits_value E (Zpos p) true (uint_cps d)
  = Some (Zpos (Pos.of_uint_acc d p)).
Proof.
  revert p. induction d; intros p; cbn [uint_cps Pos.of_uint_acc];
    [reflexivity | ..].
  all: cbn [digits_value];
    match goal with |- context [decimal_value E ?c] =>
      let v := eval vm_compute in (decimal_value ascii_env c) in
      change (decimal_value E c) with v end;
    cbv iota;
    match goal with |- digits_value E ?a true _ = Some (Zpos (Pos.of_uint_acc _ ?q)) =>
      replace a with (Zpos q) by lia end;
    apply IHd.
Qed.

Lemma digits_value_zero (d : Decimal.uint) :
  digits_value E 0 true (uint_cps d) = Some (Z.of_N (Pos.of_uint d)).
Proof.
  induction d; cbn [uint_cps Pos.of_uint]; [reflexivity | ..].
  all: cbn [digits_value];
    match goal with |- context [decimal_value E ?c] =>
      let v := eval vm_compute in (decimal_value ascii_env c) in
      change (decimal_value E c) with v end;
    cbv iota; cbn [Z.mul Z.add Z.of_N];
    first [exact IHd | apply digits_value_acc].
Qed.

Lemma digits_value_start (d : Decimal.uint) :
  d <> Decimal.Nil ->
  digits_value E 0 false (uint_cps d) = Some (Z.of_N (Pos.of_uint d)).
Proof.
  intros Hd. rewrite <- digits_value_zero.
  destruct d; [now elim Hd | ..]; reflexivity.
Qed.

Lemma lstrip_unspaced (s : pystr) :
  match s with [] => True | c :: _ => is_space E c = false end ->
  lstrip E s = s.
Proof. destruct s as [|c s]; [reflexivity|]. apply lstrip_keep. Qed.

Lemma strip_unspaced (s : pystr) :
  Forall (fun c => is_space E c = false) s -> strip E s = s.
Proof.
  intros H. unfold strip, rstrip.
  rewrite (lstrip_unspaced s)
    by (destruct H as [|? ? Hc _]; [exact I | exact Hc]).
  rewrite lstrip_unspaced, rev_involutive; [reflexivity|].
  apply Forall_rev in H. destruct H as [|? ? Hc _]; [exact I | exact Hc].
Qed.

Lemma uint_unspaced (d : Decimal.uint) :
  Forall (fun c => is_space E c = false) (uint_cps d).
Proof.
  eapply Forall_impl; [|apply uint_cps_digits]. apply digit_not_space.
Qed.

Lemma int_of_uint (d : Decimal.uint) :
  d <> Decimal.Nil ->
  int_of_str E (uint_cps d) = Ok (Z.of_N (Pos.of_uint d)).
Proof.
  intros Hd. unfold int_of_str. rewrite strip_unspaced by apply uint_unspaced.
  pose proof (digits_value_start d Hd) as Hv.
  destruct d; [now elim Hd | ..]; cbn [uint_cps] in *; now rewrite Hv.
Qed.

Lemma int_of_neg_uint (d : Decimal.uint) :
  d <> Decimal.Nil ->
  int_of_str E (45%N :: uint_cps d) = Ok (- Z.of_N (Pos.of_uint d))%Z.
Proof.
  intros Hd. unfold int_of_str.
  rewrite strip_unspaced
    by (constructor; [reflexivity | apply uint_unspaced]).
  now rewrite (digits_value_start d Hd).
Qed.

(** [int(str(n)) == n] *)
Lemma int_of_str_of_int (n : Z) : int_of_str E (str_of_int n) = Ok n.
Proof.
  unfold str_of_int. destruct n as [|p|p]; cbn [Z.to_int].
  - reflexivity.
  - rewrite int_of_uint by apply DecimalPos.Unsigned.to_uint_nonnil.
    now rewrite DecimalPos.Unsigned.of_to.
  - rewrite int_of_neg_uint by apply DecimalPos.Unsigned.to_uint_nonnil.
    now rewrite DecimalPos.Unsigned.of_to.
Qed.

(** The text of an integer: an optional minus sign, then digits. *)
Lemma str_of_int_split (n : Z) :
  exists sg ds,
    str_of_int n = sg ++ ds
    /\ (sg = [] \/ sg = [45%N])
    /\ ds <> []
    /\ Forall (fun c => In c digit_chars) ds.
Proof.
  unfold str_of_int. destruct (Z.to_int n) as [d|d] eqn:Hn.
  - exists [], (uint_cps d). repeat split; [now left | | apply uint_cps_digits].
    apply uint_cps_nonempty.
    destruct n; cbn in Hn; try discriminate; injection Hn as <-;
      try discriminate; apply DecimalPos.Unsigned.to_uint_nonnil.
  - exists [45%N], (uint_cps d).
    repeat split; [now right | | apply uint_cps_digits].
    apply uint_cps_nonempty. destruct n; cbn in Hn; try discriminate.
    injection Hn as <-. apply DecimalPos.Unsigned.to_uint_nonnil.
Qed.

End IntText.

(** ** The floor token of the database client *)

Section FloorToken.
Variable E : py_env.

Lemma rmatch_seq (fl : re_flags) (r1 r2 : regex) (st : mstate)
      (k : mstate -> option mstate) :
  rmatch E fl (RSeq r1 r2) st k
  = rmatch E fl r1 st (fun st' => rmatch E fl r2 st' k).
Proof. reflexivity. Qed.

Lemma rmatch_group (fl : re_flags) (n : nat) (r : regex) (st : mstate)
      (k : mstate -> option mstate) :
  rmatch E fl (RGroup n r) st k
  = rmatch E fl r st (fun st' => k (set_group n st st')).
Proof. reflexivity. Qed.

Lemma cls_sign (c : N) :
  cls_match E no_flags (CSet (u "+-")) c = is_sign c.
Proof.
  change (u "+-") with [43%N; 45%N]. unfold is_sign. cbn.
  now rewrite orb_false_r.
Qed.

Lemma token_unfold (st : mstate) (k : mstate -> option mstate) :
  rmatch E no_flags DuckDBClient.re_floor_token st k
  = rep_loop E no_flags (RCls CSpace) 0 true
      (fun st1 =>
         rep_loop E no_flags (RCls (CSet (u "+-"))) 0 true
           (fun st2 =>
              rep_loop E no_flags (RCls CDigit) 1 true
                (fun st3 =>
                   rep_loop E no_flags (RCls CSpace) 0 true k
                     (List.length (m_rest (set_group 1 st1 st3))) 0
                     (set_group 1 st1 st3))
                (List.length (m_rest st2)) 0 st2)
           1 0 st1)
      (List.length (m_rest st)) 0 st.
Proof. reflexivity. Qed.

Lemma firstn_prefix (a b : pystr) :
  firstn (List.length (a ++ b) - List.length b) (a ++ b) = a.
Proof.
  rewrite length_app, Nat.add_sub.
  rewrite firstn_app, Nat.sub_diag, firstn_all. cbn. apply app_nil_r.
Qed.

(** A text made of white space, an optional sign, digits and white space
    is matched in full, and the group is the sign with the digits. *)
Lemma fullmatch_token (ws1 sg ds ws2 : pystr) :
  Forall (fun c => is_space E c = true) ws1 ->
  Forall (fun c => is_sign c = true) sg -> (List.length sg <= 1)%nat ->
  Forall (fun c => is_digit E c = true) ds -> ds <> [] ->
  match sg ++ ds with [] => True | c :: _ => is_space E c = false end ->
  match ds with [] => True | c :: _ => is_sign c = false end ->
  Forall (fun c => is_space E c = true) ws2 ->
  match ws2 with [] => True | c :: _ => is_digit E c = false end ->
  re_fullmatch E no_flags DuckDBClient.re_floor_token
    (ws1 ++ sg ++ ds ++ ws2)
  = Some [(1%nat, sg ++ ds)].
Proof.
  intros H1 H2 L2 H3 N3 M1 M2 H4 M3.
  unfold re_fullmatch. rewrite token_unfold.
  match goal with |- match ?m with _ => _ end = _ =>
    assert (X : exists x, m = Some x /\ m_groups x = [(1%nat, sg ++ ds)]);
      [|destruct X as (x & -> & ->); reflexivity] end.
  eexists. split.
  - eapply (rep_greedy_commit E no_flags CSpace 0 _ _ (sg ++ ds ++ ws2))
      with (ws := ws1);
      [ | reflexivity | exact H1 | cbn [m_rest]; rewrite length_app; lia
        | lia | ].
    { rewrite app_assoc. destruct (sg ++ ds) as [|c t] eqn:Hsd.
      - apply app_eq_nil in Hsd as [_ ->]. now elim N3.
      - exact M1. }
    eapply (rep_greedy_commit E no_flags (CSet (u "+-")) 0 _ _ (ds ++ ws2))
      with (ws := sg);
      [ | reflexivity | | exact L2 | lia | ].
    { destruct ds as [|c t]; [now elim N3|]. cbn [app].
      now rewrite cls_sign. }
    { eapply Forall_impl; [|exact H2]. intros c Hc. now rewrite cls_sign. }
    eapply (rep_greedy_commit E no_flags CDigit 1 _ _ ws2) with (ws := ds);
      [ | reflexivity | exact H3
        | cbn [m_rest after]; rewrite length_app; lia
        | destruct ds; [now elim N3 | cbn; lia] | ].
    { destruct ws2 as [|c t]; [exact I | exact M3]. }
    eapply (rep_greedy_commit E no_flags CSpace 0 _ _ []) with (ws := ws2);
      [ exact I | cbn [set_group m_rest after]; now rewrite app_nil_r
        | exact H4 | cbn [set_group m_rest after]; lia | lia | reflexivity].
  - cbn [m_groups after set_group m_rest]. do 3 f_equal.
    rewrite (app_assoc sg ds ws2). apply firstn_prefix.
Qed.

(** Whatever the pattern matches in full is made of white space, signs
    and digits. *)
Lemma fullmatch_token_chars (s : pystr) (m : list (nat * pystr)) :
  re_fullmatch E no_flags DuckDBClient.re_floor_token s = Some m ->
  Forall (fun c => is_space E c = true \/ is_sign c = true
                   \/ is_digit E c = true) s.
Proof.
  unfold re_fullmatch. rewrite token_unfold.
  destruct (rep_loop _ _ _ _ _ _ _ _ _) as [x|] eqn:H; [|discriminate].
  intros _.
  apply rep_cls_inv in H as (ws1 & t1 & R1 & F1 & _ & H).
  apply rep_cls_inv in H as (sg & t2 & R2 & F2 & _ & H).
  apply rep_cls_inv in H as (ds & t3 & R3 & F3 & _ & H).
  apply rep_cls_inv in H as (ws2 & t4 & R4 & F4 & _ & H).
  cbn [m_rest after set_group] in *. subst.
  unfold at_end in H. cbn [m_rest after] in H.
  destruct t4; [|discriminate]. rewrite app_nil_r.
  repeat (apply Forall_app; split).
  - eapply Forall_impl; [|exact F1]. cbn. auto.
  - eapply Forall_impl; [|exact F2]. intros c Hc.
    cbv beta in Hc. rewrite cls_sign in Hc. auto.
  - eapply Forall_impl; [|exact F3]. cbn. auto.
  - eapply Forall_impl; [|exact F4]. cbn. auto.
Qed.

End FloorToken.

Section FloorWhere.
Variable E : py_env.

Lemma py_or_str (s : pystr) : py_or (VStr s) (VStr []) = VStr s.
Proof. now destruct s. Qed.

Lemma parse_floor_token_int (n : Z) (ws1 ws2 : pystr) :
  Forall (fun c => is_space E c = true) ws1 ->
  Forall (fun c => is_space E c = true /\ is_digit E c = false) ws2 ->
  DuckDBClient._parse_floor_token E (VStr (ws1 ++ str_of_int n ++ ws2))
  = Ok (Some n).
Proof.
  intros H1 H2. unfold DuckDBClient._parse_floor_token.
  rewrite py_or_str.
  pose proof (int_of_str_of_int E n) as Hn.
  destruct (str_of_int_split n) as (sg & ds & Hs & Hg & Nd & Fd).
  rewrite Hs in *. rewrite <- app_assoc.
  rewrite fullmatch_token; cbn [grp group Nat.eqb].
  - now rewrite Hn.
  - exact H1.
  - destruct Hg as [->| ->]; repeat constructor.
  - destruct Hg as [->| ->]; cbn; lia.
  - eapply Forall_impl; [|exact Fd]. apply digit_is_digit.
  - exact Nd.
  - destruct Hg as [->| ->]; [|reflexivity].
    destruct Fd as [|c t Hc _]; [exact I|]. cbn.
    now apply digit_not_space.
  - destruct Fd as [|c t Hc _]; [exact I|]. now apply digit_not_sign.
  - eapply Forall_impl; [|exact H2]. now intros c [Hc _].
  - destruct H2 as [|c t [_ Hc] _]; [exact I | exact Hc].
Qed.

Lemma parse_floor_token_name (s : pystr) (c : N) :
  In c s -> is_space E c = false -> is_sign c = false ->
  is_digit E c = false ->
  DuckDBClient._parse_floor_token E (VStr s) = Ok None.
Proof.
  intros Hin H1 H2 H3. unfold DuckDBClient._parse_floor_token.
  rewrite py_or_str.
  destruct (re_fullmatch E no_flags DuckDBClient.re_floor_token s)
    as [m|] eqn:Hm; [|reflexivity].
  apply fullmatch_token_chars in Hm. rewrite Forall_forall in Hm.
  destruct (Hm c Hin) as [H|[H|H]]; congruence.
Qed.

End FloorWhere.

(** X18.  A floor given as the decimal text of an integer, with any white space
    around it, is compared as a number: the condition is the one on the
    numeric floor and its parameter is that integer.  (The bound is the
    interpreter's default cap on the digits of an integer's text, which the
    model does not have.) *)
Theorem numeric_floor_is_compared_as_a_number :
  forall (E : py_env) (n : Z) (ws1 ws2 : pystr),
    (Z.abs n < 10 ^ 4300)%Z ->
    Forall (fun c => is_space E c = true) ws1 ->
    Forall (fun c => is_space E c = true /\ is_digit E c = false) ws2 ->
    DuckDBClient._parse_floor_token E (VStr (ws1 ++ str_of_int n ++ ws2))
    = Ok (Some n)
    /\ DuckDBClient._floor_where E (VStr (ws1 ++ str_of_int n ++ ws2))
       = Ok (DuckDBClient.numeric_floor, [VInt n]).
Proof.
  intros E n ws1 ws2 _ H1 H2.
  pose proof (parse_floor_token_int E n ws1 ws2 H1 H2) as H.
  split; [exact H|]. unfold DuckDBClient._floor_where. now rewrite H.
Qed.

Lemma numeric_floor_is_compared_as_a_number_witness :
  DuckDBClient._parse_floor_token ascii_env (VStr (u " -2" ++ [10%N]))
  = Ok (Some (-2)%Z)
  /\ DuckDBClient._floor_where ascii_env (VStr (u " -2" ++ [10%N]))
     = Ok (DuckDBClient.numeric_floor, [VInt (-2)]).
Proof.
  apply (numeric_floor_is_compared_as_a_number ascii_env (-2) (u " ")
           [10%N]).
  - reflexivity.
  - repeat constructor.
  - repeat constructor.
Defined.

(** X19.  A floor whose text holds a character that is neither white space, nor
    a sign, nor a digit is compared by name: the condition is the one on
    the name of the storey and its parameter is the text, trimmed. *)
Theorem named_floor_is_compared_by_name :
  forall (E : py_env) (s : pystr) (c : N),
    In c s -> is_space E c = false -> is_sign c = false ->
    is_digit E c = false ->
    DuckDBClient._parse_floor_token E (VStr s) = Ok None
    /\ DuckDBClient._floor_where E (VStr s)
       = Ok (DuckDBClient.named_floor, [VStr (strip E s)]).
Proof.
  intros E s c Hin H1 H2 H3.
  pose proof (parse_floor_token_name E s c Hin H1 H2 H3) as H.
  split; [exact H|]. unfold DuckDBClient._floor_where. now rewrite H.
Qed.

Lemma named_floor_is_compared_by_name_witness :
  DuckDBClient._parse_floor_token ascii_env (VStr (u " Floor 3 ")) = Ok None
  /\ DuckDBClient._floor_where ascii_env (VStr (u " Floor 3 "))
     = Ok (DuckDBClient.named_floor, [VStr (u "Floor 3")]).
Proof.
  apply (named_floor_is_compared_by_name ascii_env (u " Floor 3 ") 70%N).
  - in_list.
  - reflexivity.
  - reflexivity.
  - reflexivity.
Defined.

(** X20.  A floor that is not a string is not looked up: for a value that
    counts as true (the integer 3, say, as a language model may send it)
    the pattern match raises [TypeError]; for one that counts as false
    ([None], 0) no number is found and trimming it raises
    [AttributeError]. *)
Theorem floor_that_is_no_string_raises :
  forall (E : py_env) (floor : pyval),
    is_str floor = false ->
    exists e,
      DuckDBClient._floor_where E floor = Raise e
      /\ exn_kind_of e = if truthy floor then TypeError else AttributeError.
Proof.
  intros E floor Hs. unfold DuckDBClient._floor_where,
    DuckDBClient._parse_floor_token, py_or.
  destruct (truthy floor) eqn:Ht.
  - destruct floor; try discriminate; cbn [bind]; eexists; split;
      try reflexivity.
  - change (re_fullmatch E no_flags DuckDBClient.re_floor_token [])
      with (@None (list (nat * pystr))).
    destruct floor; try discriminate; cbn [bind]; eexists; split;
      try reflexivity.
Qed.

Lemma floor_that_is_no_string_raises_witness :
  exists e,
    DuckDBClient._floor_where ascii_env (VInt 3) = Raise e
    /\ exn_kind_of e = TypeError.
Proof.
  apply (floor_that_is_no_string_raises ascii_env (VInt 3)). reflexivity.
Defined.

(** ** What the pattern matcher hands to the dispatchers *)

Lemma nonempty_some (o : option pystr) (fl : pystr) :
  Router.nonempty o = Some fl -> fl <> [].
Proof.
  destruct o as [[|c s]|]; cbn; try discriminate.
  intros H; injection H as <-. discriminate.
Qed.

Section Dispatchable.
Variable E : py_env.

Ltac not_a_floor_tool :=
  let H := fresh in
  intros H; vm_compute in H;
  repeat (destruct H as [H|H]; [discriminate H|]); destruct H.

Ltac tool_named :=
  eexists _, _; split; [reflexivity|]; split; [reflexivity|];
  split; [in_list|].

Lemma free_meeting_rooms_dispatchable (qn : pystr) (d : Router.Decision) :
  Router.free_meeting_rooms_block E qn = Some d -> dispatchable d.
Proof.
  unfold Router.free_meeting_rooms_block.
  destruct (_ && _ && _); [|discriminate].
  destruct (Router.nonempty _) as [fl|] eqn:Hf; [|discriminate].
  intros H; injection H as <-. tool_named. intros _.
  exists fl. split; [reflexivity | eapply nonempty_some, Hf].
Qed.

Lemma utilization_by_floor_dispatchable (qn : pystr) (d : Router.Decision) :
  Router.utilization_by_floor_block E qn = Ok (Some d) -> dispatchable d.
Proof.
  unfold Router.utilization_by_floor_block.
  destruct (_ && _); [|discriminate].
  destruct (Router._parse_days_hours E qn); cbn [bind]; [|discriminate].
  intros H; injection H as <-. tool_named. not_a_floor_tool.
Qed.

Lemma utilization_floor_dispatchable (qn : pystr) (d : Router.Decision) :
  Router.utilization_floor_block E qn = Ok (Some d) -> dispatchable d.
Proof.
  unfold Router.utilization_floor_block.
  destruct (re_found _ _ _ _); [|discriminate].
  destruct (Router.nonempty _) as [fl|] eqn:Hf; [|discriminate].
  destruct (Router._parse_days_hours E qn); cbn [bind]; [|discriminate].
  intros H; injection H as <-. tool_named. intros _.
  exists fl. split; [reflexivity | eapply nonempty_some, Hf].
Qed.

Lemma busiest_rooms_dispatchable (qn : pystr) (d : Router.Decision) :
  Router.busiest_rooms_block E qn = Ok (Some d) -> dispatchable d.
Proof.
  unfold Router.busiest_rooms_block.
  destruct (_ || _ || _ || _); [|discriminate].
  destruct (Router._parse_days_hours E qn); cbn [bind]; [|discriminate].
  intros H; injection H as <-. tool_named. not_a_floor_tool.
Qed.

Lemma underused_rooms_dispatchable (qn : pystr) (d : Router.Decision) :
  Router.underused_rooms_block E qn = Ok (Some d) -> dispatchable d.
Proof.
  unfold Router.underused_rooms_block.
  destruct (_ || _ || _ || _); [|discriminate].
  destruct (Router._parse_days_hours E qn); cbn [bind]; [|discriminate].
  destruct (Router._parse_threshold_percent E qn); cbn [bind];
    [|discriminate].
  intros H; injection H as <-. tool_named. not_a_floor_tool.
Qed.

Lemma plan_coffee_machines_dispatchable (qn : pystr) (d : Router.Decision) :
  Router.plan_coffee_machines_block E qn = Ok (Some d) -> dispatchable d.
Proof.
  unfold Router.plan_coffee_machines_block.
  destruct (_ && _); [|discriminate].
  destruct (Router._parse_days_hours E qn); cbn [bind]; [|discriminate].
  destruct (Router._parse_int E qn); cbn [bind]; [|discriminate].
  intros H; injection H as <-. tool_named. not_a_floor_tool.
Qed.

Lemma fast_intent_dispatchable (q : pystr) (d : Router.Decision) :
  Router._fast_intent E q = Ok (Some d) -> dispatchable d.
Proof.
  unfold Router._fast_intent. cbv zeta.
  destruct (Router._intent_list_floors E q).
  { intros H; injection H as <-. tool_named. not_a_floor_tool. }
  destruct (Router._intent_rooms_on_floor E q) as [[fl|]|]; cbn [bind];
    [ | | discriminate].
  { intros H; injection H as <-. tool_named. intros _.
    exists (str_of_int fl). split; [reflexivity | apply str_of_int_nonempty]. }
  unfold Router.or_else.
  destruct (Router.free_meeting_rooms_block E _) eqn:H1.
  { intros H; injection H as <-. eapply free_meeting_rooms_dispatchable, H1. }
  destruct (Router.utilization_by_floor_block E _) as [[d2|]|] eqn:H2;
    [intros H; injection H as <-;
     eapply utilization_by_floor_dispatchable, H2 | | discriminate].
  destruct (Router.utilization_floor_block E _) as [[d3|]|] eqn:H3;
    [intros H; injection H as <-;
     eapply utilization_floor_dispatchable, H3 | | discriminate].
  destruct (Router.busiest_rooms_block E _) as [[d4|]|] eqn:H4;
    [intros H; injection H as <-;
     eapply busiest_rooms_dispatchable, H4 | | discriminate].
  destruct (Router.underused_rooms_block E _) as [[d5|]|] eqn:H5;
    [intros H; injection H as <-;
     eapply underused_rooms_dispatchable, H5 | | discriminate].
  destruct (Router.plan_coffee_machines_block E _) as [[d6|]|] eqn:H6;
    [intros H; injection H as <-;
     eapply plan_coffee_machines_dispatchable, H6 | | discriminate].
  discriminate.
Qed.

End Dispatchable.

(** X21.  Every decision of the pattern matcher can be run by both dispatchers:
    it names a tool that both know and carries an argument dictionary,
    and when the tool reads its floor with [args["floor"]] the dictionary
    holds a floor, a non-empty string. *)
Theorem pattern_decisions_can_be_dispatched :
  forall (E : py_env) (q : pystr) (d : Router.Decision),
    Router._fast_intent E q = Ok (Some d) ->
    exists nm a,
      Router.name d = VStr nm /\ Router.args d = VDict a
      /\ In nm agent_tools
      /\ known agent_tools (VStr nm) = true
      /\ known chat_tools (VStr nm) = true
      /\ (In nm floor_tools ->
          exists fl, dict_get (u "floor") a = Some (VStr fl) /\ fl <> []).
Proof.
  intros E q d H. apply fast_intent_dispatchable in H
    as (nm & a & Hn & Ha & Hin & Hf).
  exists nm, a. repeat split; try assumption.
  - unfold known. apply existsb_exists. exists nm.
    split; [exact Hin | apply str_eqb_refl].
  - unfold known, chat_tools. apply existsb_exists. exists nm.
    split; [apply in_or_app; now left | apply str_eqb_refl].
Qed.

Lemma pattern_decisions_can_be_dispatched_witness :
  exists nm a,
    VStr (u "utilization_floor") = VStr nm
    /\ VDict [(u "floor", VStr (u "3")); (u "days", VInt 14)] = VDict a
    /\ In nm agent_tools
    /\ known agent_tools (VStr nm) = true
    /\ known chat_tools (VStr nm) = true
    /\ (In nm floor_tools ->
        exists fl, dict_get (u "floor") a = Some (VStr fl) /\ fl <> []).
Proof.
  apply (pattern_decisions_can_be_dispatched ascii_env
           (u "utilization of floor 3 last 2 weeks")
           (Router.tool_decision (u "utilization_floor")
              [(u "floor", VStr (u "3")); (u "days", VInt 14)]
              (u "fast_intent: utilization_floor floor=3 days=14"))).
  vm_compute; reflexivity.
Defined.

Section BlockNames.
Variable E : py_env.

(** The tools of the blocks that follow the first two of the pattern
    matcher. *)
Let later_tools : list pystr :=
  [u "free_meeting_rooms_now"; u "utilization_by_floor";
   u "utilization_floor"; u "busiest_rooms"; u "underused_rooms";
   u "plan_coffee_machines"].

Ltac named_in_list :=
  let H := fresh in
  intros H; injection H as <-; eexists; split; [reflexivity | in_list].

Lemma later_blocks_names (qn : pystr) (d : Router.Decision) :
  Router.or_else (Ok (Router.free_meeting_rooms_block E qn))
    (fun _ => Router.or_else (Router.utilization_by_floor_block E qn)
    (fun _ => Router.or_else (Router.utilization_floor_block E qn)
    (fun _ => Router.or_else (Router.busiest_rooms_block E qn)
    (fun _ => Router.or_else (Router.underused_rooms_block E qn)
    (fun _ => Router.or_else (Router.plan_coffee_machines_block E qn)
    (fun _ => Ok None)))))) = Ok (Some d) ->
  exists nm, Router.name d = VStr nm /\ In nm later_tools.
Proof.
  unfold Router.or_else.
  destruct (Router.free_meeting_rooms_block E qn) as [d1|] eqn:H1.
  { intros H; injection H as <-. revert H1.
    unfold Router.free_meeting_rooms_block.
    destruct (_ && _ && _); [|discriminate].
    destruct (Router.nonempty _); [|discriminate]. named_in_list. }
  destruct (Router.utilization_by_floor_block E qn) as [[d2|]|] eqn:H2;
    [ | | discriminate].
  { intros H; injection H as <-. revert H2.
    unfold Router.utilization_by_floor_block.
    destruct (_ && _); [|discriminate].
    destruct (Router._parse_days_hours E qn); cbn [bind]; [|discriminate].
    named_in_list. }
  destruct (Router.utilization_floor_block E qn) as [[d3|]|] eqn:H3;
    [ | | discriminate].
  { intros H; injection H as <-. revert H3.
    unfold Router.utilization_floor_block.
    destruct (re_found _ _ _ _); [|discriminate].
    destruct (Router.nonempty _); [|discriminate].
    destruct (Router._parse_days_hours E qn); cbn [bind]; [|discriminate].
    named_in_list. }
  destruct (Router.busiest_rooms_block E qn) as [[d4|]|] eqn:H4;
    [ | | discriminate].
  { intros H; injection H as <-. revert H4.
    unfold Router.busiest_rooms_block.
    destruct (_ || _ || _ || _); [|discriminate].
    destruct (Router._parse_days_hours E qn); cbn [bind]; [|discriminate].
    named_in_list. }
  destruct (Router.underused_rooms_block E qn) as [[d5|]|] eqn:H5;
    [ | | discriminate].
  { intros H; injection H as <-. revert H5.
    unfold Router.underused_rooms_block.
    destruct (_ || _ || _ || _); [|discriminate].
    destruct (Router._parse_days_hours E qn); cbn [bind]; [|discriminate].
    destruct (Router._parse_threshold_percent E qn); cbn [bind];
      [|discriminate].
    named_in_list. }
  destruct (Router.plan_coffee_machines_block E qn) as [[d6|]|] eqn:H6;
    [ | | discriminate].
  { intros H; injection H as <-. revert H6.
    unfold Router.plan_coffee_machines_block.
    destruct (_ && _); [|discriminate].
    destruct (Router._parse_days_hours E qn); cbn [bind]; [|discriminate].
    destruct (Router._parse_int E qn); cbn [bind]; [|discriminate].
    named_in_list. }
  discriminate.
Qed.

Lemma rooms_on_floor_decision (q : pystr) (d : Router.Decision) :
  Router._fast_intent E q = Ok (Some d) ->
  Router.name d = VStr (u "rooms_on_floor") ->
  exists n,
    Router._intent_rooms_on_floor E q = Ok (Some n)
    /\ Router.args d = VDict [(u "floor", VStr (str_of_int n))].
Proof.
  unfold Router._fast_intent. cbv zeta.
  destruct (Router._intent_list_floors E q).
  { intros H; injection H as <-. intros H. vm_compute in H. discriminate H. }
  destruct (Router._intent_rooms_on_floor E q) as [[fl|]|]; cbn [bind];
    [ | | discriminate].
  { intros H; injection H as <-. intros _. exists fl. split; reflexivity. }
  intros H Hn. apply later_blocks_names in H as (nm & Hd & Hin).
  rewrite Hd in Hn. injection Hn as ->. exfalso.
  vm_compute in Hin.
  repeat (destruct Hin as [Hin|Hin]; [discriminate Hin|]). destruct Hin.
Qed.

End BlockNames.

(** X22.  The floor of a decision for the rooms of a floor is the decimal text
    of the integer the question names, and the database client reads it
    back as that integer: such a floor is always compared as a number,
    never by name. *)
Theorem rooms_on_floor_decision_names_a_numeric_floor :
  forall (E : py_env) (q : pystr) (d : Router.Decision),
    Router._fast_intent E q = Ok (Some d) ->
    Router.name d = VStr (u "rooms_on_floor") ->
    exists n,
      Router._intent_rooms_on_floor E q = Ok (Some n)
      /\ Router.args d = VDict [(u "floor", VStr (str_of_int n))]
      /\ DuckDBClient._floor_where E (VStr (str_of_int n))
         = Ok (DuckDBClient.numeric_floor, [VInt n]).
Proof.
  intros E q d H Hn.
  destruct (rooms_on_floor_decision E q d H Hn) as (n & Hi & Ha).
  exists n. repeat split; try assumption.
  pose proof (parse_floor_token_int E n [] [] (Forall_nil _) (Forall_nil _))
    as Hp.
  rewrite app_nil_r in Hp. cbn [app] in Hp.
  unfold DuckDBClient._floor_where. now rewrite Hp.
Qed.

Lemma rooms_on_floor_decision_names_a_numeric_floor_witness :
  exists n,
    Router._intent_rooms_on_floor ascii_env (u "rooms on level +03")
    = Ok (Some n)
    /\ VDict [(u "floor", VStr (u "3"))]
       = VDict [(u "floor", VStr (str_of_int n))]
    /\ DuckDBClient._floor_where ascii_env (VStr (str_of_int n))
       = Ok (DuckDBClient.numeric_floor, [VInt n]).
Proof.
  apply (rooms_on_floor_decision_names_a_numeric_floor ascii_env
           (u "rooms on level +03")
           (Router.tool_decision (u "rooms_on_floor")
              [(u "floor", VStr (u "3"))]
              (u "fast_intent: rooms_on_floor floor=3 → tool"))).
  - vm_compute; reflexivity.
  - reflexivity.
Defined.

(** ** The normalized text of a question *)

Section Normalize.
Variable E : py_env.

Lemma re_sub_from_S (fl : re_flags) (r : regex) (repl : pystr) (fuel : nat)
      (prev : option N) (s : pystr) :
  re_sub_from E fl r repl (S fuel) prev s
  = let here := {| m_prev := prev; m_rest := s; m_groups := [] |} in
    match rmatch E fl r here (fun st => Some st) with
    | Some st =>
        if shorter st here
        then repl ++ re_sub_from E fl r repl fuel (m_prev st) (m_rest st)
        else match s with
             | [] => repl
             | c :: s' => repl ++ c :: re_sub_from E fl r repl fuel (Some c) s'
             end
    | None =>
        match s with
        | [] => []
        | c :: s' => c :: re_sub_from E fl r repl fuel (Some c) s'
        end
    end.
Proof. reflexivity. Qed.

Lemma spaces_not_here (p : option N) (s : pystr) :
  match s with [] => True | c :: _ => is_space E c = false end ->
  rmatch E no_flags Router.re_spaces
    {| m_prev := p; m_rest := s; m_groups := [] |} (fun st => Some st)
  = None.
Proof.
  intros H. unfold Router.re_spaces, RPlus. rewrite rmatch_rep.
  cbn [m_rest]. destruct s as [|c s]; [reflexivity|].
  cbn [List.length]. rewrite rep_loop_S. cbv zeta.
  rewrite rmatch_cls. cbn [m_rest]. cbn [cls_match]. now rewrite H.
Qed.

Lemma lstrip_shorter (c : N) (s : pystr) :
  is_space E c = true ->
  (List.length (lstrip E (c :: s)) < List.length (c :: s))%nat.
Proof.
  intros Hc. cbn [lstrip]. rewrite Hc.
  destruct (lstrip_split E s) as (ws & Hs & _).
  apply (f_equal (@List.length N)) in Hs. rewrite length_app in Hs.
  cbn [List.length]. lia.
Qed.

Lemma spaces_here (p : option N) (c : N) (s : pystr) :
  is_space E c = true ->
  exists p',
    rmatch E no_flags Router.re_spaces
      {| m_prev := p; m_rest := c :: s; m_groups := [] |} (fun st => Some st)
    = Some {| m_prev := p'; m_rest := lstrip E (c :: s); m_groups := [] |}.
Proof.
  intros Hc. unfold Router.re_spaces, RPlus. rewrite rmatch_rep.
  destruct (lstrip_split E (c :: s)) as (ws & Hs & Hw).
  eexists.
  eapply (rep_greedy_commit E no_flags CSpace 1 _ _ (lstrip E (c :: s)))
    with (ws := ws).
  - destruct (lstrip_head E (c :: s)) as [->|(d & t & -> & Hd)];
      [exact I | exact Hd].
  - exact Hs.
  - exact Hw.
  - cbn [m_rest]. apply (f_equal (@List.length N)) in Hs.
    rewrite length_app in Hs. lia.
  - pose proof (lstrip_shorter c s Hc) as L.
    apply (f_equal (@List.length N)) in Hs. rewrite length_app in Hs. lia.
  - reflexivity.
Qed.

(** Text in which every white-space character is a plain space and no two
    spaces follow each other. *)
Let single_spaced (out : pystr) : Prop :=
  Forall (fun c => is_space E c = true -> c = 32%N) out
  /\ contains [32%N; 32%N] out = false.

Lemma not_space_not_32 (c : N) : is_space E c = false -> cp_eqb 32 c = false.
Proof.
  intros H. destruct (cp_eqb 32 c) eqn:Hc; [|reflexivity].
  apply cp_eqb_eq in Hc. subst c. discriminate H.
Qed.

Lemma sub_spaces_single (fuel : nat) :
  forall (prev : option N) (s : pystr),
    (List.length s < fuel)%nat ->
    let out := re_sub_from E no_flags Router.re_spaces [32%N] fuel prev s in
    single_spaced out
    /\ match s with
       | [] => out = []
       | c :: _ => is_space E c = false -> exists o, out = c :: o
       end.
Proof.
  induction fuel as [|fuel IH]; intros prev s L; [lia|]. cbv zeta.
  rewrite re_sub_from_S. cbv zeta.
  destruct s as [|c s]; [rewrite spaces_not_here by exact I|].
  { repeat split. constructor. }
  destruct (is_space E c) eqn:Hc.
  - destruct (spaces_here prev c s Hc) as (p' & ->).
    pose proof (lstrip_shorter c s Hc) as Lt.
    unfold shorter. cbn [m_rest m_prev].
    rewrite (proj2 (Nat.ltb_lt _ _) Lt).
    destruct (IH p' (lstrip E (c :: s))) as ((F & C) & Hd); [cbn in *; lia|].
    split; [|discriminate]. split.
    + constructor; [reflexivity | exact F].
    + cbn [app]. rewrite contains_unfold, C, orb_false_r.
      cbn [startswith]. rewrite cp_eqb_refl.
      destruct (lstrip_head E (c :: s)) as [Hn|(d & t & Hn & Hdn)];
        rewrite Hn in *.
      * rewrite Hd. reflexivity.
      * destruct (Hd Hdn) as (o & ->). cbn [startswith].
        now rewrite (not_space_not_32 d Hdn).
  - rewrite spaces_not_here by exact Hc.
    destruct (IH (Some c) s) as ((F & C) & _); [cbn in *; lia|].
    split; [|intros _; eexists; reflexivity]. split.
    + constructor; [congruence | exact F].
    + rewrite contains_unfold, C, orb_false_r.
      cbn [startswith]. now rewrite (not_space_not_32 c Hc).
Qed.

Lemma strip_idem (s : pystr) : strip E (strip E s) = strip E s.
Proof.
  unfold strip at 1.
  rewrite lstrip_unspaced.
  - unfold strip. apply rstrip_idem.
  - destruct (strip_head E s) as [->|(c & t & -> & Hc)];
      [exact I | exact Hc].
Qed.

Lemma normalize_single_spaced (q : pystr) :
  strip E (Router._normalize_text E q) = Router._normalize_text E q
  /\ single_spaced (Router._normalize_text E q).
Proof.
  unfold Router._normalize_text. cbv zeta. split; [apply strip_idem|].
  set (x := strip_accents E (lower E q)).
  unfold re_sub.
  destruct (sub_spaces_single (S (List.length x)) None x (Nat.lt_succ_diag_r _))
    as ((F & C) & _).
  set (out := re_sub_from _ _ _ _ _ _ _) in *.
  destruct (strip_split E out) as (ws1 & ws2 & Hs & _ & _).
  split.
  - rewrite Hs in F. apply Forall_app in F as [_ F].
    now apply Forall_app in F as [F _].
  - destruct (contains [32%N; 32%N] (strip E out)) eqn:Hc; [|reflexivity].
    rewrite Hs in C. rewrite contains_app_r in C; [discriminate|].
    now apply contains_app_l.
Qed.

End Normalize.

(** X23.  The normalized text of a question has no white space at its ends,
    every white-space character in it is a plain space, and no two spaces
    follow each other: runs of white space of any kind have become single
    spaces. *)
Theorem normalized_text_is_single_spaced :
  forall (E : py_env) (q : pystr),
    strip E (Router._normalize_text E q) = Router._normalize_text E q
    /\ Forall (fun c => is_space E c = true -> c = 32%N)
         (Router._normalize_text E q)
    /\ contains (u "  ") (Router._normalize_text E q) = false.
Proof.
  intros E q. destruct (normalize_single_spaced E q) as (H1 & H2 & H3).
  repeat split; assumption.
Qed.

(** ** Room keys and room ids *)

Section RoomKeys.
Variable u_isdigit : N -> bool.
Variable u_upper : N -> pystr.

Ltac by_ranges :=
  repeat match goal with
    | H : (_ && _)%bool = true |- _ => apply andb_true_iff in H as [? ?]
    | H : (_ || _)%bool = true |- _ => apply orb_true_iff in H as [?|?]
    | H : (_ <=? _)%N = true |- _ => apply N.leb_le in H
    | H : (_ <? _)%N = true |- _ => apply N.ltb_lt in H
    | H : (_ <=? _)%N = false |- _ => apply N.leb_gt in H
    | H : (_ <? _)%N = false |- _ => apply N.ltb_ge in H
    end.

Lemma alnum_is_ascii (c : N) :
  DuckDBClient.ascii_alnum c = true -> is_ascii c = true.
Proof.
  unfold DuckDBClient.ascii_alnum, is_ascii. intros H. by_ranges;
    apply N.ltb_lt; lia.
Qed.

Lemma upper_of_alnum (c : N) :
  DuckDBClient.ascii_alnum c = true ->
  ascii_upper_alnum (DuckDBClient.ascii_upper c) = true.
Proof.
  unfold DuckDBClient.ascii_alnum, DuckDBClient.ascii_upper,
    ascii_upper_alnum. intros H.
  destruct ((97 <=? c) && (c <=? 122))%N eqn:Hl.
  - by_ranges; apply orb_true_iff; right; apply andb_true_iff;
      split; apply N.leb_le; lia.
  - rewrite orb_false_r in H. exact H.
Qed.

Lemma upper_alnum_fixed (c : N) :
  ascii_upper_alnum c = true ->
  DuckDBClient.ascii_alnum c = true /\ DuckDBClient.ascii_upper c = c.
Proof.
  unfold DuckDBClient.ascii_alnum, DuckDBClient.ascii_upper,
    ascii_upper_alnum. intros H. split.
  - apply orb_true_iff in H as [H|H]; rewrite H;
      [reflexivity | now rewrite orb_true_r].
  - destruct ((97 <=? c) && (c <=? 122))%N eqn:Hl; [|reflexivity].
    by_ranges; lia.
Qed.

Lemma room_key_map (s : pystr) :
  DuckDBClient._to_room_key u_upper (Some s)
  = map DuckDBClient.ascii_upper (filter DuckDBClient.ascii_alnum s).
Proof.
  unfold DuckDBClient._to_room_key, DuckDBClient.upper,
    DuckDBClient.or_empty.
  induction s as [|c s IH]; [reflexivity|]. cbn [filter].
  destruct (DuckDBClient.ascii_alnum c) eqn:Hc; [|exact IH].
  cbn [flat_map map]. rewrite IH. unfold DuckDBClient.upper_cp.
  now rewrite (alnum_is_ascii c Hc).
Qed.

Lemma room_key_alphabet (s : pystr) :
  Forall (fun c => ascii_upper_alnum c = true)
    (DuckDBClient._to_room_key u_upper (Some s)).
Proof.
  rewrite room_key_map. induction s as [|c s IH]; [constructor|].
  cbn [filter]. destruct (DuckDBClient.ascii_alnum c) eqn:Hc; [|exact IH].
  cbn [map]. constructor; [now apply upper_of_alnum | exact IH].
Qed.

Lemma room_key_fixed (k : pystr) :
  Forall (fun c => ascii_upper_alnum c = true) k ->
  DuckDBClient._to_room_key u_upper (Some k) = k.
Proof.
  rewrite room_key_map. induction 1 as [|c k Hc _ IH]; [reflexivity|].
  destruct (upper_alnum_fixed c Hc) as [Ha Hu].
  cbn [filter]. rewrite Ha. cbn [map]. now rewrite Hu, IH.
Qed.

Lemma room_key_app (a b : pystr) :
  DuckDBClient._to_room_key u_upper (Some (a ++ b))
  = DuckDBClient._to_room_key u_upper (Some a)
    ++ DuckDBClient._to_room_key u_upper (Some b).
Proof. rewrite !room_key_map, filter_app. apply map_app. Qed.

Lemma isdigit_of_upper (c : N) :
  DuckDBClient.ascii_alnum c = true ->
  DuckDBClient.isdigit u_isdigit (DuckDBClient.ascii_upper c)
  = DuckDBClient.isdigit u_isdigit c.
Proof.
  intros Hc. unfold DuckDBClient.ascii_upper.
  destruct ((97 <=? c) && (c <=? 122))%N eqn:Hl; [|reflexivity].
  unfold DuckDBClient.isdigit, is_ascii.
  by_ranges.
  replace (c - 32 <? 128)%N with true by (symmetry; apply N.ltb_lt; lia).
  replace (c <? 128)%N with true by (symmetry; apply N.ltb_lt; lia).
  replace (c - 32 <=? 57)%N with false by (symmetry; apply N.leb_gt; lia).
  replace (48 <=? c)%N with true by (symmetry; apply N.leb_le; lia).
  replace (c <=? 57)%N with false by (symmetry; apply N.leb_gt; lia).
  now rewrite andb_false_r.
Qed.

Lemma ascii_digit_is_alnum (c : N) :
  is_ascii c = true -> DuckDBClient.isdigit u_isdigit c = true ->
  DuckDBClient.ascii_alnum c = true.
Proof.
  unfold DuckDBClient.isdigit, DuckDBClient.ascii_alnum.
  intros -> H. now rewrite H.
Qed.

Lemma room_id_of_key (s : pystr) :
  Forall (fun c => is_ascii c = true) s ->
  DuckDBClient._to_room_id u_isdigit
    (Some (DuckDBClient._to_room_key u_upper (Some s)))
  = DuckDBClient._to_room_id u_isdigit (Some s).
Proof.
  rewrite room_key_map. unfold DuckDBClient._to_room_id,
    DuckDBClient.or_empty.
  induction 1 as [|c s Hc _ IH]; [reflexivity|]. cbn [filter].
  destruct (DuckDBClient.ascii_alnum c) eqn:Ha.
  - cbn [map filter]. rewrite (isdigit_of_upper c Ha), IH.
    destruct (DuckDBClient.isdigit u_isdigit c) eqn:Hd; [|reflexivity].
    f_equal. unfold DuckDBClient.ascii_upper.
    destruct ((97 <=? c) && (c <=? 122))%N eqn:Hl; [|reflexivity].
    unfold DuckDBClient.isdigit in Hd. rewrite Hc in Hd. by_ranges. lia.
  - rewrite IH.
    destruct (DuckDBClient.isdigit u_isdigit c) eqn:Hd; [|reflexivity].
    rewrite (ascii_digit_is_alnum c Hc Hd) in Ha. discriminate.
Qed.

End RoomKeys.

(** X24.  The key of a room is a normal form: it is made of upper-case letters
    and digits of ASCII only, whatever the text held; it is its own key;
    and the key of a text in two parts is the key of the first part
    followed by that of the second (separators and case do not matter).
    A missing text has the empty key. *)
Theorem room_key_is_a_normal_form :
  forall (u_upper : N -> pystr) (a b : pystr),
    Forall (fun c => ascii_upper_alnum c = true)
      (DuckDBClient._to_room_key u_upper (Some a))
    /\ DuckDBClient._to_room_key u_upper
         (Some (DuckDBClient._to_room_key u_upper (Some a)))
       = DuckDBClient._to_room_key u_upper (Some a)
    /\ DuckDBClient._to_room_key u_upper (Some (a ++ b))
       = DuckDBClient._to_room_key u_upper (Some a)
         ++ DuckDBClient._to_room_key u_upper (Some b)
    /\ DuckDBClient._to_room_key u_upper None = [].
Proof.
  intros u_upper a b. repeat split.
  - apply room_key_alphabet.
  - apply room_key_fixed, room_key_alphabet.
  - apply room_key_app.
Qed.

(** X25.  For a text of ASCII characters the id of a room is the id of its key:
    the digits of the text, in order, are the digits of the key. *)
Theorem room_id_is_the_id_of_the_key :
  forall (u_isdigit : N -> bool) (u_upper : N -> pystr) (s : pystr),
    Forall (fun c => is_ascii c = true) s ->
    DuckDBClient._to_room_id u_isdigit
      (Some (DuckDBClient._to_room_key u_upper (Some s)))
    = DuckDBClient._to_room_id u_isdigit (Some s).
Proof. intros. now apply room_id_of_key. Qed.

Lemma room_id_is_the_id_of_the_key_witness :
  DuckDBClient._to_room_id (fun _ => false)
    (Some (DuckDBClient._to_room_key (fun c => [c]) (Some (u "Room 3.2a-01"))))
  = DuckDBClient._to_room_id (fun _ => false) (Some (u "Room 3.2a-01")).
Proof.
  apply (room_id_is_the_id_of_the_key (fun _ => false) (fun c => [c])
           (u "Room 3.2a-01")).
  repeat constructor.
Defined.

(** ** The language-model planner *)

Section PlanFacts.
Variable E : py_env.
Variable grounding : result pystr.
Variable chat_tool_planner : pystr -> pystr -> result pystr.
Variable chat_sql_planner : pystr -> pystr -> result pystr.

Abbreviation plan :=
  (Planner.plan E grounding chat_tool_planner chat_sql_planner).

Lemma truthy_dict_set (k : pystr) (v : pyval) (d : pydict) :
  truthy (VDict (dict_set k v d)) = true.
Proof.
  destruct d as [|[k' v'] d]; cbn [dict_set]; [reflexivity|].
  now destruct (str_eqb k k').
Qed.

Lemma setitem_ok (v : pyval) (k : pystr) (x v' : pyval) :
  Planner.setitem v k x = Ok v' ->
  exists d, v = VDict d /\ v' = VDict (dict_set k x d).
Proof.
  destruct v; try discriminate. intros H; injection H as <-.
  eexists; split; reflexivity.
Qed.

(** The first normalization of the tool path: a blank floor becomes
    [None]. *)
Let unblank (args : pyval) : result pyval :=
  has_floor <- contains_str (u "floor") args ;;
  if has_floor then
    f <- getitem args (u "floor") ;;
    match f with
    | VStr s =>
        if str_eqb (strip E s) []
        then Planner.setitem args (u "floor") VNone
        else Ok args
    | _ => Ok args
    end
  else Ok args.

(** The second: the coffee planner gets one hour when the user said
    "now". *)
Let with_now (user_msg : pystr) (name args : pyval) : result pyval :=
  if eq_str name (u "plan_coffee_machines") then
    has_hours <- contains_str (u "hours") args ;;
    if negb has_hours && contains (u "now") (lower E user_msg)
    then Planner.setitem args (u "hours") (VInt 1)
    else Ok args
  else Ok args.

Lemma unblank_ok (args args' : pyval) :
  unblank args = Ok args' ->
  (truthy args = true \/ args = VDict [] ->
   truthy args' = true \/ args' = VDict [])
  /\ (forall d s, args' = VDict d ->
        dict_get (u "floor") d = Some (VStr s) -> strip E s <> []).
Proof.
  unfold unblank.
  destruct (contains_str (u "floor") args) as [[|]|] eqn:Hc; cbn [bind];
    [ | | discriminate].
  - destruct (getitem args (u "floor")) as [f|] eqn:Hf; cbn [bind];
      [|discriminate].
    destruct args as [| | | | | |d0|]; try discriminate.
    unfold getitem in Hf.
    destruct (dict_get (u "floor") d0) as [x|] eqn:Hd; [|discriminate].
    injection Hf as ->.
    destruct f as [| | | |s| | |];
      try (intros H; injection H as <-; split; [auto|];
           intros ? ? Hd'; injection Hd' as <-; rewrite Hd; discriminate).
    destruct (str_eqb (strip E s) []) eqn:Hs.
    + cbn. intros H; injection H as <-. split.
      * intros _. left. apply truthy_dict_set.
      * intros d s' Hd'; injection Hd' as <-.
        rewrite dict_get_set_same. discriminate.
    + intros H; injection H as <-. split; [auto|].
      intros d s' Hd'; injection Hd' as <-. rewrite Hd.
      intros H; injection H as <-. intros Hn. rewrite Hn in Hs.
      discriminate.
  - intros H; injection H as <-. split; [auto|].
    intros d s Hd Hg. subst args. unfold contains_str, dict_has in Hc.
    rewrite Hg in Hc. discriminate.
Qed.

Lemma with_now_ok (user_msg : pystr) (name args args' : pyval) :
  with_now user_msg name args = Ok args' ->
  (truthy args = true \/ args = VDict [] ->
   truthy args' = true \/ args' = VDict [])
  /\ (forall d s, (forall d0, args = VDict d0 ->
                     dict_get (u "floor") d0 = Some (VStr s) ->
                     strip E s <> []) ->
        args' = VDict d ->
        dict_get (u "floor") d = Some (VStr s) -> strip E s <> [])
  /\ (eq_str name (u "plan_coffee_machines") = true ->
      contains (u "now") (lower E user_msg) = true ->
      contains_str (u "hours") args' = Ok true).
Proof.
  unfold with_now.
  assert (Same : forall P : Prop, P ->
            (truthy args = true \/ args = VDict [] ->
             truthy args = true \/ args = VDict [])
            /\ (forall d s, (forall d0, args = VDict d0 ->
                               dict_get (u "floor") d0 = Some (VStr s) ->
                               strip E s <> []) ->
                  args = VDict d ->
                  dict_get (u "floor") d = Some (VStr s) -> strip E s <> [])
            /\ P).
  { intros P HP. repeat split; [auto | | exact HP].
    intros d s Hfl Hd Hg. eapply Hfl; eassumption. }
  destruct (eq_str name (u "plan_coffee_machines")).
  2:{ intros H; injection H as <-. apply Same. discriminate. }
  destruct (contains_str (u "hours") args) as [h|] eqn:Hc; cbn [bind];
    [|discriminate].
  destruct (contains (u "now") (lower E user_msg)).
  2:{ rewrite andb_false_r. intros H; injection H as <-. apply Same.
      discriminate. }
  rewrite andb_true_r. destruct h; cbn [negb].
  { intros H; injection H as <-. apply Same. intros _ _. exact Hc. }
  intros H. apply setitem_ok in H as (d0 & -> & ->). repeat split.
  - intros _. left. apply truthy_dict_set.
  - intros d s Hfl Hd; injection Hd as <-.
    rewrite dict_get_set_other by (vm_compute; reflexivity).
    now apply Hfl.
  - intros _ _. unfold contains_str, dict_has.
    now rewrite dict_get_set_same.
Qed.

Lemma plan_unfold (user_msg : pystr) :
  plan user_msg
  = (g <- grounding ;;
     out <- chat_tool_planner g user_msg ;;
     match json_loads E (strip E out) with
     | Raise _ =>
         reply <- chat_sql_planner g user_msg ;;
         let sql := Planner.strip_chars (u "`") (strip E reply) in
         if negb (Planner.is_query E sql)
         then Ok (Planner.final (VStr Planner.unparsed))
         else Ok (Planner.sql_plan sql)
     | Ok decision =>
         has_tool <- contains_str (u "tool") decision ;;
         if has_tool then
           name <- get_default decision (u "tool") (VStr []) ;;
           a0 <- get_default decision (u "args") (VDict []) ;;
           a1 <- unblank (py_or a0 (VDict [])) ;;
           a2 <- with_now user_msg name a1 ;;
           Ok (VDict [(u "tool", name); (u "args", a2)])
         else
           md <- get decision (u "mode") ;;
           if eq_str md (u "sql") then
             sq <- get_default decision (u "sql") (VStr []) ;;
             match sq with
             | VStr s =>
                 let sql := Planner.strip_chars (u "`") (strip E s) in
                 if negb (Planner.is_query E sql)
                 then Ok (Planner.final (VStr Planner.invalid_sql))
                 else Ok (Planner.sql_plan sql)
             | _ => Raise (Builtin AttributeError (u "strip"))
             end
           else
             has_final <- contains_str (u "final") decision ;;
             if has_final then
               f <- getitem decision (u "final") ;;
               Ok (Planner.final f)
             else Ok (Planner.final (VStr Planner.no_tool))
     end).
Proof.
  unfold Planner.plan, unblank.
  destruct grounding as [g|]; cbn [bind]; [|reflexivity].
  destruct (chat_tool_planner g user_msg) as [out|]; cbn [bind];
    [|reflexivity].
  destruct (json_loads E (strip E out)) as [decision|]; [|reflexivity].
  destruct (contains_str (u "tool") decision) as [[|]|]; cbn [bind];
    try reflexivity.
  destruct (get_default decision (u "tool") (VStr [])) as [name|];
    cbn [bind]; [|reflexivity].
  destruct (get_default decision (u "args") (VDict [])) as [a0|];
    cbn [bind]; [|reflexivity].
  destruct (contains_str (u "floor") (py_or a0 (VDict []))) as [[|]|];
    cbn [bind]; reflexivity.
Qed.

Lemma py_or_dict (a0 : pyval) :
  truthy (py_or a0 (VDict [])) = true \/ py_or a0 (VDict []) = VDict [].
Proof. unfold py_or. destruct (truthy a0) eqn:H; auto. Qed.

Lemma plan_tool_path (user_msg : pystr) (nm a : pyval) :
  plan user_msg = Ok (VDict [(u "tool", nm); (u "args", a)]) ->
  (truthy a = true \/ a = VDict [])
  /\ (forall d s, a = VDict d -> dict_get (u "floor") d = Some (VStr s) ->
                  strip E s <> [])
  /\ (eq_str nm (u "plan_coffee_machines") = true ->
      contains (u "now") (lower E user_msg) = true ->
      contains_str (u "hours") a = Ok true).
Proof.
  rewrite plan_unfold.
  destruct grounding as [g|]; cbn [bind]; [|discriminate].
  destruct (chat_tool_planner g user_msg) as [out|]; cbn [bind];
    [|discriminate].
  destruct (json_loads E (strip E out)) as [decision|].
  2:{ destruct (chat_sql_planner g user_msg); cbn [bind]; [|discriminate].
      cbv zeta. destruct (negb _); discriminate. }
  destruct (contains_str (u "tool") decision) as [[|]|]; cbn [bind];
    [ | | discriminate].
  - destruct (get_default decision (u "tool") (VStr [])) as [name|];
      cbn [bind]; [|discriminate].
    destruct (get_default decision (u "args") (VDict [])) as [a0|];
      cbn [bind]; [|discriminate].
    destruct (unblank (py_or a0 (VDict []))) as [a1|] eqn:H1; cbn [bind];
      [|discriminate].
    destruct (with_now user_msg name a1) as [a2|] eqn:H2; cbn [bind];
      [|discriminate].
    intros H; injection H as <- <-.
    apply unblank_ok in H1 as [T1 F1].
    apply with_now_ok in H2 as (T2 & F2 & N2).
    repeat split.
    + apply T2, T1, py_or_dict.
    + intros d s Hd. apply F2; [|exact Hd]. intros d0 Hd0. now apply F1.
    + exact N2.
  - destruct (get decision (u "mode")) as [md|]; cbn [bind]; [|discriminate].
    destruct (eq_str md (u "sql")).
    + destruct (get_default decision (u "sql") (VStr [])) as [sq|];
        cbn [bind]; [|discriminate].
      destruct sq; try discriminate. cbv zeta.
      destruct (negb _); discriminate.
    + destruct (contains_str (u "final") decision) as [[|]|]; cbn [bind];
        try discriminate.
      destruct (getitem decision (u "final")); cbn [bind]; discriminate.
Qed.

Lemma plan_has_shape (user_msg : pystr) (v : pyval) :
  plan user_msg = Ok v -> plan_shape E v.
Proof.
  rewrite plan_unfold. unfold plan_shape.
  destruct grounding as [g|]; cbn [bind]; [|discriminate].
  destruct (chat_tool_planner g user_msg) as [out|]; cbn [bind];
    [|discriminate].
  destruct (json_loads E (strip E out)) as [decision|].
  2:{ destruct (chat_sql_planner g user_msg); cbn [bind]; [|discriminate].
      cbv zeta. destruct (Planner.is_query E _) eqn:Hq; cbn [negb];
        intros H; injection H as <-.
      - right; right. eexists; split; [reflexivity | exact Hq].
      - left. eexists; reflexivity. }
  destruct (contains_str (u "tool") decision) as [[|]|]; cbn [bind];
    [ | | discriminate].
  - destruct (get_default decision (u "tool") (VStr [])) as [name|];
      cbn [bind]; [|discriminate].
    destruct (get_default decision (u "args") (VDict [])) as [a0|];
      cbn [bind]; [|discriminate].
    destruct (unblank (py_or a0 (VDict []))) as [a1|] eqn:H1; cbn [bind];
      [|discriminate].
    destruct (with_now user_msg name a1) as [a2|] eqn:H2; cbn [bind];
      [|discriminate].
    intros H; injection H as <-.
    apply unblank_ok in H1 as [T1 _].
    apply with_now_ok in H2 as (T2 & _ & _).
    right; left. eexists _, _. split; [reflexivity|].
    apply T2, T1, py_or_dict.
  - destruct (get decision (u "mode")) as [md|]; cbn [bind]; [|discriminate].
    destruct (eq_str md (u "sql")).
    + destruct (get_default decision (u "sql") (VStr [])) as [sq|];
        cbn [bind]; [|discriminate].
      destruct sq; try discriminate. cbv zeta.
      destruct (Planner.is_query E _) eqn:Hq; cbn [negb];
        intros H; injection H as <-.
      * right; right. eexists; split; [reflexivity | exact Hq].
      * left. eexists; reflexivity.
    + destruct (contains_str (u "final") decision) as [[|]|]; cbn [bind];
        try discriminate.
      * destruct (getitem decision (u "final")); cbn [bind];
          [|discriminate].
        intros H; injection H as <-. left. eexists; reflexivity.
      * intros H; injection H as <-. left. eexists; reflexivity.
Qed.

End PlanFacts.

(** X26.  Whatever the language model replies, what [plan] returns is one of
    three dictionaries: a final text; a tool with its arguments, which are
    never [None]; or a statement in mode sql, and such a statement begins,
    lowered, with select or with.  (These are the three forms that
    [AgentPro.run] reads.) *)
Theorem plan_returns_one_of_three_forms :
  forall (E : py_env) (grounding : result pystr)
         (chat_tool_planner chat_sql_planner : pystr -> pystr -> result pystr)
         (user_msg : pystr) (v : pyval),
    Planner.plan E grounding chat_tool_planner chat_sql_planner user_msg
    = Ok v ->
    plan_shape E v.
Proof. intros. eapply plan_has_shape; eassumption. Qed.

Lemma plan_returns_one_of_three_forms_witness :
  plan_shape ascii_env
    (VDict [(u "mode", VStr (u "sql")); (u "sql", VStr (u "SELECT 1"))]).
Proof.
  apply (plan_returns_one_of_three_forms ascii_env (Ok (u "{}"))
           (fun _ _ => Ok (u "I would run a query"))
           (fun _ _ => Ok (u " ```SELECT 1``` ")) (u "how many rooms")).
  vm_compute; reflexivity.
Defined.

(** X27.  On the tool path [plan] hands on arguments in which a floor that is a
    string is not blank (a blank floor has become [None]), and for the
    coffee planner, when the user's message says "now" in any case, the
    arguments hold hours. *)
Theorem plan_normalizes_the_arguments_of_a_tool :
  forall (E : py_env) (grounding : result pystr)
         (chat_tool_planner chat_sql_planner : pystr -> pystr -> result pystr)
         (user_msg : pystr) (nm a : pyval),
    Planner.plan E grounding chat_tool_planner chat_sql_planner user_msg
    = Ok (VDict [(u "tool", nm); (u "args", a)]) ->
    (forall d s, a = VDict d -> dict_get (u "floor") d = Some (VStr s) ->
                 strip E s <> [])
    /\ (eq_str nm (u "plan_coffee_machines") = true ->
        contains (u "now") (lower E user_msg) = true ->
        contains_str (u "hours") a = Ok true).
Proof.
  intros E g c1 c2 msg nm a H.
  apply plan_tool_path in H as (_ & H1 & H2). split; assumption.
Qed.

Lemma plan_normalizes_the_arguments_of_a_tool_witness :
  (forall d s,
     VDict [(u "floor", VNone); (u "hours", VInt 1)] = VDict d ->
     dict_get (u "floor") d = Some (VStr s) -> strip coffee_reply_env s <> [])
  /\ (eq_str (VStr (u "plan_coffee_machines")) (u "plan_coffee_machines")
      = true ->
      contains (u "now") (lower coffee_reply_env (u "Best spots NOW")) = true ->
      contains_str (u "hours")
        (VDict [(u "floor", VNone); (u "hours", VInt 1)]) = Ok true).
Proof.
  apply (plan_normalizes_the_arguments_of_a_tool coffee_reply_env
           (Ok (u "{}")) (fun _ _ => Ok (u "a call of the coffee planner"))
           (fun _ _ => Ok []) (u "Best spots NOW")
           (VStr (u "plan_coffee_machines"))
           (VDict [(u "floor", VNone); (u "hours", VInt 1)])).
  vm_compute; reflexivity.
Defined.
